(** * Ledger and verification flows of the marketplace server

    A shallow embedding of the balance-moving routes of [server/routes.ts]
    and of the storage methods of [server/storage.ts] they call, over the
    tables of [shared/schema.ts]:

    - [POST /api/marketplace]               ([createListing_route])
    - [POST /api/marketplace/:id/purchase]  ([purchase_route])
    - [POST /api/verification/purchase]     ([verification_route])
    - [POST /api/admin/gift-money]          ([giftMoney_route])
    - [DatabaseStorage.checkAndExpireVerifications], the hourly sweep;

    and of the routes around them: download and deletion of a listing, the
    notification routes, and the administrator's switches of verification
    and suspension.

    Modelling conventions.

    - A [decimal(p, 2)] column holds an integer number of cents, a [Z] whose
      absolute value is below [10 ^ p]; the database rounds what it is given
      to cents and refuses a value outside that range, which the route
      observes as a thrown error.  On such values [parseFloat], the float
      addition or subtraction of two of them and [toFixed(2)] are exact, so
      the arithmetic of the routes is done on cents.
    - An [integer] column holds 32 bits; the database refuses a value
      outside them.
    - A [timestamp] is a number of milliseconds since the epoch.  A request
      is served at the instant [clock]; a function that reads the clock
      again finds it where it was or later ([later]).  [Date]'s [getMonth]
      and [setMonth] work in the local time of the process ([timeZone]).
    - Tables are lists of rows in insertion order.  The statements of the
      routes run one after the other with no transaction around them, so a
      statement that throws leaves the earlier writes in place.
    - User rows are never deleted.  The foreign key of a new listing's
      seller is checked, for the seller is the session's user, whom the
      route does not look up; the other inserts name rows the routes have
      read, or rows a foreign key of those guarantees.
    - A field of a request body is taken to have the type its route
      computes with: a JSON number of whole cents for an amount of money, a
      decimal numeral for a price, a boolean for a flag.  A body of another
      JSON type, which no route validates, is outside the embedding.
    - [WHERE] clauses follow SQL's three-valued logic: a comparison with
      [NULL] is unknown, and a row is selected only when the clause is true. *)

From Stdlib Require Import ZArith List String Ascii Bool Lia DecimalString.
Import ListNotations.
Open Scope string_scope.
Open Scope Z_scope.

(** ** JavaScript dates *)

(** The part of ECMAScript's [Date] the server uses: [getMonth] and
    [setMonth], built as the standard prescribes from [LocalTime], [UTC],
    [Day], [TimeWithinDay], [MakeDay] and [MakeDate].  The civil calendar
    is computed era by era (an era is 400 years, 146097 days, and starts on
    a 1st of March). *)
Module JSDate.

Definition msPerDay : Z := 86400000.

Definition Day (t : Z) : Z := t / msPerDay.

Definition TimeWithinDay (t : Z) : Z := t mod msPerDay.

(** Day of the era of the [d]-th day of month [mp] of year [yoe] of the
    era; months are counted from March ([mp = 0]). *)
Definition doe_of (yoe mp d : Z) : Z :=
  yoe * 365 + yoe / 4 - yoe / 100 + ((153 * mp + 2) / 5 + d - 1).

Definition yoe_of (doe : Z) : Z :=
  (doe - doe / 1460 + doe / 36524 - doe / 146096) / 365.

Definition doy_of (doe : Z) : Z :=
  let yoe := yoe_of doe in doe - (365 * yoe + yoe / 4 - yoe / 100).

Definition mp_of (doe : Z) : Z := (5 * doy_of doe + 2) / 153.

Definition dom_of (doe : Z) : Z :=
  doy_of doe - (153 * mp_of doe + 2) / 5 + 1.

(** Number of the day on which month [month] (0 = January) of [year]
    starts, counted from 1970-01-01. *)
Definition first_of_month (year month : Z) : Z :=
  let y := if month <? 2 then year - 1 else year in
  let mp := if month <? 2 then month + 10 else month - 2 in
  (y / 400) * 146097 + doe_of (y mod 400) mp 1 - 719468.

Definition era_of (day : Z) : Z := (day + 719468) / 146097.

Definition doe_of_day (day : Z) : Z := (day + 719468) mod 146097.

(** [MonthFromTime], 0 = January. *)
Definition MonthFromTime (t : Z) : Z :=
  let mp := mp_of (doe_of_day (Day t)) in
  if mp <? 10 then mp + 2 else mp - 10.

Definition YearFromTime (t : Z) : Z :=
  let day := Day t in
  let y := yoe_of (doe_of_day day) + era_of day * 400 in
  if MonthFromTime t <? 2 then y + 1 else y.

(** [DateFromTime], the day of the month, from 1. *)
Definition DateFromTime (t : Z) : Z := dom_of (doe_of_day (Day t)).

Definition MakeDay (year month date : Z) : Z :=
  first_of_month (year + month / 12) (month mod 12) + date - 1.

Definition MakeDate (day time : Z) : Z := day * msPerDay + time.

(** The time zone of the process.  [LocalTZA zone t isUTC] is the offset
    of local time from UTC, in milliseconds: at the instant [t] when
    [isUTC], at the local time [t] otherwise.  An offset is at most a day. *)
Record Zone := mkZone {
  LocalTZA : Z -> bool -> Z;
  LocalTZA_range : forall t isUTC, (Z.abs (LocalTZA t isUTC) <=? msPerDay) = true
}.

Definition LocalTime (zone : Zone) (t : Z) : Z := t + LocalTZA zone t true.

(** [UTC(t)] of the standard: the instant of the local time [t]. *)
Definition ToUTC (zone : Zone) (t : Z) : Z := t - LocalTZA zone t false.

Definition getMonth (zone : Zone) (t : Z) : Z := MonthFromTime (LocalTime zone t).

(** The local time [setMonth] makes: the same day of the month and time of
    day of month [month] of the year of [t]. *)
Definition withMonth (t month : Z) : Z :=
  MakeDate (MakeDay (YearFromTime t) month (DateFromTime t)) (TimeWithinDay t).

(** [TimeClip] is left out: it changes no instant within 100 million days
    of the epoch. *)
Definition setMonth (zone : Zone) (t month : Z) : Z :=
  ToUTC zone (withMonth (LocalTime zone t) month).

(** Number of days of month [month] of [year]. *)
Definition DaysInMonth (year month : Z) : Z :=
  MakeDay year (month + 1) 1 - MakeDay year month 1.

(** [Date.UTC(year, month, date, hours, minutes)], to write instants. *)
Definition UTC (year month date hours minutes : Z) : Z :=
  MakeDate (MakeDay year month date) ((hours * 60 + minutes) * 60000).

End JSDate.

(** ** Rows and tables ([shared/schema.ts]) *)

Record User := mkUser {
  u_id : string;
  u_username : string;
  u_balance : Z;                              (* decimal(12, 2) *)
  u_isAdmin : bool;
  u_hasInfiniteBalance : bool;
  u_isVerified : bool;
  u_verifiedAt : option Z;
  u_verificationExpiry : option Z;
  u_verificationGrantedBy : option string;
  u_isSuspended : bool;
  u_totalEarnings : Z                         (* decimal(12, 2) *)
}.

Record Listing := mkListing {
  l_id : string;
  l_sellerId : string;
  l_title : string;
  l_price : Z;                                (* decimal(10, 2) *)
  l_fileName : string;
  l_fileData : string;
  l_downloads : Z;
  l_isActive : bool
}.

Record Purchase := mkPurchase {
  p_id : string;
  p_buyerId : string;
  p_sellerId : string;
  p_listingId : string;
  p_amount : Z;                               (* decimal(10, 2) *)
  p_platformFee : Z;                          (* decimal(10, 2) *)
  p_transactionId : string;
  p_createdAt : Z
}.

Record Notification := mkNotification {
  n_id : string;
  n_userId : string;
  n_type : string;
  n_title : string;
  n_isRead : bool;
  n_createdAt : Z
}.

Record Achievement := mkAchievement {
  a_id : string;
  a_userId : string;
  a_type : string;
  a_earnedAt : Z
}.

Record MoneyGift := mkMoneyGift {
  g_id : string;
  g_fromUserId : string;
  g_toUserId : string;
  g_amount : Z;                               (* decimal(12, 2) *)
  g_note : option string;
  g_createdAt : Z
}.

(** [verification_payments.status]: active, expired, cancelled. *)
Inductive VerificationStatus := active | expired | cancelled.

Record VerificationPayment := mkVerificationPayment {
  vp_id : string;
  vp_userId : string;
  vp_amount : Z;                              (* decimal(10, 2) *)
  vp_periodStart : Z;
  vp_periodEnd : Z;
  vp_status : VerificationStatus;
  vp_createdAt : Z
}.

Record DB := mkDB {
  users : list User;
  marketplaceListings : list Listing;
  purchases : list Purchase;
  notifications : list Notification;
  achievements : list Achievement;
  moneyGifts : list MoneyGift;
  verificationPayments : list VerificationPayment
}.

(** The server's surroundings during one request: the database, the
    instant of the request, the identifiers [randomUUID()] and
    [gen_random_uuid()] hand out, of which [drawn] are used up, the time
    zone of the process, and by how many milliseconds the clock moves on
    from one reading to the next when a function reads it again. *)
Record World := mkWorld {
  db : DB;
  clock : Z;
  uuids : nat -> string;
  drawn : nat;
  timeZone : JSDate.Zone;
  lag : nat -> N
}.

(** [decimal(p, 2)]: at most [p] digits, counted in cents. *)
Definition fits (p : Z) (cents : Z) : bool := Z.abs cents <? 10 ^ p.

(** A decimal numeral as a request hands it to the database:
    [digits / 10 ^ scale]. *)
Record Decimal := mkDecimal {
  digits : Z;
  scale : nat
}.

(** A number of cents, as a numeral of two decimals. *)
Definition cents (c : Z) : Decimal := mkDecimal c 2.

Coercion cents : Z >-> Decimal.

(** The cents a [decimal(p, 2)] column makes of a numeral: the nearest
    number of cents, and of two the one away from zero. *)
Definition to_cents (x : Decimal) : Z :=
  let unit := 10 ^ Z.of_nat (scale x) in
  Z.sgn (digits x) * ((2 * (Z.abs (digits x) * 100) + unit) / (2 * unit)).

(** [integer]: 32 bits. *)
Definition int4 (n : Z) : bool := (-2147483648 <=? n) && (n <=? 2147483647).

Definition with_balance (b : Z) (u : User) : User :=
  mkUser (u_id u) (u_username u) b (u_isAdmin u) (u_hasInfiniteBalance u)
    (u_isVerified u) (u_verifiedAt u) (u_verificationExpiry u)
    (u_verificationGrantedBy u) (u_isSuspended u) (u_totalEarnings u).

Definition with_totalEarnings (e : Z) (u : User) : User :=
  mkUser (u_id u) (u_username u) (u_balance u) (u_isAdmin u)
    (u_hasInfiniteBalance u) (u_isVerified u) (u_verifiedAt u)
    (u_verificationExpiry u) (u_verificationGrantedBy u) (u_isSuspended u) e.

Definition with_verification (v : bool) (at_ expiry : option Z) (u : User) : User :=
  mkUser (u_id u) (u_username u) (u_balance u) (u_isAdmin u)
    (u_hasInfiniteBalance u) v at_ expiry
    (u_verificationGrantedBy u) (u_isSuspended u) (u_totalEarnings u).

Definition with_expired (u : User) : User :=
  mkUser (u_id u) (u_username u) (u_balance u) (u_isAdmin u)
    (u_hasInfiniteBalance u) false (u_verifiedAt u) None
    (u_verificationGrantedBy u) (u_isSuspended u) (u_totalEarnings u).

Definition with_downloads (n : Z) (l : Listing) : Listing :=
  mkListing (l_id l) (l_sellerId l) (l_title l) (l_price l) (l_fileName l)
    (l_fileData l) n (l_isActive l).

Definition with_status (s : VerificationStatus) (v : VerificationPayment) : VerificationPayment :=
  mkVerificationPayment (vp_id v) (vp_userId v) (vp_amount v) (vp_periodStart v)
    (vp_periodEnd v) s (vp_createdAt v).

Definition set_users (us : list User) (d : DB) : DB :=
  mkDB us (marketplaceListings d) (purchases d) (notifications d)
    (achievements d) (moneyGifts d) (verificationPayments d).

Definition set_marketplaceListings (ls : list Listing) (d : DB) : DB :=
  mkDB (users d) ls (purchases d) (notifications d)
    (achievements d) (moneyGifts d) (verificationPayments d).

Definition set_purchases (ps : list Purchase) (d : DB) : DB :=
  mkDB (users d) (marketplaceListings d) ps (notifications d)
    (achievements d) (moneyGifts d) (verificationPayments d).

Definition set_notifications (ns : list Notification) (d : DB) : DB :=
  mkDB (users d) (marketplaceListings d) (purchases d) ns
    (achievements d) (moneyGifts d) (verificationPayments d).

Definition set_achievements (acs : list Achievement) (d : DB) : DB :=
  mkDB (users d) (marketplaceListings d) (purchases d) (notifications d)
    acs (moneyGifts d) (verificationPayments d).

Definition set_moneyGifts (gs : list MoneyGift) (d : DB) : DB :=
  mkDB (users d) (marketplaceListings d) (purchases d) (notifications d)
    (achievements d) gs (verificationPayments d).

Definition set_verificationPayments (vs : list VerificationPayment) (d : DB) : DB :=
  mkDB (users d) (marketplaceListings d) (purchases d) (notifications d)
    (achievements d) (moneyGifts d) vs.

(** ** SQL conditions *)

Inductive sql_bool := sql_true | sql_false | sql_unknown.

Definition sql_of_bool (b : bool) : sql_bool := if b then sql_true else sql_false.

(** [and(c1, c2)]. *)
Definition sql_and (a b : sql_bool) : sql_bool :=
  match a, b with
  | sql_false, _ | _, sql_false => sql_false
  | sql_true, sql_true => sql_true
  | _, _ => sql_unknown
  end.

(** [eq(column, value)] and [lt(column, value)]; [None] is [NULL]. *)
Definition sql_eq {A} (eqb : A -> A -> bool) (a b : option A) : sql_bool :=
  match a, b with
  | Some x, Some y => sql_of_bool (eqb x y)
  | _, _ => sql_unknown
  end.

Definition sql_lt (a b : option Z) : sql_bool :=
  match a, b with
  | Some x, Some y => sql_of_bool (x <? y)
  | _, _ => sql_unknown
  end.

Definition VerificationStatus_eqb (a b : VerificationStatus) : bool :=
  match a, b with
  | active, active | expired, expired | cancelled, cancelled => true
  | _, _ => false
  end.

(** A row is selected when the [WHERE] clause is true. *)
Definition selected (c : sql_bool) : bool :=
  match c with sql_true => true | _ => false end.

(** [UPDATE ... SET ... WHERE ...]. *)
Definition update_where {R} (cond : R -> bool) (set : R -> R) (rows : list R) : list R :=
  map (fun r => if cond r then set r else r) rows.

(** ** Route code: state, results and thrown errors *)

(** What a piece of route code does to the world: it returns a value, or it
    throws (a database error).  The writes made before a throw stay. *)
Inductive Outcome (A : Type) :=
| Returned (a : A)
| Thrown.

Arguments Returned {A} a.
Arguments Thrown {A}.

Definition IO (A : Type) : Type := World -> World * Outcome A.

Definition ret {A} (a : A) : IO A := fun w => (w, Returned a).

Definition throw {A} : IO A := fun w => (w, Thrown).

Definition bind {A B} (m : IO A) (k : A -> IO B) : IO B :=
  fun w =>
    match m w with
    | (w', Returned a) => k a w'
    | (w', Thrown) => (w', Thrown)
    end.

Notation "x <- m ;; k" := (bind m (fun x => k))
  (at level 61, m at next level, right associativity).
Notation "m ;; k" := (bind m (fun _ => k))
  (at level 61, right associativity).

(** [if (c) { await ... }] *)
Definition when (c : bool) (m : IO unit) : IO unit := if c then m else ret tt.

Definition query {A} (f : DB -> A) : IO A := fun w => (w, Returned (f (db w))).

Definition modify (f : DB -> DB) : IO unit :=
  fun w => (mkWorld (f (db w)) (clock w) (uuids w) (drawn w) (timeZone w) (lag w),
            Returned tt).

(** [new Date()], [Date.now()], [defaultNow()]. *)
Definition now : IO Z := fun w => (w, Returned (clock w)).

(** What the clock has moved on at the [k]-th reading after the first. *)
Fixpoint elapsed (lag : nat -> N) (k : nat) : Z :=
  match k with
  | O => 0
  | S k' => elapsed lag k' + Z.of_N (lag k')
  end.

(** A further [new Date()] of a function that has read the clock: the
    [k]-th after the first. *)
Definition later (k : nat) : IO Z :=
  fun w => (w, Returned (clock w + elapsed (lag w) k)).

(** The time zone [Date]'s local methods work in. *)
Definition localZone : IO JSDate.Zone := fun w => (w, Returned (timeZone w)).

(** [randomUUID()], [gen_random_uuid()]. *)
Definition randomUUID : IO string :=
  fun w => (mkWorld (db w) (clock w) (uuids w) (S (drawn w)) (timeZone w) (lag w),
            Returned (uuids w (drawn w))).

(** ** Storage ([DatabaseStorage]) *)

Definition user_columns_ok (u : User) : bool :=
  fits 12 (u_balance u) && fits 12 (u_totalEarnings u).

Definition has_id (id : string) (u : User) : bool := String.eqb (u_id u) id.

Definition find_user (id : string) (d : DB) : option User :=
  find (has_id id) (users d).

Definition getUser (id : string) : IO (option User) := query (find_user id).

(** [update(users).set(data).where(eq(users.id, id)).returning()]; [data]
    is the change it makes to a row. *)
Definition updateUser (id : string) (data : User -> User) : IO (option User) :=
  us <- query users ;;
  if forallb (fun u => implb (has_id id u) (user_columns_ok (data u))) us
  then modify (set_users (update_where (has_id id) data us)) ;;
       getUser id
  else throw.

Definition updateUserBalance (id : string) (newBalance : Z) : IO (option User) :=
  updateUser id (with_balance newBalance).

Definition find_listing (id : string) (d : DB) : option Listing :=
  find (fun l => String.eqb (l_id l) id) (marketplaceListings d).

Definition getListing (id : string) : IO (option Listing) := query (find_listing id).

(** [insert(marketplaceListings).values({ ...listing, sellerId })].  The
    database rounds the price to cents, and refuses the row when the price
    does not fit [decimal(10, 2)] or when [seller_id], which references
    [users.id], names no user. *)
Definition createListing (sellerId title : string) (price : Decimal)
    (fileName fileData : string) : IO Listing :=
  seller <- query (find_user sellerId) ;;
  if fits 10 (to_cents price)
     && match seller with Some _ => true | None => false end then
    id <- randomUUID ;;
    let newListing :=
      mkListing id sellerId title (to_cents price) fileName fileData 0 true in
    modify (fun d => set_marketplaceListings (marketplaceListings d ++ [newListing]) d) ;;
    ret newListing
  else throw.

(** [update(marketplaceListings).set({ downloads: sql`downloads + 1` })]:
    the database refuses a count that leaves the 32 bits of the column. *)
Definition incrementListingDownloads (id : string) : IO unit :=
  ls <- query marketplaceListings ;;
  if forallb (fun l => implb (String.eqb (l_id l) id) (int4 (l_downloads l + 1))) ls
  then modify (set_marketplaceListings
         (update_where (fun l => String.eqb (l_id l) id)
            (fun l => with_downloads (l_downloads l + 1) l) ls))
  else throw.

Definition toUpperCase_ascii (c : ascii) : ascii :=
  let n := nat_of_ascii c in
  if (97 <=? n)%nat && (n <=? 122)%nat then ascii_of_nat (n - 32) else c.

Fixpoint toUpperCase (s : string) : string :=
  match s with
  | EmptyString => EmptyString
  | String c s' => String (toUpperCase_ascii c) (toUpperCase s')
  end.

Definition decimal_of (z : Z) : string := NilZero.string_of_int (Z.to_int z).

Definition createPurchase (buyerId sellerId listingId : string)
    (amount platformFee : Z) : IO Purchase :=
  t <- now ;;
  r <- randomUUID ;;
  let transactionId := "TXN" ++ decimal_of t ++ toUpperCase (substring 0 8 r) in
  if fits 10 amount && fits 10 platformFee then
    id <- randomUUID ;;
    let newPurchase :=
      mkPurchase id buyerId sellerId listingId amount platformFee transactionId t in
    modify (fun d => set_purchases (purchases d ++ [newPurchase]) d) ;;
    ret newPurchase
  else throw.

Definition purchase_of (userId listingId : string) (p : Purchase) : bool :=
  String.eqb (p_buyerId p) userId && String.eqb (p_listingId p) listingId.

Definition purchased (userId listingId : string) (d : DB) : bool :=
  existsb (purchase_of userId listingId) (purchases d).

Definition hasPurchased (userId listingId : string) : IO bool :=
  query (purchased userId listingId).

Definition createNotification (userId type title : string) : IO Notification :=
  id <- randomUUID ;;
  t <- now ;;
  let newNotification := mkNotification id userId type title false t in
  modify (fun d => set_notifications (notifications d ++ [newNotification]) d) ;;
  ret newNotification.

Definition achieved (userId type : string) (d : DB) : bool :=
  existsb (fun a => String.eqb (a_userId a) userId && String.eqb (a_type a) type)
    (achievements d).

Definition hasAchievement (userId type : string) : IO bool :=
  query (achieved userId type).

Definition createAchievement (userId type : string) : IO Achievement :=
  id <- randomUUID ;;
  t <- now ;;
  let newAchievement := mkAchievement id userId type t in
  modify (fun d => set_achievements (achievements d ++ [newAchievement]) d) ;;
  ret newAchievement.

Definition createMoneyGift (fromUserId toUserId : string) (amount : Z)
    (note : option string) : IO MoneyGift :=
  if fits 12 amount then
    id <- randomUUID ;;
    t <- now ;;
    let newGift := mkMoneyGift id fromUserId toUserId amount note t in
    modify (fun d => set_moneyGifts (moneyGifts d ++ [newGift]) d) ;;
    ret newGift
  else throw.

(** The period starts at a first [new Date()] and ends where
    [setMonth(getMonth() + 1)], in local time, sets a second one. *)
Definition createVerificationPayment (userId : string) : IO VerificationPayment :=
  periodStart <- now ;;
  periodEnd0 <- later 1 ;;
  zone <- localZone ;;
  let periodEnd :=
    JSDate.setMonth zone periodEnd0 (JSDate.getMonth zone periodEnd0 + 1) in
  id <- randomUUID ;;
  t <- now ;;
  let payment :=
    mkVerificationPayment id userId 500000 periodStart periodEnd active t in
  modify (fun d => set_verificationPayments (verificationPayments d ++ [payment]) d) ;;
  verifiedAt <- later 2 ;;
  modify (fun d => set_users
    (update_where (has_id userId)
       (with_verification true (Some verifiedAt) (Some periodEnd)) (users d)) d) ;;
  ret payment.

(** The sweep.  Its second statement compares [verification_granted_by]
    with the SQL literal [NULL] through [eq], that is with [=]. *)
Definition checkAndExpireVerifications : IO unit :=
  t <- now ;;
  modify (fun d => set_verificationPayments
    (update_where
       (fun v => selected (sql_and
          (sql_eq VerificationStatus_eqb (Some (vp_status v)) (Some active))
          (sql_lt (Some (vp_periodEnd v)) (Some t))))
       (with_status expired) (verificationPayments d)) d) ;;
  modify (fun d => set_users
    (update_where
       (fun u => selected (sql_and (sql_and
          (sql_eq Bool.eqb (Some (u_isVerified u)) (Some true))
          (sql_lt (u_verificationExpiry u) (Some t)))
          (sql_eq String.eqb (u_verificationGrantedBy u) None)))
       with_expired (users d)) d).

(** ** Routes ([registerRoutes]) *)

Inductive Body :=
| Message (message : string)
| ListingBody (listing : Listing)
| PurchaseBody (purchase : Purchase) (fileData fileName : string)
| VerificationBody (message : string) (payment : VerificationPayment)
| GiftBody (message : string) (gift : MoneyGift).

Record Response := mkResponse {
  status : Z;
  body : Body
}.

Definition Route : Type := World -> World * Response.

(** [res.status(s).json({ message })] *)
Definition failure (s : Z) (message : string) : Response := mkResponse s (Message message).

(** [res.json(b)] *)
Definition json (b : Body) : Response := mkResponse 200 b.

(** [try { ... } catch (error) { res.status(500).json({ message }) }] *)
Definition try_catch (code : IO Response) (message : string) : Route :=
  fun w =>
    match code w with
    | (w', Returned r) => (w', r)
    | (w', Thrown) => (w', failure 500 message)
    end.

(** The session's [userId] is absent or a string; the empty string is as
    good as absent to [!req.session.userId]. *)
Definition requireAuth (session : option string) (next : string -> Route) : Route :=
  match session with
  | Some userId =>
      if String.eqb userId "" then fun w => (w, failure 401 "Not authenticated")
      else next userId
  | None => fun w => (w, failure 401 "Not authenticated")
  end.

Definition requireAdmin (session : option string) (next : string -> Route) : Route :=
  requireAuth session (fun userId w =>
    match find_user userId (db w) with
    | Some user =>
        if u_isAdmin user then next userId w
        else (w, failure 403 "Admin access required")
    | None => (w, failure 403 "Admin access required")
    end).

(** [POST /api/marketplace]; the body's [price] is a decimal numeral, a
    JSON number or a string that writes one. *)
Definition createListing_route (session : option string) (title : string)
    (price : Decimal) (fileName fileData : string) : Route :=
  requireAuth session (fun userId => try_catch (
    listing <- createListing userId title price fileName fileData ;;
    hasIt <- hasAchievement userId "first_upload" ;;
    when (negb hasIt) (createAchievement userId "first_upload" ;; ret tt) ;;
    ret (json (ListingBody listing)))
  "Failed to create listing").

(** [POST /api/marketplace/:id/purchase] *)
Definition purchase_route (session : option string) (id : string) : Route :=
  requireAuth session (fun userId => try_catch (
    found <- getListing id ;;
    match found with
    | None => ret (failure 404 "Listing not found")
    | Some listing =>
    me <- getUser userId ;;
    match me with
    | None => ret (failure 404 "User not found")
    | Some buyer =>
    alreadyPurchased <- hasPurchased userId id ;;
    if alreadyPurchased then ret (failure 400 "You already own this file") else
    if String.eqb (l_sellerId listing) userId
    then ret (failure 400 "You cannot buy your own listing") else
    let price := l_price listing in
    let buyerBalance := u_balance buyer in
    if negb (u_hasInfiniteBalance buyer) && (buyerBalance <? price)
    then ret (failure 400 "Insufficient balance") else
    when (negb (u_hasInfiniteBalance buyer))
      (updateUserBalance (u_id buyer) (buyerBalance - price) ;; ret tt) ;;
    other <- getUser (l_sellerId listing) ;;
    match other with
    | Some seller =>
        when (negb (u_hasInfiniteBalance seller)) (
          let sellerBalance := u_balance seller in
          let sellerEarnings := u_totalEarnings seller in
          updateUserBalance (u_id seller) (sellerBalance + price) ;;
          updateUser (u_id seller) (with_totalEarnings (sellerEarnings + price)) ;;
          ret tt)
    | None => ret tt
    end ;;
    purchase <- createPurchase (u_id buyer) (l_sellerId listing) (l_id listing)
                  (l_price listing) 0 ;;
    incrementListingDownloads (l_id listing) ;;
    createNotification (u_id buyer) "purchase" "Purchase Complete" ;;
    createNotification (l_sellerId listing) "sale" "New Sale" ;;
    hasIt <- hasAchievement (u_id buyer) "first_purchase" ;;
    when (negb hasIt) (createAchievement (u_id buyer) "first_purchase" ;; ret tt) ;;
    ret (json (PurchaseBody purchase (l_fileData listing) (l_fileName listing)))
    end end)
  "Failed to complete purchase").

Definition verificationCost : Z := 500000.

(** [POST /api/verification/purchase] *)
Definition verification_route (session : option string) : Route :=
  requireAuth session (fun userId => try_catch (
    me <- getUser userId ;;
    match me with
    | None => ret (failure 404 "User not found")
    | Some user =>
    if u_isVerified user then ret (failure 400 "You are already verified") else
    let balance := u_balance user in
    if negb (u_hasInfiniteBalance user) && (balance <? verificationCost)
    then ret (failure 400 "Insufficient balance. Verification costs $5,000/month.") else
    when (negb (u_hasInfiniteBalance user))
      (updateUserBalance (u_id user) (balance - verificationCost) ;; ret tt) ;;
    payment <- createVerificationPayment (u_id user) ;;
    createNotification (u_id user) "system" "Verification Active" ;;
    ret (json (VerificationBody "Verification successful" payment))
    end)
  "Failed to process verification").

(** [POST /api/admin/gift-money]; [userId] and [amount] come from the
    request body, where either may be missing.  The route is embedded for
    an [amount] that is a JSON number of whole cents, on which its float
    arithmetic is exact; an amount of another JSON type (the route does not
    validate it) or with a fraction of a cent is outside this embedding. *)
Definition giftMoney_route (session : option string) (userId : option string)
    (amount : option Z) (note : option string) : Route :=
  requireAdmin session (fun adminId => try_catch (
    match userId, amount with
    | Some userId, Some amount =>
    if String.eqb userId "" || (amount =? 0) || (amount <=? 0)
    then ret (failure 400 "Invalid user or amount") else
    to <- getUser userId ;;
    match to with
    | None => ret (failure 404 "User not found")
    | Some recipient =>
    admin <- getUser adminId ;;
    when (negb (u_hasInfiniteBalance recipient)) (
      let newBalance := u_balance recipient + amount in
      updateUserBalance userId newBalance ;; ret tt) ;;
    gift <- createMoneyGift adminId userId amount note ;;
    createNotification userId "gift" "Money Gift Received" ;;
    ret (json (GiftBody "Gift sent successfully" gift))
    end
    | _, _ => ret (failure 400 "Invalid user or amount")
    end)
  "Failed to send gift").

(** The hourly timer: [storage.checkAndExpireVerifications().catch(...)]. *)
Definition sweep (w : World) : World := fst (checkAndExpireVerifications w).

(** ** Sample data *)

Module Sample.

Definition account (id : string) (balance : Z) : User :=
  mkUser id id balance false false false None None None false 0.

(** The administrator as [initAdminAccount] sets it up. *)
Definition root : User :=
  mkUser "root" "lorddevine_admin" 99999999999 true true true None None None false 0.

Definition ids (n : nat) : string := "uuid-" ++ decimal_of (Z.of_nat n).

Definition tables (us : list User) (ls : list Listing) (ps : list Purchase) : DB :=
  mkDB us ls ps [] [] [] [].

Definition utc : JSDate.Zone := JSDate.mkZone (fun _ _ => 0) (fun _ _ => eq_refl).

(** New York in the first half of 2025, five hours behind UTC until the
    clocks go forward by an hour on 9 March at 2:00, which is 7:00 UTC. *)
Definition new_york_2025 : JSDate.Zone :=
  JSDate.mkZone
    (fun t isUTC =>
       if t <? (if isUTC then JSDate.UTC 2025 2 9 7 0 else JSDate.UTC 2025 2 9 3 0)
       then -18000000 else -14400000)
    (fun t isUTC =>
       match t <? (if isUTC then JSDate.UTC 2025 2 9 7 0 else JSDate.UTC 2025 2 9 3 0)
         as early
         return (Z.abs (if early then -18000000 else -14400000) <=? JSDate.msPerDay) = true
       with
       | true => eq_refl
       | false => eq_refl
       end).

(** A server in UTC whose clock stands still while a request is served. *)
Definition at_ (t : Z) (d : DB) : World := mkWorld d t ids 0 utc (fun _ => 0%N).

Definition jan_15 : Z := JSDate.UTC 2024 0 15 12 0.
Definition jan_31 : Z := JSDate.UTC 2024 0 31 12 0.

Definition tool (price : Z) : Listing :=
  mkListing "L1" "bob" "tool" price "tool.zip" "UEsDBA==" 0 true.

Definition receipt (buyerId : string) : Purchase :=
  mkPurchase "P1" buyerId "bob" "L1" 50000 0 "TXN1705320000000AB12CD34" jan_15.

(** alice (2500.00) and bob (50.00); bob sells a tool for 500.00. *)
Definition market : World :=
  at_ jan_15 (tables [account "alice" 250000; account "bob" 5000] [tool 50000] []).

(** The same after alice bought the tool. *)
Definition market_sold : World :=
  at_ jan_15 (tables [account "alice" 200000; account "bob" 55000] [tool 50000]
                [receipt "alice"]).

(** bob (50.00) prices his own tool at 3000.00. *)
Definition market_dear : World :=
  at_ jan_15 (tables [account "alice" 250000; account "bob" 5000] [tool 300000] []).

(** carol holds exactly the verification fee. *)
Definition carol_at (t : Z) : World := at_ t (tables [account "carol" 500000] [] []).

(** carol on a server in New York, on 15 February 2025 at noon UTC. *)
Definition new_york_office : World :=
  mkWorld (tables [account "carol" 500000] [] []) (JSDate.UTC 2025 1 15 12 0) ids 0
    new_york_2025 (fun _ => 0%N).

(** The administrator, who also sells a listing, and alice. *)
Definition crown : Listing :=
  mkListing "L9" "root" "crown" 100000 "crown.zip" "UEsDBA==" 0 true.

Definition office : World :=
  at_ jan_15 (tables [root; account "alice" 250000] [crown] []).

(** dave bought verification, and his month ended before [jan_31]. *)
Definition dave : User :=
  mkUser "dave" "dave" 0 false false true (Some 0) (Some jan_15) None false 0.

Definition lapsed : World :=
  mkWorld (mkDB [dave] [] [] [] [] []
             [mkVerificationPayment "V1" "dave" 500000 0 jan_15 active 0])
          jan_31 ids 0 utc (fun _ => 0%N).

End Sample.

(** ** Observations used in the statements *)

Definition balance_of (id : string) (d : DB) : option Z :=
  option_map u_balance (find_user id d).

Definition totalEarnings_of (id : string) (d : DB) : option Z :=
  option_map u_totalEarnings (find_user id d).

(** Every stored decimal is within its column's precision. *)
Definition schema_ok (d : DB) : bool :=
  forallb user_columns_ok (users d)
  && forallb (fun l => fits 10 (l_price l)) (marketplaceListings d).

(** Number of purchase records of a buyer for a listing. *)
Definition purchase_count (userId listingId : string) (d : DB) : nat :=
  List.length (filter (purchase_of userId listingId) (purchases d)).

Definition balances_nonneg (d : DB) : Prop :=
  Forall (fun u => 0 <= u_balance u) (users d).

(** "[finish] is exactly one calendar month after [start]": the same day
    of the month and time of day, in the following month. *)
Definition one_calendar_month_after (start finish : Z) : Prop :=
  JSDate.DateFromTime finish = JSDate.DateFromTime start /\
  JSDate.TimeWithinDay finish = JSDate.TimeWithinDay start /\
  12 * JSDate.YearFromTime finish + JSDate.MonthFromTime finish =
  12 * JSDate.YearFromTime start + JSDate.MonthFromTime start + 1.

(** A purchase record of a listing that exists and that its buyer does not
    sell. *)
Definition from_another (d : DB) (p : Purchase) : bool :=
  match find_listing (p_listingId p) d with
  | Some listing => negb (String.eqb (l_sellerId listing) (p_buyerId p))
  | None => false
  end.

(** No purchase record is of a listing of the buyer's own. *)
Definition purchases_from_others (d : DB) : bool :=
  forallb (from_another d) (purchases d).

(** A change of a row that keeps its key. *)
Definition keeps_id (f : User -> User) : Prop := forall u, u_id (f u) = u_id u.

(** ** Further observations *)

(** The sum of all balances. *)
Definition total_balance (d : DB) : Z :=
  fold_right (fun u acc => u_balance u + acc) 0 (users d).

(** Number of achievements of a type a user holds. *)
Definition achievement_count (userId type : string) (d : DB) : nat :=
  List.length
    (filter (fun a => String.eqb (a_userId a) userId && String.eqb (a_type a) type)
       (achievements d)).

(** The notifications of a table, without their identifiers and times. *)
Definition notices (d : DB) : list (string * string * string) :=
  map (fun n => (n_userId n, n_type n, n_title n)) (notifications d).

(** A route leaves the achievements as they are or appends one that the
    user did not hold. *)
Definition grants_once (w w' : World) : Prop :=
  achievements (db w') = achievements (db w) \/
  exists a,
    achievements (db w') = (achievements (db w) ++ [a])%list /\
    achieved (a_userId a) (a_type a) (db w) = false.


(** ** More of the storage ([DatabaseStorage]) *)

Definition with_inactive (l : Listing) : Listing :=
  mkListing (l_id l) (l_sellerId l) (l_title l) (l_price l) (l_fileName l)
    (l_fileData l) (l_downloads l) false.

(** [update(marketplaceListings).set({ isActive: false })]: a listing is
    never removed, only hidden. *)
Definition deleteListing (id : string) : IO unit :=
  modify (fun d => set_marketplaceListings
    (update_where (fun l => String.eqb (l_id l) id) with_inactive
       (marketplaceListings d)) d).

Definition with_isRead (b : bool) (n : Notification) : Notification :=
  mkNotification (n_id n) (n_userId n) (n_type n) (n_title n) b (n_createdAt n).

Definition unread_of (userId : string) (n : Notification) : bool :=
  selected (sql_and (sql_eq String.eqb (Some (n_userId n)) (Some userId))
                    (sql_eq Bool.eqb (Some (n_isRead n)) (Some false))).

(** [select count( * ) ... where userId = ... and isRead = false] *)
Definition unread_count (userId : string) (d : DB) : nat :=
  List.length (filter (unread_of userId) (notifications d)).

Definition getUnreadNotificationCount (userId : string) : IO nat :=
  query (unread_count userId).

Definition markNotificationRead (id : string) : IO unit :=
  modify (fun d => set_notifications
    (update_where (fun n => String.eqb (n_id n) id) (with_isRead true)
       (notifications d)) d).

Definition markAllNotificationsRead (userId : string) : IO unit :=
  modify (fun d => set_notifications
    (update_where (fun n => String.eqb (n_userId n) userId) (with_isRead true)
       (notifications d)) d).

(** [delete(notifications).where(cond)] keeps the rows that do not satisfy
    the condition. *)
Definition deleteNotification (id : string) : IO unit :=
  modify (fun d => set_notifications
    (filter (fun n => negb (String.eqb (n_id n) id)) (notifications d)) d).

Definition deleteAllNotifications (userId : string) : IO unit :=
  modify (fun d => set_notifications
    (filter (fun n => negb (String.eqb (n_userId n) userId)) (notifications d)) d).

(** The rows of a user's active payments that end after [t]. *)
Definition in_force (userId : string) (t : Z) (v : VerificationPayment) : bool :=
  selected (sql_and (sql_and
    (sql_eq String.eqb (Some (vp_userId v)) (Some userId))
    (sql_eq VerificationStatus_eqb (Some (vp_status v)) (Some active)))
    (sql_of_bool (t <? vp_periodEnd v))).

(** [orderBy(desc(periodEnd)).limit(1)]: a row with the latest end.  Among
    rows that end at the same instant the database may return any; the
    first one of the table is taken here. *)
Fixpoint latest_end (vs : list VerificationPayment) : option VerificationPayment :=
  match vs with
  | [] => None
  | v :: rest =>
      match latest_end rest with
      | Some v' => if vp_periodEnd v <? vp_periodEnd v' then Some v' else Some v
      | None => Some v
      end
  end.

Definition getActiveVerification (userId : string) : IO (option VerificationPayment) :=
  t <- now ;;
  query (fun d => latest_end (filter (in_force userId t) (verificationPayments d))).

(** ** More routes ([registerRoutes]) *)

(** An answer that carries data, or a status with a message. *)
Inductive Reply (A : Type) :=
| Sent (a : A)
| Refused (code : Z) (message : string).

Arguments Sent {A} a.
Arguments Refused {A} code message.

Definition try_catch_reply {A} (code : IO (Reply A)) (message : string)
    : World -> World * Reply A :=
  fun w =>
    match code w with
    | (w', Returned r) => (w', r)
    | (w', Thrown) => (w', Refused 500 message)
    end.

Definition requireAuth_reply {A} (session : option string)
    (next : string -> World -> World * Reply A) : World -> World * Reply A :=
  match session with
  | Some userId =>
      if String.eqb userId "" then fun w => (w, Refused 401 "Not authenticated")
      else next userId
  | None => fun w => (w, Refused 401 "Not authenticated")
  end.

(** [GET /api/marketplace/:id/download]; the answer is the file's data and
    name. *)
Definition download_route (session : option string) (id : string)
    : World -> World * Reply (string * string) :=
  requireAuth_reply session (fun userId => try_catch_reply (
    found <- getListing id ;;
    match found with
    | None => ret (Refused 404 "Listing not found")
    | Some listing =>
    hasIt <- hasPurchased userId id ;;
    let isSeller := String.eqb (l_sellerId listing) userId in
    me <- getUser userId ;;
    let isAdmin := match me with Some user => u_isAdmin user | None => false end in
    if negb hasIt && negb isSeller && negb isAdmin
    then ret (Refused 403 "You must purchase this file first")
    else ret (Sent (l_fileData listing, l_fileName listing))
    end)
  "Failed to download file").

(** [DELETE /api/marketplace/:id] *)
Definition deleteListing_route (session : option string) (id : string) : Route :=
  requireAuth session (fun userId => try_catch (
    found <- getListing id ;;
    match found with
    | None => ret (failure 404 "Listing not found")
    | Some listing =>
    me <- getUser userId ;;
    let isAdmin := match me with Some user => u_isAdmin user | None => false end in
    if negb (String.eqb (l_sellerId listing) userId) && negb isAdmin
    then ret (failure 403 "Not authorized")
    else deleteListing id ;;
         ret (json (Message "Listing deleted"))
    end)
  "Failed to delete listing").

(** [GET /api/notifications/unread-count] *)
Definition unreadCount_route (session : option string) : World -> World * Reply nat :=
  requireAuth_reply session (fun userId => try_catch_reply (
    count <- getUnreadNotificationCount userId ;;
    ret (Sent count))
  "Failed to fetch notification count").

(** [PATCH /api/notifications/:id/read] *)
Definition markRead_route (session : option string) (id : string) : Route :=
  requireAuth session (fun _ => try_catch (
    markNotificationRead id ;;
    ret (json (Message "Marked as read")))
  "Failed to mark notification as read").

(** [PATCH /api/notifications/read-all] *)
Definition markAllRead_route (session : option string) : Route :=
  requireAuth session (fun userId => try_catch (
    markAllNotificationsRead userId ;;
    ret (json (Message "All notifications marked as read")))
  "Failed to mark all as read").

(** [DELETE /api/notifications/:id] *)
Definition deleteNotification_route (session : option string) (id : string) : Route :=
  requireAuth session (fun _ => try_catch (
    deleteNotification id ;;
    ret (json (Message "Notification deleted")))
  "Failed to delete notification").

(** [DELETE /api/notifications] *)
Definition deleteAllNotifications_route (session : option string) : Route :=
  requireAuth session (fun userId => try_catch (
    deleteAllNotifications userId ;;
    ret (json (Message "All notifications deleted")))
  "Failed to delete notifications").

Definition with_granted (v : bool) (at_ : option Z) (by_ : option string) (u : User) : User :=
  mkUser (u_id u) (u_username u) (u_balance u) (u_isAdmin u)
    (u_hasInfiniteBalance u) v at_ None by_ (u_isSuspended u) (u_totalEarnings u).

Definition with_isSuspended (s : bool) (u : User) : User :=
  mkUser (u_id u) (u_username u) (u_balance u) (u_isAdmin u)
    (u_hasInfiniteBalance u) (u_isVerified u) (u_verifiedAt u)
    (u_verificationExpiry u) (u_verificationGrantedBy u) s (u_totalEarnings u).

(** [POST /api/admin/toggle-verification/:userId]; [isVerified] is the
    boolean of the request body. *)
Definition toggleVerification_route (session : option string) (userId : string)
    (isVerified : bool) : Route :=
  requireAdmin session (fun adminId => try_catch (
    found <- getUser userId ;;
    match found with
    | None => ret (failure 404 "User not found")
    | Some user =>
    t <- now ;;
    updateUser userId
      (with_granted isVerified (if isVerified then Some t else None)
         (if isVerified then Some adminId else None)) ;;
    createNotification userId "system"
      (if isVerified then "Verification Granted" else "Verification Removed") ;;
    ret (json (Message (if isVerified then "Verification granted"
                        else "Verification removed")))
    end)
  "Failed to toggle verification").

(** [POST /api/admin/toggle-suspend/:userId]; [isSuspended] is the boolean
    of the request body. *)
Definition toggleSuspend_route (session : option string) (userId : string)
    (isSuspended : bool) : Route :=
  requireAdmin session (fun _ => try_catch (
    found <- getUser userId ;;
    match found with
    | None => ret (failure 404 "User not found")
    | Some user =>
    if u_isAdmin user then ret (failure 400 "Cannot suspend an admin") else
    updateUser userId (with_isSuspended isSuspended) ;;
    ret (json (Message (if isSuspended then "User suspended" else "User unsuspended")))
    end)
  "Failed to toggle suspension").

(** ** The server at work *)

(** A request to one of the routes above, or a turn of the hourly timer. *)
Inductive Request :=
| PostListing (session : option string) (title : string) (price : Decimal)
    (fileName fileData : string)
| PostPurchase (session : option string) (id : string)
| GetDownload (session : option string) (id : string)
| DeleteListing (session : option string) (id : string)
| GetUnreadCount (session : option string)
| PatchRead (session : option string) (id : string)
| PatchReadAll (session : option string)
| DeleteNotification (session : option string) (id : string)
| DeleteNotifications (session : option string)
| PostVerification (session : option string)
| PostGiftMoney (session : option string) (userId : option string)
    (amount : option Z) (note : option string)
| PostToggleVerification (session : option string) (userId : string)
    (isVerified : bool)
| PostToggleSuspend (session : option string) (userId : string) (isSuspended : bool)
| Timer.

(** The state the server is in after a request. *)
Definition serve (q : Request) (w : World) : World :=
  match q with
  | PostListing session title price fileName fileData =>
      fst (createListing_route session title price fileName fileData w)
  | PostPurchase session id => fst (purchase_route session id w)
  | GetDownload session id => fst (download_route session id w)
  | DeleteListing session id => fst (deleteListing_route session id w)
  | GetUnreadCount session => fst (unreadCount_route session w)
  | PatchRead session id => fst (markRead_route session id w)
  | PatchReadAll session => fst (markAllRead_route session w)
  | DeleteNotification session id => fst (deleteNotification_route session id w)
  | DeleteNotifications session => fst (deleteAllNotifications_route session w)
  | PostVerification session => fst (verification_route session w)
  | PostGiftMoney session userId amount note =>
      fst (giftMoney_route session userId amount note w)
  | PostToggleVerification session userId isVerified =>
      fst (toggleVerification_route session userId isVerified w)
  | PostToggleSuspend session userId isSuspended =>
      fst (toggleSuspend_route session userId isSuspended w)
  | Timer => sweep w
  end.

(** ** Proof steps *)

Ltac run :=
  cbv beta iota zeta delta
    [purchase_route verification_route giftMoney_route createListing_route
     download_route deleteListing_route unreadCount_route markRead_route
     markAllRead_route deleteNotification_route deleteAllNotifications_route
     toggleVerification_route toggleSuspend_route
     requireAuth requireAdmin try_catch requireAuth_reply try_catch_reply
     bind ret throw when query modify now later elapsed localZone randomUUID
     getUser getListing hasPurchased updateUser updateUserBalance
     createListing createPurchase incrementListingDownloads deleteListing
     createNotification getUnreadNotificationCount markNotificationRead
     markAllNotificationsRead deleteNotification deleteAllNotifications
     hasAchievement createAchievement createMoneyGift createVerificationPayment
     getActiveVerification checkAndExpireVerifications sweep
     find_user find_listing purchased achieved
     db clock uuids drawn timeZone lag users marketplaceListings purchases
     notifications achievements moneyGifts verificationPayments
     set_users set_marketplaceListings set_purchases set_notifications
     set_achievements set_moneyGifts set_verificationPayments fst snd].

Ltac run_in H :=
  cbv beta iota zeta delta
    [purchase_route verification_route giftMoney_route createListing_route
     download_route deleteListing_route unreadCount_route markRead_route
     markAllRead_route deleteNotification_route deleteAllNotifications_route
     toggleVerification_route toggleSuspend_route
     requireAuth requireAdmin try_catch requireAuth_reply try_catch_reply
     bind ret throw when query modify now later elapsed localZone randomUUID
     getUser getListing hasPurchased updateUser updateUserBalance
     createListing createPurchase incrementListingDownloads deleteListing
     createNotification getUnreadNotificationCount markNotificationRead
     markAllNotificationsRead deleteNotification deleteAllNotifications
     hasAchievement createAchievement createMoneyGift createVerificationPayment
     getActiveVerification checkAndExpireVerifications sweep
     find_user find_listing purchased achieved
     db clock uuids drawn timeZone lag users marketplaceListings purchases
     notifications achievements moneyGifts verificationPayments
     set_users set_marketplaceListings set_purchases set_notifications
     set_achievements set_moneyGifts set_verificationPayments fst snd] in H.

Ltac open_world w :=
  destruct w as [[us ls ps ns acs gs vs] c uu n zone lg];
  unfold find_user, find_listing, purchased, achieved in *;
  cbn [db users marketplaceListings purchases notifications achievements
       moneyGifts verificationPayments clock uuids drawn timeZone lag] in *.

Ltac next_case H :=
  match type of H with
  | context [if ?c then _ else _] =>
      let E := fresh "E" in destruct c eqn:E
  | context [match ?o with Some _ => _ | None => _ end] =>
      let E := fresh "E" in destruct o eqn:E
  end; run_in H.

Ltac exists_payment days :=
  eexists; eexists; exists days; (split; [reflexivity|]).

Ltac goal_case :=
  match goal with
  | |- context [if ?c then _ else _] => let E := fresh "E" in destruct c eqn:E
  | |- context [match ?o with Some _ => _ | None => _ end] =>
      let E := fresh "E" in destruct o eqn:E
  end; run.

(** ** Facts about tables *)

Lemma eqb_neq_false (a b : string) : a <> b -> String.eqb a b = false.
Proof. intros H. now apply String.eqb_neq. Qed.

Lemma has_id_true id u : has_id id u = true <-> u_id u = id.
Proof. unfold has_id. apply String.eqb_eq. Qed.

Lemma find_user_id id d u : find_user id d = Some u -> u_id u = id.
Proof.
  unfold find_user. intros H. apply find_some in H. now apply has_id_true.
Qed.

Lemma find_listing_id id d l : find_listing id d = Some l -> l_id l = id.
Proof.
  unfold find_listing. intros H. apply find_some in H.
  now apply String.eqb_eq.
Qed.

Lemma keeps_id_with_balance b : keeps_id (with_balance b).
Proof. now intros u. Qed.

Lemma keeps_id_with_totalEarnings e : keeps_id (with_totalEarnings e).
Proof. now intros u. Qed.

Lemma keeps_id_with_verification v a e : keeps_id (with_verification v a e).
Proof. now intros u. Qed.

Create HintDb ledger.

#[local] Hint Resolve keeps_id_with_balance keeps_id_with_totalEarnings
  keeps_id_with_verification : ledger.

Lemma find_update_where_same id f us :
  keeps_id f ->
  find (has_id id) (update_where (has_id id) f us) = option_map f (find (has_id id) us).
Proof.
  intros Hf. induction us as [|u us IH]; [reflexivity|].
  cbn [update_where map find]. destruct (has_id id u) eqn:E.
  - unfold has_id in *. rewrite Hf, E. reflexivity.
  - rewrite E. exact IH.
Qed.

Lemma find_update_where_other id id' f us :
  keeps_id f -> id' <> id ->
  find (has_id id') (update_where (has_id id) f us) = find (has_id id') us.
Proof.
  intros Hf Hne. induction us as [|u us IH]; [reflexivity|].
  cbn [update_where map find]. destruct (has_id id u) eqn:E.
  - unfold has_id in *. rewrite Hf. apply String.eqb_eq in E. rewrite E.
    rewrite (eqb_neq_false id id') by congruence. exact IH.
  - destruct (has_id id' u); [reflexivity | exact IH].
Qed.

Ltac side := first [solve [auto with ledger] | congruence].

Ltac lookups :=
  repeat first
    [ rewrite find_update_where_same by side
    | rewrite find_update_where_other by side ].

Lemma update_where_none {R} (cond : R -> bool) (f : R -> R) rows :
  (forall r, cond r = false) -> update_where cond f rows = rows.
Proof.
  intros H. induction rows as [|r rows IH]; [reflexivity|].
  cbn [update_where map]. rewrite H. f_equal. exact IH.
Qed.

Lemma forallb_update_where {R} (check cond : R -> bool) (f : R -> R) rows :
  (forall r, check (f r) = check r) ->
  forallb check (update_where cond f rows) = forallb check rows.
Proof.
  intros Hf. induction rows as [|r rows IH]; [reflexivity|].
  cbn [update_where map forallb]. fold (update_where cond f rows).
  rewrite IH. destruct (cond r); [now rewrite Hf | reflexivity].
Qed.

Lemma update_where_again {R} (cond : R -> bool) (f : R -> R) rows :
  (forall r, cond r = true -> cond (f r) = false) ->
  update_where cond f (update_where cond f rows) = update_where cond f rows.
Proof.
  intros H. induction rows as [|r rows IH]; [reflexivity|].
  cbn [update_where map]. fold (update_where cond f rows).
  fold (update_where cond f (update_where cond f rows)). rewrite IH.
  destruct (cond r) eqn:E.
  - rewrite (H r E). reflexivity.
  - rewrite E. reflexivity.
Qed.

Lemma update_where_Forall {R} (P : R -> Prop) (cond : R -> bool) (f : R -> R) rows :
  Forall P rows -> (forall r, cond r = true -> P r -> P (f r)) ->
  Forall P (update_where cond f rows).
Proof.
  intros HP Hf. induction HP as [|r rows Hr _ IH]; [constructor|].
  cbn [update_where map]. constructor; [|exact IH].
  destruct (cond r) eqn:E; auto.
Qed.

(** ** The purchase route: rejections *)

(** What the guards of the purchase route answer, in their order. *)
Lemma purchase_route_guards w userId id listing buyer :
  userId <> "" ->
  find_listing id (db w) = Some listing ->
  find_user userId (db w) = Some buyer ->
  (purchased userId id (db w) = true ->
     purchase_route (Some userId) id w = (w, failure 400 "You already own this file")) /\
  (purchased userId id (db w) = false -> l_sellerId listing = userId ->
     purchase_route (Some userId) id w = (w, failure 400 "You cannot buy your own listing")) /\
  (purchased userId id (db w) = false -> l_sellerId listing <> userId ->
     u_hasInfiniteBalance buyer = false -> u_balance buyer < l_price listing ->
     purchase_route (Some userId) id w = (w, failure 400 "Insufficient balance")).
Proof.
  intros Hid Hl Hb. open_world w.
  repeat split; intros; run;
    rewrite (eqb_neq_false _ _ Hid), Hl, Hb.
  - rewrite H. reflexivity.
  - rewrite H, H0, String.eqb_refl. reflexivity.
  - rewrite H, (eqb_neq_false _ _ H0), H1.
    cbn [negb andb]. apply Z.ltb_lt in H2. rewrite H2. reflexivity.
Qed.

(** ** The purchase route: a completed purchase *)

(** C1.  When a buyer A buys the listing of another account B, does not
    own it yet, and has unlimited funds or a balance of at least its
    positive price, then a purchase answered 200 has taken exactly the price
    from A's balance (nothing when A has unlimited funds), has added exactly
    the price to B's balance and to B's total earnings (nothing when B has
    unlimited funds), and has appended exactly one purchase record, of buyer
    A, seller B, for the listing and its price. *)
Theorem purchase_moves_price w userId id listing buyer seller w' r :
  userId <> "" ->
  find_listing id (db w) = Some listing ->
  find_user userId (db w) = Some buyer ->
  find_user (l_sellerId listing) (db w) = Some seller ->
  l_sellerId listing <> userId ->
  purchased userId id (db w) = false ->
  0 < l_price listing ->
  (u_hasInfiniteBalance buyer = true \/ l_price listing <= u_balance buyer) ->
  purchase_route (Some userId) id w = (w', r) ->
  status r = 200 ->
  balance_of userId (db w') =
    Some (if u_hasInfiniteBalance buyer then u_balance buyer
          else u_balance buyer - l_price listing) /\
  balance_of (l_sellerId listing) (db w') =
    Some (if u_hasInfiniteBalance seller then u_balance seller
          else u_balance seller + l_price listing) /\
  totalEarnings_of (l_sellerId listing) (db w') =
    Some (if u_hasInfiniteBalance seller then u_totalEarnings seller
          else u_totalEarnings seller + l_price listing) /\
  exists p,
    purchases (db w') = (purchases (db w) ++ [p])%list /\
    p_buyerId p = userId /\ p_sellerId p = l_sellerId listing /\
    p_listingId p = id /\ p_amount p = l_price listing /\
    r = json (PurchaseBody p (l_fileData listing) (l_fileName listing)).
Proof.
  intros Hid Hl Hb Hs Hne Hp Hpos Hfunds Hrun Hok.
  pose proof (find_user_id _ _ _ Hb) as Hbid.
  pose proof (find_user_id _ _ _ Hs) as Hsid.
  pose proof (find_listing_id _ _ _ Hl) as Hlid.
  unfold balance_of, totalEarnings_of.
  open_world w. run_in Hrun.
  rewrite (eqb_neq_false _ _ Hid), Hl, Hb, Hp, (eqb_neq_false _ _ Hne) in Hrun.
  assert (Hguard : negb (u_hasInfiniteBalance buyer) && (u_balance buyer <? l_price listing) = false).
  { destruct Hfunds as [-> | Hle]; [reflexivity|].
    apply andb_false_iff. right. now apply Z.ltb_ge. }
  rewrite Hguard in Hrun. clear Hguard Hfunds.
  rewrite Hbid in Hrun.
  repeat next_case Hrun.
  all: injection Hrun as <- <-; try discriminate Hok.
  all: run.
  all: repeat match goal with
       | H : context [find _ (update_where _ _ _)] |- _ =>
           rewrite find_update_where_other in H by side
       end.
  all: try congruence.
  all: match goal with
       | H : find (has_id (l_sellerId _)) _ = Some ?u |- _ =>
           is_var u; assert (u = seller) by congruence; subst u
       end.
  all: rewrite ?Hsid.
  all: destruct (u_hasInfiniteBalance buyer); try discriminate.
  all: destruct (u_hasInfiniteBalance seller); try discriminate.
  all: lookups;
       repeat match goal with H : find _ _ = Some _ |- _ => rewrite H end;
       cbn [option_map u_balance u_totalEarnings with_balance with_totalEarnings].
  all: repeat split; try reflexivity.
  all: eexists; repeat split; try reflexivity; auto.
Qed.

(** *** The column checks of [updateUser] *)

Lemma fits_between p lo hi x :
  fits p lo = true -> fits p hi = true -> lo <= x <= hi -> fits p x = true.
Proof.
  unfold fits. rewrite !Z.ltb_lt. lia.
Qed.

Lemma columns_check_balance id b us :
  forallb user_columns_ok us = true -> fits 12 b = true ->
  forallb (fun u => implb (has_id id u) (user_columns_ok (with_balance b u))) us = true.
Proof.
  intros Hus Hb. apply forallb_forall. intros u Hu.
  rewrite forallb_forall in Hus. specialize (Hus u Hu).
  unfold user_columns_ok in *. cbn [with_balance u_balance u_totalEarnings].
  apply andb_true_iff in Hus as [_ ->]. rewrite Hb. now destruct (has_id id u).
Qed.

Lemma columns_check_totalEarnings id e us :
  forallb user_columns_ok us = true -> fits 12 e = true ->
  forallb (fun u => implb (has_id id u) (user_columns_ok (with_totalEarnings e u))) us = true.
Proof.
  intros Hus He. apply forallb_forall. intros u Hu.
  rewrite forallb_forall in Hus. specialize (Hus u Hu).
  unfold user_columns_ok in *. cbn [with_totalEarnings u_balance u_totalEarnings].
  apply andb_true_iff in Hus as [-> _]. rewrite He. now destruct (has_id id u).
Qed.

Lemma update_where_columns_ok id f us :
  forallb user_columns_ok us = true ->
  forallb (fun u => implb (has_id id u) (user_columns_ok (f u))) us = true ->
  forallb user_columns_ok (update_where (has_id id) f us) = true.
Proof.
  intros Hus Hf. induction us as [|u us IH]; [reflexivity|].
  cbn [forallb update_where map] in *.
  apply andb_true_iff in Hus as [Hu Hus]. apply andb_true_iff in Hf as [Hfu Hf].
  fold (update_where (has_id id) f us). rewrite (IH Hus Hf), andb_true_r.
  destruct (has_id id u); [exact Hfu | exact Hu].
Qed.

Lemma find_columns_ok id us u :
  forallb user_columns_ok us = true -> find (has_id id) us = Some u ->
  fits 12 (u_balance u) = true /\ fits 12 (u_totalEarnings u) = true.
Proof.
  intros Hus Hu. apply find_some in Hu as [Hu _].
  rewrite forallb_forall in Hus. apply andb_true_iff. exact (Hus u Hu).
Qed.

(** Under the conditions of a purchase, when the seller's new balance and
    earnings still fit their columns and the download count of the listing
    its column, the route answers 200. *)
Lemma purchase_succeeds w userId id listing buyer seller :
  userId <> "" ->
  find_listing id (db w) = Some listing ->
  find_user userId (db w) = Some buyer ->
  find_user (l_sellerId listing) (db w) = Some seller ->
  l_sellerId listing <> userId ->
  purchased userId id (db w) = false ->
  0 < l_price listing ->
  (u_hasInfiniteBalance buyer = true \/ l_price listing <= u_balance buyer) ->
  schema_ok (db w) = true ->
  (u_hasInfiniteBalance seller = false ->
     fits 12 (u_balance seller + l_price listing) = true /\
     fits 12 (u_totalEarnings seller + l_price listing) = true) ->
  (forall l, In l (marketplaceListings (db w)) -> l_id l = id ->
     int4 (l_downloads l + 1) = true) ->
  status (snd (purchase_route (Some userId) id w)) = 200.
Proof.
  intros Hid Hl Hb Hs Hne Hp Hpos Hfunds Hok Hroom Hint.
  pose proof (find_listing_id _ _ _ Hl) as Hlid.
  pose proof (find_user_id _ _ _ Hb) as Hbid.
  pose proof (find_user_id _ _ _ Hs) as Hsid.
  unfold schema_ok in Hok. apply andb_true_iff in Hok as [Hus Hls].
  open_world w.
  assert (Hcount : forallb (fun l => implb (String.eqb (l_id l) (l_id listing))
                                       (int4 (l_downloads l + 1))) ls = true).
  { apply forallb_forall. intros l Hin. rewrite Hlid.
    destruct (String.eqb_spec (l_id l) id) as [E|]; [|reflexivity].
    exact (Hint l Hin E). }
  assert (Hprice : fits 10 (l_price listing) && fits 10 0 = true).
  { apply find_some in Hl as [Hl _]. rewrite forallb_forall in Hls.
    rewrite (Hls _ Hl). reflexivity. }
  destruct (find_columns_ok _ _ _ Hus Hb) as [Hbb _].
  assert (Hguard : negb (u_hasInfiniteBalance buyer) && (u_balance buyer <? l_price listing) = false).
  { destruct Hfunds as [-> | Hle]; [reflexivity|].
    apply andb_false_iff. right. now apply Z.ltb_ge. }
  assert (Hdebit : u_hasInfiniteBalance buyer = false ->
            fits 12 (u_balance buyer - l_price listing) = true).
  { intros Hinf. destruct Hfunds as [Hf | Hle]; [congruence|].
    apply (fits_between 12 0 (u_balance buyer)); [reflexivity | exact Hbb | lia]. }
  run.
  rewrite (eqb_neq_false _ _ Hid), Hl, Hb, Hp, (eqb_neq_false _ _ Hne), Hguard, Hbid.
  destruct (u_hasInfiniteBalance buyer) eqn:Ebuyer; cbn [negb]; run.
  - rewrite Hs. destruct (u_hasInfiniteBalance seller) eqn:Eseller; cbn [negb]; run.
    + rewrite Hprice. run. rewrite Hcount. run.
      goal_case; reflexivity.
    + destruct (Hroom eq_refl) as [Hsb Hse].
      rewrite (columns_check_balance _ _ _ Hus Hsb). run.
      rewrite columns_check_totalEarnings; [| | exact Hse].
      * run. rewrite Hprice. run. rewrite Hcount. run. goal_case; reflexivity.
      * apply update_where_columns_ok; [exact Hus|].
        now apply columns_check_balance.
  - rewrite (columns_check_balance _ _ _ Hus (Hdebit eq_refl)). run.
    rewrite find_update_where_other by side. rewrite Hs.
    assert (Hus1 : forallb user_columns_ok
              (update_where (has_id userId)
                 (with_balance (u_balance buyer - l_price listing)) us) = true).
    { apply update_where_columns_ok; [exact Hus|].
      apply columns_check_balance; auto. }
    destruct (u_hasInfiniteBalance seller) eqn:Eseller; cbn [negb]; run.
    + rewrite Hprice. run. rewrite Hcount. run. goal_case; reflexivity.
    + destruct (Hroom eq_refl) as [Hsb Hse].
      rewrite (columns_check_balance _ _ _ Hus1 Hsb). run.
      rewrite columns_check_totalEarnings; [| | exact Hse].
      * run. rewrite Hprice. run. rewrite Hcount. run. goal_case; reflexivity.
      * apply update_where_columns_ok; [exact Hus1|].
        now apply columns_check_balance.
Qed.

(** *** Purchase records *)

Lemma purchase_count_app userId listingId d d' p :
  purchases d' = (purchases d ++ [p])%list ->
  purchase_count userId listingId d' =
  (purchase_count userId listingId d
   + if purchase_of userId listingId p then 1 else 0)%nat.
Proof.
  unfold purchase_count. intros ->. rewrite filter_app, length_app.
  cbn [filter]. now destruct (purchase_of userId listingId p).
Qed.

Lemma purchase_count_none userId listingId d :
  purchased userId listingId d = false -> purchase_count userId listingId d = 0%nat.
Proof.
  unfold purchased, purchase_count. induction (purchases d) as [|p ps IH];
    [reflexivity|].
  cbn [existsb filter]. intros H. apply orb_false_iff in H as [-> H].
  exact (IH H).
Qed.

Lemma purchase_of_inj b l b' l' p :
  purchase_of b l p = true -> purchase_of b' l' p = true -> b = b' /\ l = l'.
Proof.
  unfold purchase_of. rewrite !andb_true_iff, !String.eqb_eq.
  intros [<- <-] [<- <-]. now split.
Qed.

(** The purchase route leaves the purchase log as it is, or adds one record
    of the caller for the listing, which the caller had not bought. *)
Lemma purchase_route_log session id w w' r :
  purchase_route session id w = (w', r) ->
  purchases (db w') = purchases (db w) \/
  exists userId p,
    session = Some userId /\ purchased userId id (db w) = false /\
    purchases (db w') = (purchases (db w) ++ [p])%list /\
    purchase_of userId id p = true.
Proof.
  intros Hrun. open_world w.
  destruct session as [userId|]; run_in Hrun;
    [| injection Hrun as <- <-; now left].
  repeat next_case Hrun.
  all: injection Hrun as <- <-; run; try (now left).
  all: right; exists userId; eexists; repeat split; try reflexivity; try assumption.
  all: repeat match goal with
       | H : find _ _ = Some _ |- _ => apply find_some in H as [_ H]
       end.
  all: unfold purchase_of, has_id in *; cbn [p_buyerId p_listingId].
  all: repeat match goal with
       | H : String.eqb _ _ = true |- _ => rewrite H; clear H
       end.
  all: reflexivity.
Qed.

(** ** The gift route *)

Lemma schema_ok_users d : schema_ok d = true -> forallb user_columns_ok (users d) = true.
Proof. unfold schema_ok. intros H. now apply andb_true_iff in H. Qed.

(** A gift of a positive amount that fits the columns is carried out,
    whoever the recipient is: the route never compares the recipient with
    the administrator who sends it. *)
Lemma giftMoney_accepted w adminId admin userId recipient amount note :
  adminId <> "" ->
  find_user adminId (db w) = Some admin ->
  u_isAdmin admin = true ->
  userId <> "" ->
  find_user userId (db w) = Some recipient ->
  0 < amount ->
  fits 12 amount = true ->
  schema_ok (db w) = true ->
  (u_hasInfiniteBalance recipient = false ->
     fits 12 (u_balance recipient + amount) = true) ->
  exists w' gift,
    giftMoney_route (Some adminId) (Some userId) (Some amount) note w =
      (w', json (GiftBody "Gift sent successfully" gift)) /\
    moneyGifts (db w') = (moneyGifts (db w) ++ [gift])%list /\
    g_fromUserId gift = adminId /\ g_toUserId gift = userId /\
    g_amount gift = amount /\
    balance_of userId (db w') =
      Some (if u_hasInfiniteBalance recipient then u_balance recipient
            else u_balance recipient + amount).
Proof.
  intros Ha Hadmin Hflag Hu Hrec Hpos Hfit Hok Hroom.
  apply schema_ok_users in Hok. unfold balance_of.
  open_world w. run.
  rewrite (eqb_neq_false _ _ Ha), Hadmin, Hflag, (eqb_neq_false _ _ Hu).
  replace (amount =? 0) with false by (symmetry; apply Z.eqb_neq; lia).
  replace (amount <=? 0) with false by (symmetry; apply Z.leb_gt; lia).
  cbn [orb]. run. rewrite Hrec. run.
  destruct (u_hasInfiniteBalance recipient) eqn:Einf; cbn [negb]; run.
  - rewrite Hfit. run.
    do 2 eexists. split; [reflexivity|]. run. rewrite Hrec.
    repeat split; reflexivity.
  - rewrite (columns_check_balance _ _ _ Hok (Hroom eq_refl)). run.
    rewrite Hfit. run.
    do 2 eexists. split; [reflexivity|]. run. lookups. rewrite Hrec.
    repeat split; reflexivity.
Qed.

(** ** The verification route: rejection *)

Lemma verification_route_guards w userId user :
  userId <> "" ->
  find_user userId (db w) = Some user ->
  (u_isVerified user = true ->
     verification_route (Some userId) w = (w, failure 400 "You are already verified")) /\
  (u_isVerified user = false -> u_hasInfiniteBalance user = false ->
     u_balance user < verificationCost ->
     verification_route (Some userId) w =
       (w, failure 400 "Insufficient balance. Verification costs $5,000/month.")).
Proof.
  intros Hid Hu. open_world w. split; intros; run;
    rewrite (eqb_neq_false _ _ Hid), Hu, H.
  - reflexivity.
  - rewrite H0. cbn [negb andb]. apply Z.ltb_lt in H1. rewrite H1. reflexivity.
Qed.

(** ** Statements about the purchase route *)

(** C10.  The purchase route keeps at most one purchase record per buyer
    and listing; a buyer who has already purchased the listing is answered
    400, "You already own this file", and nothing changes: no balance, no
    record, nothing else in the world of the server. *)
Theorem purchase_at_most_once w userId id listing buyer w' r :
  userId <> "" ->
  find_listing id (db w) = Some listing ->
  find_user userId (db w) = Some buyer ->
  (forall b l, (purchase_count b l (db w) <= 1)%nat) ->
  purchase_route (Some userId) id w = (w', r) ->
  (forall b l, (purchase_count b l (db w') <= 1)%nat) /\
  (purchased userId id (db w) = true ->
     w' = w /\ r = failure 400 "You already own this file").
Proof.
  intros Hid Hl Hb Hone Hrun. split.
  - intros b l. specialize (Hone b l).
    destruct (purchase_route_log _ _ _ _ _ Hrun) as [Hsame | (u & p & Hu & Hnot & Hadd & Hp)].
    + unfold purchase_count in *. now rewrite Hsame.
    + injection Hu as <-. rewrite (purchase_count_app _ _ _ _ _ Hadd).
      destruct (purchase_of b l p) eqn:E; [|lia].
      destruct (purchase_of_inj _ _ _ _ _ E Hp) as [-> ->].
      rewrite (purchase_count_none _ _ _ Hnot). lia.
  - intros Hown.
    destruct (purchase_route_guards w userId id listing buyer Hid Hl Hb) as [Hg _].
    rewrite (Hg Hown) in Hrun. injection Hrun as <- <-. now split.
Qed.

Lemma purchase_at_most_once_witness :
  ("alice" <> "" /\
   find_listing "L1" (db Sample.market_sold) = Some (Sample.tool 50000) /\
   find_user "alice" (db Sample.market_sold) = Some (Sample.account "alice" 200000) /\
   purchased "alice" "L1" (db Sample.market_sold) = true) /\
  purchase_route (Some "alice") "L1" Sample.market_sold =
    (Sample.market_sold, failure 400 "You already own this file") /\
  forall b l, (purchase_count b l (db Sample.market_sold) <= 1)%nat.
Proof.
  assert (Hone : forall b l, (purchase_count b l (db Sample.market_sold) <= 1)%nat).
  { intros b l. unfold purchase_count. cbn [Sample.market_sold Sample.at_
      Sample.tables db purchases filter].
    destruct (purchase_of b l (Sample.receipt "alice")); cbn [List.length]; lia. }
  assert (Hid : "alice" <> "") by discriminate.
  destruct (purchase_route (Some "alice") "L1" Sample.market_sold) as [w' r] eqn:Hrun.
  destruct (purchase_at_most_once Sample.market_sold "alice" "L1" _ _ w' r
              Hid eq_refl eq_refl Hone Hrun) as [Hafter Hreject].
  destruct (Hreject eq_refl) as [-> ->].
  repeat split; try reflexivity; assumption.
Defined.

Lemma purchase_moves_price_witness :
  ("alice" <> "" /\
   find_listing "L1" (db Sample.market) = Some (Sample.tool 50000) /\
   find_user "alice" (db Sample.market) = Some (Sample.account "alice" 250000) /\
   find_user "bob" (db Sample.market) = Some (Sample.account "bob" 5000) /\
   "bob" <> "alice" /\
   purchased "alice" "L1" (db Sample.market) = false /\
   0 < 50000 <= 250000 /\
   status (snd (purchase_route (Some "alice") "L1" Sample.market)) = 200) /\
  balance_of "alice" (db (fst (purchase_route (Some "alice") "L1" Sample.market))) =
    Some 200000 /\
  balance_of "bob" (db (fst (purchase_route (Some "alice") "L1" Sample.market))) =
    Some 55000 /\
  totalEarnings_of "bob" (db (fst (purchase_route (Some "alice") "L1" Sample.market))) =
    Some 50000 /\
  exists p,
    purchases (db (fst (purchase_route (Some "alice") "L1" Sample.market))) = [p] /\
    p_buyerId p = "alice" /\ p_sellerId p = "bob" /\ p_listingId p = "L1" /\
    p_amount p = 50000 /\
    snd (purchase_route (Some "alice") "L1" Sample.market) =
      json (PurchaseBody p "UEsDBA==" "tool.zip").
Proof.
  split.
  - repeat split; try discriminate; vm_compute; reflexivity.
  - apply (purchase_moves_price Sample.market "alice" "L1" (Sample.tool 50000)
             (Sample.account "alice" 250000) (Sample.account "bob" 5000)).
    + discriminate.
    + reflexivity.
    + reflexivity.
    + reflexivity.
    + discriminate.
    + reflexivity.
    + reflexivity.
    + right. discriminate.
    + apply surjective_pairing.
    + vm_compute. reflexivity.
Defined.

(** C4, as amended.  A buyer without unlimited funds who asks for a listing
    priced above the balance is answered 400 and nothing changes; the
    answer is "Insufficient balance" when the listing is not the buyer's own
    and the buyer does not own it yet (otherwise one of the two earlier
    guards answers). *)
Theorem purchase_insufficient_funds w userId id listing buyer :
  userId <> "" ->
  find_listing id (db w) = Some listing ->
  find_user userId (db w) = Some buyer ->
  u_hasInfiniteBalance buyer = false ->
  u_balance buyer < l_price listing ->
  (exists message, purchase_route (Some userId) id w = (w, failure 400 message)) /\
  (l_sellerId listing <> userId -> purchased userId id (db w) = false ->
     purchase_route (Some userId) id w = (w, failure 400 "Insufficient balance")).
Proof.
  intros Hid Hl Hb Hinf Hlt.
  destruct (purchase_route_guards w userId id listing buyer Hid Hl Hb)
    as (Howned & Hself & Hpoor).
  split.
  - destruct (purchased userId id (db w)) eqn:Hp.
    + eexists. exact (Howned eq_refl).
    + destruct (String.eqb_spec (l_sellerId listing) userId) as [Heq | Hne].
      * eexists. exact (Hself eq_refl Heq).
      * eexists. exact (Hpoor eq_refl Hne Hinf Hlt).
  - intros Hne Hp. exact (Hpoor Hp Hne Hinf Hlt).
Qed.

Lemma purchase_insufficient_funds_witness :
  ("alice" <> "" /\
   find_listing "L1" (db Sample.market_dear) = Some (Sample.tool 300000) /\
   find_user "alice" (db Sample.market_dear) = Some (Sample.account "alice" 250000) /\
   u_hasInfiniteBalance (Sample.account "alice" 250000) = false /\
   250000 < 300000 /\
   "bob" <> "alice" /\
   purchased "alice" "L1" (db Sample.market_dear) = false) /\
  purchase_route (Some "alice") "L1" Sample.market_dear =
    (Sample.market_dear, failure 400 "Insufficient balance").
Proof.
  split.
  - repeat split; try discriminate; reflexivity.
  - apply (purchase_insufficient_funds Sample.market_dear "alice" "L1"
             (Sample.tool 300000) (Sample.account "alice" 250000)).
    + discriminate.
    + reflexivity.
    + reflexivity.
    + reflexivity.
    + reflexivity.
    + discriminate.
    + reflexivity.
Defined.

(** C4, as stated, fails: bob, without unlimited funds and with 50.00,
    asks for his own listing priced 3000.00, and is not answered
    "Insufficient balance". *)
Lemma purchase_of_own_dear_listing :
  find_user "bob" (db Sample.market_dear) = Some (Sample.account "bob" 5000) /\
  u_hasInfiniteBalance (Sample.account "bob" 5000) = false /\
  find_listing "L1" (db Sample.market_dear) = Some (Sample.tool 300000) /\
  u_balance (Sample.account "bob" 5000) < l_price (Sample.tool 300000) /\
  snd (purchase_route (Some "bob") "L1" Sample.market_dear) =
    failure 400 "You cannot buy your own listing" /\
  snd (purchase_route (Some "bob") "L1" Sample.market_dear) <>
    failure 400 "Insufficient balance".
Proof.
  repeat split; try reflexivity. discriminate.
Qed.

(** *** Whose listings are bought *)

Lemma find_listing_update_where (id : string) (cond : Listing -> bool) f ls :
  (forall l, l_id (f l) = l_id l) ->
  find (fun l => String.eqb (l_id l) id) (update_where cond f ls) =
  option_map (fun l => if cond l then f l else l)
    (find (fun l => String.eqb (l_id l) id) ls).
Proof.
  intros Hf. induction ls as [|l ls IH]; [reflexivity|].
  cbn [update_where map find]. fold (update_where cond f ls).
  destruct (cond l) eqn:E.
  - rewrite Hf. destruct (String.eqb (l_id l) id); [|exact IH].
    cbn [option_map]. now rewrite E.
  - destruct (String.eqb (l_id l) id); [|exact IH].
    cbn [option_map]. now rewrite E.
Qed.

Lemma find_app_found {R} (f : R -> bool) rows rows' r :
  find f rows = Some r -> find f (rows ++ rows') = Some r.
Proof.
  induction rows as [|x rows IH]; [discriminate|].
  cbn [app find]. destruct (f x); [trivial | exact IH].
Qed.

(** Whether a record is of another's listing depends on the listings
    only. *)
Lemma from_another_listings d d' p :
  marketplaceListings d' = marketplaceListings d ->
  from_another d' p = from_another d p.
Proof. unfold from_another, find_listing. now intros ->. Qed.

(** It stays so when rows of the listings change but keep their key and
    their seller, *)
Lemma from_another_after_update d cond f p :
  (forall l, l_id (f l) = l_id l) ->
  (forall l, l_sellerId (f l) = l_sellerId l) ->
  from_another d p = true ->
  from_another
    (set_marketplaceListings (update_where cond f (marketplaceListings d)) d) p = true.
Proof.
  intros Hid Hseller. unfold from_another, find_listing.
  cbn [set_marketplaceListings marketplaceListings].
  rewrite (find_listing_update_where _ cond f _ Hid).
  destruct (find _ (marketplaceListings d)) as [l|]; [|discriminate].
  cbn [option_map]. destruct (cond l); [rewrite Hseller|]; trivial.
Qed.

(** and when a listing is appended. *)
Lemma from_another_after_insert d p x :
  from_another d p = true ->
  from_another (set_marketplaceListings (marketplaceListings d ++ [x]) d) p = true.
Proof.
  unfold from_another, find_listing. cbn [set_marketplaceListings marketplaceListings].
  destruct (find _ (marketplaceListings d)) as [l|] eqn:E; [|discriminate].
  intros H. now rewrite (find_app_found _ _ _ _ E).
Qed.

Lemma from_others_same_tables d d' :
  marketplaceListings d' = marketplaceListings d ->
  purchases d' = purchases d ->
  purchases_from_others d' = purchases_from_others d.
Proof.
  intros Hls Hps. unfold purchases_from_others, from_another, find_listing.
  now rewrite Hls, Hps.
Qed.

(** The listings and purchase records a purchase request leaves: the
    record it appends is of a listing that exists and that the buyer does
    not sell. *)
Lemma purchase_route_tables session id w :
  let w' := fst (purchase_route session id w) in
  (marketplaceListings (db w') = marketplaceListings (db w) \/
   exists id',
     marketplaceListings (db w') =
       update_where (fun l => String.eqb (l_id l) id')
         (fun l => with_downloads (l_downloads l + 1) l) (marketplaceListings (db w))) /\
  (purchases (db w') = purchases (db w) \/
   exists p,
     purchases (db w') = (purchases (db w) ++ [p])%list /\
     from_another (db w) p = true).
Proof.
  destruct (purchase_route session id w) as [w' r] eqn:Hrun. cbn [fst].
  unfold from_another. open_world w.
  destruct session as [userId|]; run_in Hrun;
    [| injection Hrun as <- <-; split; now left].
  repeat next_case Hrun.
  all: injection Hrun as <- <-; run.
  all: split; [first [now left | right; eexists; reflexivity]|].
  all: try (now left).
  all: right; eexists; (split; [reflexivity|]).
  all: cbn [p_listingId p_buyerId].
  all: repeat match goal with
       | H : find (has_id _) _ = Some ?u |- _ =>
           let K := fresh "K" in
           pose proof (find_some _ _ H) as [_ K]; apply has_id_true in K;
           rewrite K in *; clear H
       end.
  all: match goal with
       | H : find (fun l => String.eqb (l_id l) ?i) _ = Some ?x |- _ =>
           let K := fresh "K" in
           pose proof (find_some _ _ H) as [_ K]; apply String.eqb_eq in K;
           rewrite K, H
       end.
  all: match goal with
       | H : String.eqb ?a ?b = false |- negb (String.eqb ?a ?b) = true =>
           now rewrite H
       end.
Qed.

Lemma purchase_route_from_others session id w :
  purchases_from_others (db w) = true ->
  purchases_from_others (db (fst (purchase_route session id w))) = true.
Proof.
  intros Hinv. destruct (purchase_route_tables session id w) as [Hls Hps].
  cbv zeta in Hls, Hps. set (d' := db (fst (purchase_route session id w))) in *.
  set (d := db w) in *. unfold purchases_from_others in *.
  assert (Hkept : forall p, from_another d p = true -> from_another d' p = true).
  { intros p Hp. destruct Hls as [Hls | (id' & Hls)].
    - now rewrite (from_another_listings d d' p Hls).
    - rewrite (from_another_listings
                 (set_marketplaceListings
                    (update_where (fun l => String.eqb (l_id l) id')
                       (fun l => with_downloads (l_downloads l + 1) l)
                       (marketplaceListings d)) d) d' p Hls).
      now apply from_another_after_update. }
  assert (Hold : forallb (from_another d') (purchases d) = true).
  { rewrite forallb_forall in *. intros p Hin. exact (Hkept p (Hinv p Hin)). }
  destruct Hps as [Hps | (p & Hps & Hp)]; rewrite Hps; [exact Hold|].
  rewrite forallb_app, Hold. cbn [forallb andb]. now rewrite (Hkept p Hp).
Qed.

Lemma createListing_route_from_others session title price fileName fileData w :
  purchases_from_others (db w) = true ->
  purchases_from_others
    (db (fst (createListing_route session title price fileName fileData w))) = true.
Proof.
  intros Hinv.
  destruct (createListing_route session title price fileName fileData w)
    as [w' r] eqn:Hrun. cbn [fst].
  unfold purchases_from_others in *. open_world w.
  destruct session as [userId|]; run_in Hrun;
    [| injection Hrun as <- <-; exact Hinv].
  repeat next_case Hrun.
  all: injection Hrun as <- <-; run; try exact Hinv.
  all: rewrite forallb_forall in *; intros p Hin; specialize (Hinv p Hin).
  all: exact (from_another_after_insert (mkDB us ls ps ns acs gs vs) p _ Hinv).
Qed.

Lemma deleteListing_route_from_others session id w :
  purchases_from_others (db w) = true ->
  purchases_from_others (db (fst (deleteListing_route session id w))) = true.
Proof.
  intros Hinv. destruct (deleteListing_route session id w) as [w' r] eqn:Hrun.
  cbn [fst]. unfold purchases_from_others in *. open_world w.
  destruct session as [userId|]; run_in Hrun;
    [| injection Hrun as <- <-; exact Hinv].
  repeat next_case Hrun.
  all: injection Hrun as <- <-; run; try exact Hinv.
  all: rewrite forallb_forall in *; intros p Hin; specialize (Hinv p Hin).
  all: exact (from_another_after_update (mkDB us ls ps ns acs gs vs) _ with_inactive p
                (fun l => eq_refl) (fun l => eq_refl) Hinv).
Qed.

(** The other routes and the sweep write neither listings nor purchase
    records. *)
Ltac same_tables Hrun :=
  repeat next_case Hrun; injection Hrun as <- <-; run; now split.

Lemma other_requests_tables q w :
  match q with
  | PostListing _ _ _ _ _ | PostPurchase _ _ | DeleteListing _ _ => True
  | _ =>
      marketplaceListings (db (serve q w)) = marketplaceListings (db w) /\
      purchases (db (serve q w)) = purchases (db w)
  end.
Proof.
  destruct q as [| | session id | | session | session id | session | session id
                 | session | session | session userId amount note
                 | session userId isVerified | session userId isSuspended |];
    try exact I; cbn [serve].
  - destruct (download_route session id w) as [w' r] eqn:Hrun. cbn [fst].
    open_world w. destruct session as [userId|]; run_in Hrun;
      [| injection Hrun as <- <-; now split].
    same_tables Hrun.
  - destruct (unreadCount_route session w) as [w' r] eqn:Hrun. cbn [fst].
    open_world w. destruct session as [userId|]; run_in Hrun;
      [| injection Hrun as <- <-; now split].
    same_tables Hrun.
  - destruct (markRead_route session id w) as [w' r] eqn:Hrun. cbn [fst].
    open_world w. destruct session as [userId|]; run_in Hrun;
      [| injection Hrun as <- <-; now split].
    same_tables Hrun.
  - destruct (markAllRead_route session w) as [w' r] eqn:Hrun. cbn [fst].
    open_world w. destruct session as [userId|]; run_in Hrun;
      [| injection Hrun as <- <-; now split].
    same_tables Hrun.
  - destruct (deleteNotification_route session id w) as [w' r] eqn:Hrun. cbn [fst].
    open_world w. destruct session as [userId|]; run_in Hrun;
      [| injection Hrun as <- <-; now split].
    same_tables Hrun.
  - destruct (deleteAllNotifications_route session w) as [w' r] eqn:Hrun. cbn [fst].
    open_world w. destruct session as [userId|]; run_in Hrun;
      [| injection Hrun as <- <-; now split].
    same_tables Hrun.
  - destruct (verification_route session w) as [w' r] eqn:Hrun. cbn [fst].
    open_world w. destruct session as [userId|]; run_in Hrun;
      [| injection Hrun as <- <-; now split].
    same_tables Hrun.
  - destruct (giftMoney_route session userId amount note w) as [w' r] eqn:Hrun.
    cbn [fst]. open_world w. destruct session as [adminId|]; run_in Hrun;
      [| injection Hrun as <- <-; now split].
    same_tables Hrun.
  - destruct (toggleVerification_route session userId isVerified w) as [w' r] eqn:Hrun.
    cbn [fst]. open_world w. destruct session as [adminId|]; run_in Hrun;
      [| injection Hrun as <- <-; now split].
    same_tables Hrun.
  - destruct (toggleSuspend_route session userId isSuspended w) as [w' r] eqn:Hrun.
    cbn [fst]. open_world w. destruct session as [adminId|]; run_in Hrun;
      [| injection Hrun as <- <-; now split].
    same_tables Hrun.
  - open_world w. run. now split.
Qed.

(** Every request leaves the purchase records of others' listings. *)
Lemma serve_from_others q w :
  purchases_from_others (db w) = true ->
  purchases_from_others (db (serve q w)) = true.
Proof.
  intros Hinv. pose proof (other_requests_tables q w) as H.
  destruct q; cbn [serve] in *;
    [ now apply createListing_route_from_others
    | now apply purchase_route_from_others
    |
    | now apply deleteListing_route_from_others
    | .. ];
    destruct H as [Hls Hps]; now rewrite (from_others_same_tables _ _ Hls Hps).
Qed.

(** C6, as amended.  Every purchase record is of a listing that exists and
    that its buyer does not sell: this is so while there is no record, and
    every request and the sweep keep it so.  On such a state a purchase in
    which the buyer is the seller of the listing is answered 400, "You
    cannot buy your own listing", and nothing changes.  A gift from an
    administrator to the same administrator is not rejected: when the
    amount is a JSON number of whole cents, positive and within
    [decimal(12, 2)], and the stored decimals and the new balance are
    within their columns, it is answered 200, one gift record from and to
    that account is appended, and the balance grows by the amount unless
    the account has unlimited funds. *)
Theorem self_purchase_rejected_self_gift_accepted w userId account :
  userId <> "" ->
  find_user userId (db w) = Some account ->
  purchases_from_others (db w) = true ->
  (forall id listing,
     find_listing id (db w) = Some listing -> l_sellerId listing = userId ->
     purchased userId id (db w) = false /\
     purchase_route (Some userId) id w =
       (w, failure 400 "You cannot buy your own listing")) /\
  ((forall d, purchases d = [] -> purchases_from_others d = true) /\
   (forall q, purchases_from_others (db (serve q w)) = true)) /\
  (forall amount note,
     u_isAdmin account = true -> 0 < amount -> fits 12 amount = true ->
     schema_ok (db w) = true ->
     (u_hasInfiniteBalance account = false ->
        fits 12 (u_balance account + amount) = true) ->
     exists w' gift,
       giftMoney_route (Some userId) (Some userId) (Some amount) note w =
         (w', json (GiftBody "Gift sent successfully" gift)) /\
       moneyGifts (db w') = (moneyGifts (db w) ++ [gift])%list /\
       g_fromUserId gift = userId /\ g_toUserId gift = userId /\
       g_amount gift = amount /\
       balance_of userId (db w') =
         Some (if u_hasInfiniteBalance account then u_balance account
               else u_balance account + amount)).
Proof.
  intros Hid Hu Hinv. split; [|split].
  - intros id listing Hl Hself.
    destruct (purchase_route_guards w userId id listing account Hid Hl Hu)
      as (_ & Hown & _).
    assert (Hp : purchased userId id (db w) = false).
    { destruct (purchased userId id (db w)) eqn:Hp; [|reflexivity]. exfalso.
      unfold purchased, purchases_from_others in *.
      apply existsb_exists in Hp as (p & Hin & Hp).
      rewrite forallb_forall in Hinv. specialize (Hinv p Hin).
      unfold purchase_of in Hp. apply andb_true_iff in Hp as [Hb Hi].
      apply String.eqb_eq in Hb, Hi. unfold from_another in Hinv.
      rewrite Hi, Hl, Hself, Hb, String.eqb_refl in Hinv. discriminate Hinv. }
    split; [exact Hp | exact (Hown Hp Hself)].
  - split; [intros d Hd; unfold purchases_from_others; now rewrite Hd|].
    intros q. now apply serve_from_others.
  - intros amount note Hadmin Hpos Hfit Hok Hroom.
    exact (giftMoney_accepted w userId account userId account amount note
             Hid Hu Hadmin Hid Hu Hpos Hfit Hok Hroom).
Qed.

Lemma self_purchase_rejected_self_gift_accepted_witness :
  ("root" <> "" /\
   find_user "root" (db Sample.office) = Some Sample.root /\
   purchases_from_others (db Sample.office) = true /\
   find_listing "L9" (db Sample.office) = Some Sample.crown /\
   l_sellerId Sample.crown = "root" /\
   u_isAdmin Sample.root = true /\ 0 < 1000 /\ fits 12 1000 = true /\
   schema_ok (db Sample.office) = true) /\
  purchase_route (Some "root") "L9" Sample.office =
    (Sample.office, failure 400 "You cannot buy your own listing") /\
  ("bob" <> "" /\
   find_user "bob" (db Sample.market_sold) = Some (Sample.account "bob" 55000) /\
   purchases (db Sample.market_sold) = [Sample.receipt "alice"] /\
   purchases_from_others (db Sample.market_sold) = true /\
   find_listing "L1" (db Sample.market_sold) = Some (Sample.tool 50000) /\
   l_sellerId (Sample.tool 50000) = "bob") /\
  purchase_route (Some "bob") "L1" Sample.market_sold =
    (Sample.market_sold, failure 400 "You cannot buy your own listing") /\
  purchases_from_others
    (db (serve (DeleteListing (Some "bob") "L1") Sample.market_sold)) = true /\
  exists w' gift,
    giftMoney_route (Some "root") (Some "root") (Some 1000) None Sample.office =
      (w', json (GiftBody "Gift sent successfully" gift)) /\
    moneyGifts (db w') = [gift] /\
    g_fromUserId gift = "root" /\ g_toUserId gift = "root" /\
    g_amount gift = 1000 /\
    balance_of "root" (db w') = Some 99999999999.
Proof.
  split; [repeat split; try discriminate; reflexivity|].
  split.
  { apply (proj1 (self_purchase_rejected_self_gift_accepted Sample.office "root"
                    Sample.root ltac:(discriminate) eq_refl eq_refl) "L9" Sample.crown);
      reflexivity. }
  split; [repeat split; try discriminate; reflexivity|].
  split.
  { apply (proj1 (self_purchase_rejected_self_gift_accepted Sample.market_sold "bob"
                    (Sample.account "bob" 55000) ltac:(discriminate) eq_refl eq_refl)
             "L1" (Sample.tool 50000));
      reflexivity. }
  split.
  { apply (proj1 (proj2 (self_purchase_rejected_self_gift_accepted Sample.market_sold
                           "bob" (Sample.account "bob" 55000) ltac:(discriminate)
                           eq_refl eq_refl))). }
  apply (proj2 (proj2 (self_purchase_rejected_self_gift_accepted Sample.office "root"
                  Sample.root ltac:(discriminate) eq_refl eq_refl)) 1000 None);
    reflexivity.
Defined.

(** C6, as stated, fails for gifts: the administrator's gift to the
    administrator's own account is answered 200 and a gift record is
    appended. *)
Lemma self_gift_is_accepted :
  find_user "root" (db Sample.office) = Some Sample.root /\
  u_isAdmin Sample.root = true /\
  status (snd (giftMoney_route (Some "root") (Some "root") (Some 1000) None
                 Sample.office)) = 200 /\
  moneyGifts (db Sample.office) = [] /\
  map (fun g => (g_fromUserId g, g_toUserId g, g_amount g))
    (moneyGifts (db (fst (giftMoney_route (Some "root") (Some "root") (Some 1000)
                            None Sample.office)))) =
    [("root", "root", 1000)].
Proof.
  repeat split; reflexivity.
Qed.

(** C7.  A verification purchase by an account whose verified flag is set
    is answered 400, "You are already verified", and nothing changes: the
    balance is as before, and no verification payment, receipt or other row
    is written. *)
Theorem verification_already_verified w userId user :
  userId <> "" ->
  find_user userId (db w) = Some user ->
  u_isVerified user = true ->
  verification_route (Some userId) w = (w, failure 400 "You are already verified").
Proof.
  intros Hid Hu Hv.
  exact (proj1 (verification_route_guards w userId user Hid Hu) Hv).
Qed.

Lemma verification_already_verified_witness :
  ("dave" <> "" /\
   find_user "dave" (db Sample.lapsed) = Some Sample.dave /\
   u_isVerified Sample.dave = true) /\
  verification_route (Some "dave") Sample.lapsed =
    (Sample.lapsed, failure 400 "You are already verified").
Proof.
  split.
  - repeat split; try discriminate; reflexivity.
  - apply (verification_already_verified Sample.lapsed "dave" Sample.dave).
    + discriminate.
    + reflexivity.
    + reflexivity.
Defined.

(** ** The calendar *)

Lemma decodes_spec doe :
  0 <= doe < 146097 ->
  0 <= JSDate.mp_of doe <= 11 /\ 1 <= JSDate.dom_of doe.
Proof.
  intros H. unfold JSDate.dom_of, JSDate.mp_of, JSDate.doy_of, JSDate.yoe_of.
  cbv zeta. Z.div_mod_to_equations. lia.
Qed.




(** Every instant falls in a month from 0 to 11, on a day from 1 on. *)
Lemma month_and_date_ranges t :
  0 <= JSDate.MonthFromTime t <= 11 /\ 1 <= JSDate.DateFromTime t.
Proof.
  assert (H : 0 <= JSDate.doe_of_day (JSDate.Day t) < 146097)
    by (apply Z.mod_pos_bound; lia).
  destruct (decodes_spec _ H) as [Hm Hd].
  unfold JSDate.MonthFromTime, JSDate.DateFromTime. split; [|exact Hd].
  destruct (Z.ltb_spec (JSDate.mp_of (JSDate.doe_of_day (JSDate.Day t))) 10); lia.
Qed.

Lemma day_is_made_back t :
  JSDate.MakeDay (JSDate.YearFromTime t) (JSDate.MonthFromTime t) (JSDate.DateFromTime t) =
  JSDate.Day t.
Proof.
  unfold JSDate.MakeDay, JSDate.YearFromTime, JSDate.MonthFromTime, JSDate.DateFromTime.
  set (D := JSDate.Day t).
  assert (Hdoe : 0 <= JSDate.doe_of_day D < 146097)
    by (apply Z.mod_pos_bound; lia).
  assert (Hsplit : D + 719468 = 146097 * JSDate.era_of D + JSDate.doe_of_day D)
    by (apply Z.div_mod; lia).
  set (doe := JSDate.doe_of_day D) in *. set (era := JSDate.era_of D) in *.
  destruct (decodes_spec doe Hdoe) as [Hmp _].
  assert (Hyoe : 0 <= JSDate.yoe_of doe < 400).
  { unfold JSDate.yoe_of. Z.div_mod_to_equations. lia. }
  cbv zeta. set (mp := JSDate.mp_of doe) in *. set (yoe := JSDate.yoe_of doe) in *.
  assert (Hdom : JSDate.dom_of doe = doe - (365 * yoe + yoe / 4 - yoe / 100)
                                     - (153 * mp + 2) / 5 + 1) by reflexivity.
  rewrite Hdom. clear Hdom.
  set (m := if mp <? 10 then mp + 2 else mp - 10).
  assert (Hm : 0 <= m < 12) by (unfold m; destruct (Z.ltb_spec mp 10); lia).
  rewrite (Z.div_small m 12), (Z.mod_small m 12), Z.add_0_r by lia.
  unfold JSDate.first_of_month.
  assert (Hy : (if m <? 2 then (if m <? 2 then yoe + era * 400 + 1 else yoe + era * 400) - 1
                else (if m <? 2 then yoe + era * 400 + 1 else yoe + era * 400)) =
               era * 400 + yoe) by (destruct (m <? 2); lia).
  rewrite Hy.
  assert (Hmp' : (if m <? 2 then m + 10 else m - 2) = mp).
  { unfold m. destruct (Z.ltb_spec mp 10).
    - destruct (Z.ltb_spec (mp + 2) 2); lia.
    - destruct (Z.ltb_spec (mp - 10) 2); lia. }
  rewrite Hmp'.
  rewrite <- (Z.div_unique (era * 400 + yoe) 400 era yoe) by lia.
  rewrite <- (Z.mod_unique (era * 400 + yoe) 400 era yoe) by lia.
  unfold JSDate.doe_of. lia.
Qed.

(** A month has from 28 to 31 days. *)
Lemma month_has_28_to_31_days year month :
  0 <= month <= 11 ->
  28 <= JSDate.first_of_month (year + (month + 1) / 12) ((month + 1) mod 12)
        - JSDate.first_of_month year month <= 31.
Proof.
  intros Hm.
  assert (Hcases : month = 0 \/ month = 1 \/ month = 2 \/ month = 3 \/ month = 4 \/
                   month = 5 \/ month = 6 \/ month = 7 \/ month = 8 \/ month = 9 \/
                   month = 10 \/ month = 11) by lia.
  unfold JSDate.first_of_month, JSDate.doe_of.
  repeat (destruct Hcases as [-> | Hcases]; [cbn; Z.div_mod_to_equations; lia|]).
  subst month. cbn. Z.div_mod_to_equations. lia.
Qed.

(** ** Months *)

(** The first day of a month is [MakeDay 0 k 1] for its number [k], twelve
    times the year plus the month. *)
Lemma MakeDay_of_month_number year month date :
  JSDate.MakeDay year month date = JSDate.MakeDay 0 (12 * year + month) 1 + date - 1.
Proof.
  unfold JSDate.MakeDay.
  replace (0 + (12 * year + month) / 12) with (year + month / 12)
    by (Z.div_mod_to_equations; lia).
  replace ((12 * year + month) mod 12) with (month mod 12)
    by (Z.div_mod_to_equations; lia).
  lia.
Qed.

Lemma month_length k :
  28 <= JSDate.MakeDay 0 (k + 1) 1 - JSDate.MakeDay 0 k 1 <= 31.
Proof.
  assert (Hm : 0 <= k mod 12 <= 11) by (pose proof (Z.mod_pos_bound k 12); lia).
  pose proof (month_has_28_to_31_days (k / 12) (k mod 12) Hm) as H.
  unfold JSDate.MakeDay.
  replace (0 + (k + 1) / 12) with (k / 12 + (k mod 12 + 1) / 12)
    by (Z.div_mod_to_equations; lia).
  replace ((k + 1) mod 12) with ((k mod 12 + 1) mod 12)
    by (Z.div_mod_to_equations; lia).
  cbn [Z.add]. lia.
Qed.

Lemma month_starts_increase k n :
  0 <= n -> JSDate.MakeDay 0 k 1 + 28 * n <= JSDate.MakeDay 0 (k + n) 1.
Proof.
  intros Hn. pattern n. apply natlike_ind; [| |exact Hn].
  - replace (k + 0) with k by lia. lia.
  - intros m Hm IH. pose proof (month_length (k + m)) as H.
    replace (k + Z.succ m) with (k + m + 1) by lia. lia.
Qed.

Lemma decodes_upper doe :
  0 <= doe < 146097 ->
  0 <= JSDate.yoe_of doe < 400 /\
  (JSDate.mp_of doe <= 10 ->
     doe < JSDate.doe_of (JSDate.yoe_of doe) (JSDate.mp_of doe + 1) 1) /\
  (JSDate.mp_of doe = 11 -> JSDate.yoe_of doe < 399 ->
     doe < JSDate.doe_of (JSDate.yoe_of doe + 1) 0 1).
Proof.
  intros H. unfold JSDate.doe_of, JSDate.mp_of, JSDate.doy_of, JSDate.yoe_of.
  cbv zeta. repeat split; try intros; Z.div_mod_to_equations; lia.
Qed.

(** The first day of the month that is month [mp], counted from March, of
    year [yoe] of an era. *)
Lemma first_of_month_in_era era yoe mp :
  0 <= yoe < 400 -> 0 <= mp <= 11 ->
  JSDate.first_of_month (if mp <? 10 then era * 400 + yoe else era * 400 + yoe + 1)
    (if mp <? 10 then mp + 2 else mp - 10) =
  era * 146097 + JSDate.doe_of yoe mp 1 - 719468.
Proof.
  intros Hy Hm. unfold JSDate.first_of_month.
  destruct (Z.ltb_spec mp 10).
  - destruct (Z.ltb_spec (mp + 2) 2); [lia|].
    rewrite <- (Z.div_unique (era * 400 + yoe) 400 era yoe) by lia.
    rewrite <- (Z.mod_unique (era * 400 + yoe) 400 era yoe) by lia.
    replace (mp + 2 - 2) with mp by lia. lia.
  - destruct (Z.ltb_spec (mp - 10) 2); [|lia].
    replace (era * 400 + yoe + 1 - 1) with (era * 400 + yoe) by lia.
    rewrite <- (Z.div_unique (era * 400 + yoe) 400 era yoe) by lia.
    rewrite <- (Z.mod_unique (era * 400 + yoe) 400 era yoe) by lia.
    replace (mp - 10 + 10) with mp by lia. lia.
Qed.

(** A day lies before the first day of the month after its own. *)
Lemma day_before_next_month t :
  JSDate.Day t <
  JSDate.MakeDay (JSDate.YearFromTime t) (JSDate.MonthFromTime t + 1) 1.
Proof.
  unfold JSDate.MakeDay, JSDate.YearFromTime, JSDate.MonthFromTime.
  set (D := JSDate.Day t).
  assert (Hdoe : 0 <= JSDate.doe_of_day D < 146097)
    by (apply Z.mod_pos_bound; lia).
  assert (Hsplit : D + 719468 = 146097 * JSDate.era_of D + JSDate.doe_of_day D)
    by (apply Z.div_mod; lia).
  set (doe := JSDate.doe_of_day D) in *. set (era := JSDate.era_of D) in *.
  destruct (decodes_spec doe Hdoe) as [Hmp _].
  destruct (decodes_upper doe Hdoe) as (Hyoe & Hnext & Hmarch).
  cbv zeta. set (mp := JSDate.mp_of doe) in *. set (yoe := JSDate.yoe_of doe) in *.
  assert (Hcases : mp <= 8 \/ mp = 9 \/ mp = 10 \/ (mp = 11 /\ yoe < 399) \/
                   (mp = 11 /\ yoe = 399)) by lia.
  destruct Hcases as [H8 | [H9 | [H10 | [[H11 Hy] | [H11 Hy]]]]].
  - pose proof (first_of_month_in_era era yoe (mp + 1) Hyoe ltac:(lia)) as F.
    destruct (Z.ltb_spec mp 10); [|lia].
    destruct (Z.ltb_spec (mp + 1) 10); [|lia].
    destruct (Z.ltb_spec (mp + 2) 2); [lia|].
    rewrite (Z.div_small (mp + 2 + 1) 12), (Z.mod_small (mp + 2 + 1) 12) by lia.
    replace (yoe + era * 400 + 0) with (era * 400 + yoe) by lia.
    replace (mp + 2 + 1) with (mp + 1 + 2) by lia.
    rewrite F. specialize (Hnext ltac:(lia)). lia.
  - pose proof (first_of_month_in_era era yoe 10 Hyoe ltac:(lia)) as F.
    cbn in F. subst mp. rewrite H9 in *. cbn.
    replace (yoe + era * 400 + 1) with (era * 400 + yoe + 1) by lia.
    rewrite F. specialize (Hnext ltac:(lia)). cbn in Hnext. lia.
  - pose proof (first_of_month_in_era era yoe 11 Hyoe ltac:(lia)) as F.
    cbn in F. subst mp. rewrite H10 in *. cbn.
    replace (yoe + era * 400 + 1 + 0) with (era * 400 + yoe + 1) by lia.
    rewrite F. specialize (Hnext ltac:(lia)). cbn in Hnext. lia.
  - pose proof (first_of_month_in_era era (yoe + 1) 0 ltac:(lia) ltac:(lia)) as F.
    cbn in F. subst mp. rewrite H11 in *. cbn.
    replace (yoe + era * 400 + 1 + 0) with (era * 400 + (yoe + 1)) by lia.
    rewrite F. specialize (Hmarch eq_refl Hy). lia.
  - pose proof (first_of_month_in_era (era + 1) 0 0 ltac:(lia) ltac:(lia)) as F.
    cbn in F. subst mp. rewrite H11 in *. cbn.
    replace (yoe + era * 400 + 1 + 0) with ((era + 1) * 400 + 0) by lia.
    rewrite F. unfold JSDate.doe_of. cbn. lia.
Qed.

(** The number of the month of an instant. *)
Lemma day_in_its_month t :
  let k := 12 * JSDate.YearFromTime t + JSDate.MonthFromTime t in
  JSDate.MakeDay 0 k 1 <= JSDate.Day t < JSDate.MakeDay 0 (k + 1) 1 /\
  JSDate.DateFromTime t = JSDate.Day t - JSDate.MakeDay 0 k 1 + 1.
Proof.
  intros k. pose proof (day_is_made_back t) as Hback.
  pose proof (day_before_next_month t) as Hnext.
  destruct (month_and_date_ranges t) as [_ Hd].
  rewrite MakeDay_of_month_number in Hback, Hnext. fold k in Hback.
  replace (12 * JSDate.YearFromTime t + (JSDate.MonthFromTime t + 1)) with (k + 1)
    in Hnext by (unfold k; lia).
  lia.
Qed.

(** A day belongs to one month only. *)
Lemma month_of_day t k :
  JSDate.MakeDay 0 k 1 <= JSDate.Day t < JSDate.MakeDay 0 (k + 1) 1 ->
  12 * JSDate.YearFromTime t + JSDate.MonthFromTime t = k.
Proof.
  intros Hk. destruct (day_in_its_month t) as [Hown _]. cbv zeta in Hown.
  set (k0 := 12 * JSDate.YearFromTime t + JSDate.MonthFromTime t) in *.
  destruct (Z.lt_trichotomy k0 k) as [Hlt | [Heq | Hgt]]; [|exact Heq|].
  - pose proof (month_starts_increase (k0 + 1) (k - k0 - 1) ltac:(lia)) as H.
    replace (k0 + 1 + (k - k0 - 1)) with k in H by lia. lia.
  - pose proof (month_starts_increase (k + 1) (k0 - k - 1) ltac:(lia)) as H.
    replace (k + 1 + (k0 - k - 1)) with k0 in H by lia. lia.
Qed.

Lemma Day_of_MakeDate day time :
  0 <= time < JSDate.msPerDay ->
  JSDate.Day (JSDate.MakeDate day time) = day /\
  JSDate.TimeWithinDay (JSDate.MakeDate day time) = time.
Proof.
  intros Ht. unfold JSDate.Day, JSDate.TimeWithinDay, JSDate.MakeDate.
  unfold JSDate.msPerDay in *. split; symmetry.
  - apply (Z.div_unique _ _ _ time); lia.
  - apply (Z.mod_unique _ _ day); lia.
Qed.

(** [setMonth(getMonth() + 1)] in local time: the day and the time of day
    the local time [t] is moved to. *)
Lemma withMonth_next t :
  let k := 12 * JSDate.YearFromTime t + JSDate.MonthFromTime t in
  let t' := JSDate.withMonth t (JSDate.MonthFromTime t + 1) in
  JSDate.Day t' = JSDate.MakeDay 0 (k + 1) 1 + JSDate.DateFromTime t - 1 /\
  JSDate.TimeWithinDay t' = JSDate.TimeWithinDay t /\
  JSDate.Day t' - JSDate.Day t = JSDate.MakeDay 0 (k + 1) 1 - JSDate.MakeDay 0 k 1.
Proof.
  intros k t'.
  assert (Ht : 0 <= JSDate.TimeWithinDay t < JSDate.msPerDay)
    by (apply Z.mod_pos_bound; reflexivity).
  destruct (Day_of_MakeDate
              (JSDate.MakeDay (JSDate.YearFromTime t) (JSDate.MonthFromTime t + 1)
                 (JSDate.DateFromTime t)) _ Ht) as [Hday Htime].
  fold (JSDate.withMonth t (JSDate.MonthFromTime t + 1)) in Hday, Htime.
  fold t' in Hday, Htime.
  rewrite MakeDay_of_month_number in Hday.
  replace (12 * JSDate.YearFromTime t + (JSDate.MonthFromTime t + 1)) with (k + 1)
    in Hday by (unfold k; lia).
  destruct (day_in_its_month t) as [_ Hdate]. fold k in Hdate.
  repeat split; [exact Hday | exact Htime | lia].
Qed.

(** The local time [setMonth(getMonth() + 1)] makes is exactly one calendar
    month after [t] if, and only if, the following month has the day of the
    month of [t]; it is always later by the length of the month of [t],
    from 28 to 31 days. *)
Lemma withMonth_next_month t :
  let t' := JSDate.withMonth t (JSDate.MonthFromTime t + 1) in
  (one_calendar_month_after t t' <->
   JSDate.DateFromTime t <=
     JSDate.DaysInMonth (JSDate.YearFromTime t) (JSDate.MonthFromTime t + 1)) /\
  exists days, 28 <= days <= 31 /\ t' = t + days * JSDate.msPerDay.
Proof.
  intros t'. set (k := 12 * JSDate.YearFromTime t + JSDate.MonthFromTime t).
  destruct (withMonth_next t) as (Hday & Htime & Hdiff). fold k t' in Hday, Htime, Hdiff.
  destruct (month_and_date_ranges t) as [_ Hd].
  assert (Hlen : JSDate.DaysInMonth (JSDate.YearFromTime t) (JSDate.MonthFromTime t + 1) =
                 JSDate.MakeDay 0 (k + 2) 1 - JSDate.MakeDay 0 (k + 1) 1).
  { unfold JSDate.DaysInMonth.
    rewrite (MakeDay_of_month_number _ (JSDate.MonthFromTime t + 1 + 1)),
            (MakeDay_of_month_number _ (JSDate.MonthFromTime t + 1)).
    replace (12 * JSDate.YearFromTime t + (JSDate.MonthFromTime t + 1 + 1)) with (k + 2)
      by (unfold k; lia).
    replace (12 * JSDate.YearFromTime t + (JSDate.MonthFromTime t + 1)) with (k + 1)
      by (unfold k; lia).
    lia. }
  rewrite Hlen. split; [split|].
  - intros (Hdate & _ & Hmonth). fold k in Hmonth.
    destruct (day_in_its_month t') as [Hown _]. cbv zeta in Hown.
    rewrite Hmonth in Hown. replace (k + 1 + 1) with (k + 2) in Hown by lia. lia.
  - intros Hfits.
    assert (Hk : 12 * JSDate.YearFromTime t' + JSDate.MonthFromTime t' = k + 1).
    { apply month_of_day. replace (k + 1 + 1) with (k + 2) by lia. lia. }
    destruct (day_in_its_month t') as [_ Hdate]. cbv zeta in Hdate.
    rewrite Hk in Hdate. unfold one_calendar_month_after. fold k.
    repeat split; [lia | exact Htime | exact Hk].
  - exists (JSDate.MakeDay 0 (k + 1) 1 - JSDate.MakeDay 0 k 1).
    split; [apply month_length|].
    assert (Hsplit : forall x, x = JSDate.Day x * JSDate.msPerDay + JSDate.TimeWithinDay x).
    { intros x. unfold JSDate.Day, JSDate.TimeWithinDay. rewrite Z.mul_comm.
      apply Z.div_mod. discriminate. }
    rewrite (Hsplit t'), (Hsplit t) at 1. rewrite Htime. lia.
Qed.


(** ** Local time *)

Lemma LocalTZA_bounds zone t isUTC :
  - JSDate.msPerDay <= JSDate.LocalTZA zone t isUTC <= JSDate.msPerDay.
Proof.
  pose proof (JSDate.LocalTZA_range zone t isUTC) as H. apply Z.leb_le in H. lia.
Qed.

(** [d.setMonth(d.getMonth() + 1)] moves the local time of [d] forward by
    the length of its month, and gives the instant of that local time, at
    least 26 days after [d]. *)
Lemma setMonth_next zone t :
  let local := JSDate.LocalTime zone t in
  exists days,
    28 <= days <= 31 /\
    JSDate.withMonth local (JSDate.MonthFromTime local + 1) =
      local + days * JSDate.msPerDay /\
    JSDate.setMonth zone t (JSDate.getMonth zone t + 1) =
      t + days * JSDate.msPerDay + JSDate.LocalTZA zone t true
      - JSDate.LocalTZA zone (local + days * JSDate.msPerDay) false /\
    t + 26 * JSDate.msPerDay <= JSDate.setMonth zone t (JSDate.getMonth zone t + 1).
Proof.
  intros local.
  destruct (withMonth_next_month local) as [_ (days & Hdays & Hmove)].
  exists days. split; [exact Hdays|]. split; [exact Hmove|].
  unfold JSDate.setMonth, JSDate.getMonth, JSDate.ToUTC. fold local.
  rewrite Hmove.
  pose proof (LocalTZA_bounds zone t true).
  pose proof (LocalTZA_bounds zone (local + days * JSDate.msPerDay) false).
  unfold local, JSDate.LocalTime, JSDate.msPerDay in *. split; lia.
Qed.

(** ** The verification route: a completed purchase *)

(** What a verification purchase that passes the guards does. *)
Lemma verification_accepted w userId user :
  userId <> "" ->
  find_user userId (db w) = Some user ->
  u_isVerified user = false ->
  (u_hasInfiniteBalance user = true \/ verificationCost <= u_balance user) ->
  schema_ok (db w) = true ->
  let second := clock w + elapsed (lag w) 1 in
  let periodEnd :=
    JSDate.setMonth (timeZone w) second (JSDate.getMonth (timeZone w) second + 1) in
  let payment := mkVerificationPayment (uuids w (drawn w)) userId 500000
                   (clock w) periodEnd active (clock w) in
  exists w',
    verification_route (Some userId) w =
      (w', json (VerificationBody "Verification successful" payment)) /\
    verificationPayments (db w') = (verificationPayments (db w) ++ [payment])%list /\
    purchases (db w') = purchases (db w) /\
    find_user userId (db w') =
      Some (with_verification true (Some (clock w + elapsed (lag w) 2)) (Some periodEnd)
              (if u_hasInfiniteBalance user then user
               else with_balance (u_balance user - verificationCost) user)).
Proof.
  intros Hid Hu Hv Hfunds Hok second periodEnd payment.
  pose proof (find_user_id _ _ _ Hu) as Huid.
  apply schema_ok_users in Hok. subst payment periodEnd second. open_world w.
  destruct (find_columns_ok _ _ _ Hok Hu) as [Hbal _].
  assert (Hguard : negb (u_hasInfiniteBalance user) && (u_balance user <? verificationCost) = false).
  { destruct Hfunds as [-> | Hle]; [reflexivity|].
    apply andb_false_iff. right. now apply Z.ltb_ge. }
  run. rewrite (eqb_neq_false _ _ Hid), Hu, Hv. fold verificationCost.
  rewrite Hguard, Huid.
  destruct (u_hasInfiniteBalance user) eqn:Einf; cbn [negb]; run.
  - eexists. split; [reflexivity|]. run. lookups. rewrite Hu.
    repeat split; reflexivity.
  - assert (Hfit : fits 12 (u_balance user - verificationCost) = true).
    { destruct Hfunds as [Hf | Hle]; [discriminate|].
      apply (fits_between 12 0 (u_balance user)); [reflexivity | exact Hbal |].
      unfold verificationCost in *. lia. }
    rewrite (columns_check_balance _ _ _ Hok Hfit). run.
    eexists. split; [reflexivity|]. run. lookups. rewrite Hu.
    repeat split; reflexivity.
Qed.

(** C5, as amended.  An account that is not verified and has unlimited
    funds or at least the fee of 5000.00 (the stored decimals being within
    their columns) buys verification with answer 200: the balance goes down
    by exactly 5000.00 (not at all with unlimited funds), exactly one
    verification payment is appended, active, starting at the instant of
    the request; the account becomes verified, with the end of the period
    as its verification expiry.  A balance of exactly 5000.00 becomes 0.00.

    The period ends where [setMonth(getMonth() + 1)], in the local time of
    the process, sets a second reading of the clock, taken at the start or
    later: from 28 to 31 days after that reading in local time.  When the
    zone shows that local time at the end (no change of the clocks skips
    it), the end is exactly one calendar month after the second reading, in
    local time, if and only if the following month has its day of the
    month; otherwise, as from a 31st of January, it falls in the month
    after. *)
Theorem verification_purchase_effects w userId user :
  userId <> "" ->
  find_user userId (db w) = Some user ->
  u_isVerified user = false ->
  (u_hasInfiniteBalance user = true \/ verificationCost <= u_balance user) ->
  schema_ok (db w) = true ->
  let zone := timeZone w in
  let second := clock w + elapsed (lag w) 1 in
  let local := JSDate.LocalTime zone second in
  exists w' payment user',
    verification_route (Some userId) w =
      (w', json (VerificationBody "Verification successful" payment)) /\
    verificationPayments (db w') = (verificationPayments (db w) ++ [payment])%list /\
    vp_userId payment = userId /\ vp_status payment = active /\
    vp_amount payment = verificationCost /\
    vp_periodStart payment = clock w /\
    vp_periodStart payment <= second /\
    vp_periodEnd payment =
      JSDate.setMonth zone second (JSDate.getMonth zone second + 1) /\
    (exists days,
       28 <= days <= 31 /\
       vp_periodEnd payment =
         JSDate.ToUTC zone (local + days * JSDate.msPerDay)) /\
    (JSDate.LocalTime zone (vp_periodEnd payment) =
       JSDate.withMonth local (JSDate.MonthFromTime local + 1) ->
     (one_calendar_month_after local (JSDate.LocalTime zone (vp_periodEnd payment)) <->
      JSDate.DateFromTime local <=
        JSDate.DaysInMonth (JSDate.YearFromTime local) (JSDate.MonthFromTime local + 1))) /\
    find_user userId (db w') = Some user' /\
    u_balance user' =
      (if u_hasInfiniteBalance user then u_balance user
       else u_balance user - verificationCost) /\
    u_isVerified user' = true /\
    u_verificationExpiry user' = Some (vp_periodEnd payment) /\
    (u_hasInfiniteBalance user = false -> u_balance user = 500000 ->
       u_balance user' = 0).
Proof.
  intros Hid Hu Hv Hfunds Hok zone second local.
  destruct (verification_accepted w userId user Hid Hu Hv Hfunds Hok)
    as (w' & Hrun & Hlog & _ & Hfind).
  fold zone second in Hrun, Hlog, Hfind.
  do 3 eexists. split; [exact Hrun|]. split; [exact Hlog|].
  cbn [vp_userId vp_status vp_amount vp_periodStart vp_periodEnd].
  do 4 (split; [reflexivity|]).
  split.
  { unfold second. assert (H : 0 <= elapsed (lag w) 1) by (cbn [elapsed]; lia). lia. }
  split; [reflexivity|].
  split.
  { destruct (setMonth_next zone second) as (days & Hdays & Hmove & _).
    fold local in Hmove. exists days. split; [exact Hdays|].
    unfold JSDate.setMonth, JSDate.getMonth. fold local. now rewrite Hmove. }
  split.
  { intros ->. exact (proj1 (withMonth_next_month local)). }
  split; [exact Hfind|].
  split; [now destruct (u_hasInfiniteBalance user)|].
  do 2 (split; [reflexivity|]).
  intros Hinf Hbal. rewrite Hinf.
  cbn [with_verification u_balance with_balance]. rewrite Hbal. reflexivity.
Qed.

Lemma verification_purchase_effects_witness :
  ("carol" <> "" /\
   find_user "carol" (db (Sample.carol_at Sample.jan_15)) =
     Some (Sample.account "carol" 500000) /\
   u_isVerified (Sample.account "carol" 500000) = false /\
   verificationCost <= 500000 /\
   schema_ok (db (Sample.carol_at Sample.jan_15)) = true) /\
  exists w' payment user',
    verification_route (Some "carol") (Sample.carol_at Sample.jan_15) =
      (w', json (VerificationBody "Verification successful" payment)) /\
    verificationPayments (db w') = [payment] /\
    vp_status payment = active /\
    vp_periodStart payment = JSDate.UTC 2024 0 15 12 0 /\
    vp_periodEnd payment = JSDate.UTC 2024 1 15 12 0 /\
    one_calendar_month_after (vp_periodStart payment) (vp_periodEnd payment) /\
    find_user "carol" (db w') = Some user' /\
    u_balance user' = 0 /\ u_isVerified user' = true /\
    u_verificationExpiry user' = Some (JSDate.UTC 2024 1 15 12 0).
Proof.
  split; [repeat split; try discriminate; vm_compute; reflexivity|].
  assert (Hok : schema_ok (db (Sample.carol_at Sample.jan_15)) = true)
    by (vm_compute; reflexivity).
  assert (Hfunds : u_hasInfiniteBalance (Sample.account "carol" 500000) = true \/
                   verificationCost <= u_balance (Sample.account "carol" 500000))
    by (right; discriminate).
  destruct (verification_purchase_effects (Sample.carol_at Sample.jan_15) "carol"
              (Sample.account "carol" 500000) ltac:(discriminate) eq_refl eq_refl
              Hfunds Hok)
    as (w' & payment & user' & Hrun & Hlog & _ & Hst & _ & Hstart & _ & Hend & _
        & Hmonth & Hfind & _ & Hver & Hexp & Hzero).
  exists w', payment, user'.
  assert (Hstart' : vp_periodStart payment = JSDate.UTC 2024 0 15 12 0).
  { rewrite Hstart. vm_compute. reflexivity. }
  assert (Hend' : vp_periodEnd payment = JSDate.UTC 2024 1 15 12 0).
  { rewrite Hend. vm_compute. reflexivity. }
  split; [exact Hrun|]. split; [exact Hlog|]. split; [exact Hst|].
  split; [exact Hstart'|]. split; [exact Hend'|].
  split.
  { rewrite Hend' in Hmonth. rewrite Hstart', Hend'.
    assert (Hread : JSDate.LocalTime Sample.utc (JSDate.UTC 2024 1 15 12 0) =
                    JSDate.UTC 2024 1 15 12 0) by (vm_compute; reflexivity).
    assert (Hlocal : JSDate.LocalTime (timeZone (Sample.carol_at Sample.jan_15))
                       (clock (Sample.carol_at Sample.jan_15)
                        + elapsed (lag (Sample.carol_at Sample.jan_15)) 1) =
                     JSDate.UTC 2024 0 15 12 0) by (vm_compute; reflexivity).
    change (timeZone (Sample.carol_at Sample.jan_15)) with Sample.utc in Hmonth.
    rewrite Hread in Hmonth.
    change (timeZone (Sample.carol_at Sample.jan_15)) with Sample.utc in Hlocal.
    rewrite Hlocal in Hmonth.
    apply Hmonth; vm_compute; [reflexivity | discriminate]. }
  split; [exact Hfind|].
  split; [apply Hzero; reflexivity|].
  split; [exact Hver|].
  rewrite Hexp, Hend'. reflexivity.
Defined.

(** C5, as stated, fails at the end of a month: carol buys verification on
    31 January 2024 at noon, and her period ends on 2 March at noon, which
    is not one calendar month after its start. *)
Lemma verification_from_jan_31_ends_in_march :
  find_user "carol" (db (Sample.carol_at Sample.jan_31)) =
    Some (Sample.account "carol" 500000) /\
  u_isVerified (Sample.account "carol" 500000) = false /\
  verificationCost <= u_balance (Sample.account "carol" 500000) /\
  exists payment,
    snd (verification_route (Some "carol") (Sample.carol_at Sample.jan_31)) =
      json (VerificationBody "Verification successful" payment) /\
    vp_status payment = active /\
    vp_periodStart payment = JSDate.UTC 2024 0 31 12 0 /\
    vp_periodEnd payment = JSDate.UTC 2024 2 2 12 0 /\
    ~ one_calendar_month_after (vp_periodStart payment) (vp_periodEnd payment).
Proof.
  split; [reflexivity|]. split; [reflexivity|]. split; [discriminate|].
  exists (mkVerificationPayment "uuid-0" "carol" 500000 (JSDate.UTC 2024 0 31 12 0)
            (JSDate.UTC 2024 2 2 12 0) active (JSDate.UTC 2024 0 31 12 0)).
  split; [vm_compute; reflexivity|].
  do 3 (split; [reflexivity|]).
  intros (Hday & _). vm_compute in Hday. discriminate.
Qed.




(** ** The sweep *)

(** No row satisfies a conjunction with [verification_granted_by = NULL]. *)
Lemma never_equal_to_null {A} (eqb : A -> A -> bool) (c : sql_bool) (x : option A) :
  selected (sql_and c (sql_eq eqb x None)) = false.
Proof. destruct c, x; reflexivity. Qed.

(** The sweep changes no row of the users table. *)
Lemma sweep_users w : users (db (sweep w)) = users (db w).
Proof.
  open_world w. run. apply update_where_none. intros u.
  apply never_equal_to_null.
Qed.

(** The other tables it does not name stay as they are, and so do the clock
    and the supply of identifiers. *)
Lemma sweep_payments w :
  verificationPayments (db (sweep w)) =
  update_where
    (fun v => VerificationStatus_eqb (vp_status v) active && (vp_periodEnd v <? clock w))
    (with_status expired) (verificationPayments (db w)).
Proof.
  open_world w. run. unfold update_where. apply map_ext. intros v.
  unfold sql_eq, sql_lt, sql_of_bool.
  destruct (VerificationStatus_eqb (vp_status v) active), (vp_periodEnd v <? c);
    reflexivity.
Qed.

(** C9.  Running the sweep twice in a row, at the same instant, gives the
    same state as running it once: the second run changes nothing. *)
Theorem sweep_idempotent w : sweep (sweep w) = sweep w.
Proof.
  open_world w. run. f_equal. f_equal.
  - rewrite !update_where_none by (intros u; apply never_equal_to_null).
    reflexivity.
  - apply update_where_again. intros v _. cbn [with_status vp_status vp_periodEnd].
    reflexivity.
Qed.

(** C3: the code does not do what the claim says.  dave's verification was
    bought (no administrator granted it) and expired on 15 January; the
    sweep of 31 January marks his verification payment expired, and leaves
    him verified, with the same expiry. *)
Theorem sweep_keeps_lapsed_account_verified :
  find_user "dave" (db Sample.lapsed) = Some Sample.dave /\
  u_isVerified Sample.dave = true /\
  u_verificationExpiry Sample.dave = Some Sample.jan_15 /\
  Sample.jan_15 < clock Sample.lapsed /\
  u_verificationGrantedBy Sample.dave = None /\
  map vp_status (verificationPayments (db (sweep Sample.lapsed))) = [expired] /\
  find_user "dave" (db (sweep Sample.lapsed)) = Some Sample.dave.
Proof.
  repeat split; vm_compute; reflexivity.
Qed.

(** ** Balances below zero *)

(** C8: the code does not keep the invariant.  bob, with 50.00, lists a
    tool at the price of -100.00, which the listing route accepts; alice
    buys it; the purchase is answered 200 and bob's balance is -50.00. *)
Theorem negative_price_overdraws_seller :
  let start := Sample.at_ Sample.jan_15
                 (Sample.tables [Sample.account "alice" 250000; Sample.account "bob" 5000]
                    [] []) in
  let listed := createListing_route (Some "bob") "tool" (-10000) "tool.zip" "UEsDBA==" start in
  let sold := purchase_route (Some "alice") "uuid-0" (fst listed) in
  balance_of "alice" (db start) = Some 250000 /\
  balance_of "bob" (db start) = Some 5000 /\
  status (snd listed) = 200 /\
  map (fun l => (l_id l, l_sellerId l, l_price l)) (marketplaceListings (db (fst listed))) =
    [("uuid-0", "bob", -10000)] /\
  status (snd sold) = 200 /\
  balance_of "alice" (db (fst sold)) = Some 260000 /\
  balance_of "bob" (db (fst sold)) = Some (-5000) /\
  find_user "bob" (db (fst sold)) =
    Some (mkUser "bob" "bob" (-5000) false false false None None None false (-10000)).
Proof.
  repeat split; vm_compute; reflexivity.
Qed.

(** * Further properties of the routes *)

(** ** Who may call *)

(** Without a session user (none, or the empty string) each of the four
    routes answers 401 and changes nothing. *)
Theorem unauthenticated_request_changes_nothing session w :
  session = None \/ session = Some "" ->
  (forall title price fileName fileData,
     createListing_route session title price fileName fileData w =
       (w, failure 401 "Not authenticated")) /\
  (forall id, purchase_route session id w = (w, failure 401 "Not authenticated")) /\
  verification_route session w = (w, failure 401 "Not authenticated") /\
  (forall userId amount note,
     giftMoney_route session userId amount note w =
       (w, failure 401 "Not authenticated")).
Proof.
  intros [-> | ->]; repeat split; reflexivity.
Qed.

Lemma unauthenticated_request_changes_nothing_witness :
  purchase_route None "L1" Sample.market = (Sample.market, failure 401 "Not authenticated") /\
  verification_route (Some "") Sample.market =
    (Sample.market, failure 401 "Not authenticated").
Proof.
  split.
  - apply (unauthenticated_request_changes_nothing None Sample.market (or_introl eq_refl)).
  - apply (unauthenticated_request_changes_nothing (Some "") Sample.market
             (or_intror eq_refl)).
Defined.

(** A gift asked by a session user who is not an administrator, or who is
    not in the users table, is answered 403 and changes nothing, whatever
    the body of the request. *)
Theorem gift_requires_admin w adminId userId amount note :
  adminId <> "" ->
  (forall admin, find_user adminId (db w) = Some admin -> u_isAdmin admin = false) ->
  giftMoney_route (Some adminId) userId amount note w =
    (w, failure 403 "Admin access required").
Proof.
  intros Hid Hnot. unfold giftMoney_route, requireAdmin, requireAuth.
  rewrite (eqb_neq_false _ _ Hid).
  destruct (find_user adminId (db w)) as [admin|] eqn:E; [|reflexivity].
  now rewrite (Hnot admin eq_refl).
Qed.

Lemma gift_requires_admin_witness :
  "alice" <> "" /\
  giftMoney_route (Some "alice") (Some "alice") (Some 100000000) None Sample.office =
    (Sample.office, failure 403 "Admin access required").
Proof.
  split; [discriminate|].
  apply gift_requires_admin; [discriminate|].
  intros admin H. vm_compute in H. injection H as <-. reflexivity.
Defined.

(** An administrator's gift request without a recipient, with the empty
    recipient, without an amount, or with an amount that is zero or
    negative, is answered 400 and changes nothing. *)
Theorem gift_invalid_input_rejected w adminId admin userId amount note :
  adminId <> "" ->
  find_user adminId (db w) = Some admin ->
  u_isAdmin admin = true ->
  userId = None \/ userId = Some "" \/ amount = None \/
    (exists a, amount = Some a /\ a <= 0) ->
  giftMoney_route (Some adminId) userId amount note w =
    (w, failure 400 "Invalid user or amount").
Proof.
  intros Hid Hadmin Hflag Hbad. open_world w. run.
  rewrite (eqb_neq_false _ _ Hid), Hadmin, Hflag.
  destruct Hbad as [-> | [-> | [-> | (a & -> & Ha)]]].
  - reflexivity.
  - destruct amount; reflexivity.
  - destruct userId; reflexivity.
  - destruct userId as [u|]; [|reflexivity].
    replace (a <=? 0) with true by (symmetry; now apply Z.leb_le).
    rewrite !orb_true_r. reflexivity.
Qed.

Lemma gift_invalid_input_rejected_witness :
  ("root" <> "" /\ find_user "root" (db Sample.office) = Some Sample.root /\
   u_isAdmin Sample.root = true /\ -500 <= 0) /\
  giftMoney_route (Some "root") (Some "alice") (Some (-500)) None Sample.office =
    (Sample.office, failure 400 "Invalid user or amount").
Proof.
  split; [repeat split; try discriminate; reflexivity|].
  apply (gift_invalid_input_rejected Sample.office "root" Sample.root).
  - discriminate.
  - reflexivity.
  - reflexivity.
  - right. right. right. exists (-500). split; [reflexivity | discriminate].
Defined.

(** A gift to an identifier that is not in the users table is answered 404
    and changes nothing. *)
Theorem gift_unknown_recipient w adminId admin userId amount note :
  adminId <> "" ->
  find_user adminId (db w) = Some admin ->
  u_isAdmin admin = true ->
  userId <> "" -> 0 < amount ->
  find_user userId (db w) = None ->
  giftMoney_route (Some adminId) (Some userId) (Some amount) note w =
    (w, failure 404 "User not found").
Proof.
  intros Hid Hadmin Hflag Hu Hpos Hnone. open_world w. run.
  rewrite (eqb_neq_false _ _ Hid), Hadmin, Hflag, (eqb_neq_false _ _ Hu).
  replace (amount =? 0) with false by (symmetry; apply Z.eqb_neq; lia).
  replace (amount <=? 0) with false by (symmetry; apply Z.leb_gt; lia).
  cbn [orb]. run. rewrite Hnone. reflexivity.
Qed.

Lemma gift_unknown_recipient_witness :
  ("root" <> "" /\ find_user "root" (db Sample.office) = Some Sample.root /\
   u_isAdmin Sample.root = true /\ "zoe" <> "" /\ 0 < 100 /\
   find_user "zoe" (db Sample.office) = None) /\
  giftMoney_route (Some "root") (Some "zoe") (Some 100) None Sample.office =
    (Sample.office, failure 404 "User not found").
Proof.
  split; [repeat split; try discriminate; reflexivity|].
  apply (gift_unknown_recipient Sample.office "root" Sample.root);
    try discriminate; reflexivity.
Defined.

(** ** Gifts *)

(** An administrator's gift to an existing account of a positive amount,
    a JSON number of whole cents, is answered 200 when the amount and the
    new balance fit their columns: one gift record from the administrator
    to the recipient is appended, the recipient's balance grows by exactly
    the amount (not at all with unlimited funds), the purchase log is
    untouched, and nothing is taken from the administrator: when the
    recipient is another account, the administrator's balance is as
    before. *)
Theorem gift_credits_recipient w adminId admin userId recipient amount note :
  adminId <> "" ->
  find_user adminId (db w) = Some admin ->
  u_isAdmin admin = true ->
  userId <> "" ->
  find_user userId (db w) = Some recipient ->
  0 < amount ->
  fits 12 amount = true ->
  schema_ok (db w) = true ->
  (u_hasInfiniteBalance recipient = false ->
     fits 12 (u_balance recipient + amount) = true) ->
  exists w' gift,
    giftMoney_route (Some adminId) (Some userId) (Some amount) note w =
      (w', json (GiftBody "Gift sent successfully" gift)) /\
    moneyGifts (db w') = (moneyGifts (db w) ++ [gift])%list /\
    g_fromUserId gift = adminId /\ g_toUserId gift = userId /\
    g_amount gift = amount /\ g_note gift = note /\
    purchases (db w') = purchases (db w) /\
    balance_of userId (db w') =
      Some (if u_hasInfiniteBalance recipient then u_balance recipient
            else u_balance recipient + amount) /\
    (adminId <> userId -> balance_of adminId (db w') = Some (u_balance admin)).
Proof.
  intros Ha Hadmin Hflag Hu Hrec Hpos Hfit Hok Hroom.
  apply schema_ok_users in Hok. unfold balance_of.
  open_world w. run.
  rewrite (eqb_neq_false _ _ Ha), Hadmin, Hflag, (eqb_neq_false _ _ Hu).
  replace (amount =? 0) with false by (symmetry; apply Z.eqb_neq; lia).
  replace (amount <=? 0) with false by (symmetry; apply Z.leb_gt; lia).
  cbn [orb]. run. rewrite Hrec. run.
  destruct (u_hasInfiniteBalance recipient) eqn:Einf; cbn [negb]; run.
  - rewrite Hfit. run.
    do 2 eexists. split; [reflexivity|]. run. rewrite Hrec, Hadmin.
    repeat split; reflexivity.
  - rewrite (columns_check_balance _ _ _ Hok (Hroom eq_refl)). run.
    rewrite Hfit. run.
    do 2 eexists. split; [reflexivity|]. run.
    do 6 (split; [reflexivity|]). split.
    + lookups. rewrite Hrec. reflexivity.
    + intros Hne. lookups. rewrite Hadmin. reflexivity.
Qed.

Lemma gift_credits_recipient_witness :
  ("root" <> "" /\ find_user "root" (db Sample.office) = Some Sample.root /\
   u_isAdmin Sample.root = true /\ "alice" <> "" /\
   find_user "alice" (db Sample.office) = Some (Sample.account "alice" 250000) /\
   0 < 1000 /\ fits 12 1000 = true /\ schema_ok (db Sample.office) = true /\
   fits 12 (250000 + 1000) = true) /\
  exists w' gift,
    giftMoney_route (Some "root") (Some "alice") (Some 1000) (Some "bonus") Sample.office =
      (w', json (GiftBody "Gift sent successfully" gift)) /\
    moneyGifts (db w') = [gift] /\
    balance_of "alice" (db w') = Some 251000 /\
    balance_of "root" (db w') = Some 99999999999.
Proof.
  split; [repeat split; try discriminate; vm_compute; reflexivity|].
  assert (Hok : schema_ok (db Sample.office) = true) by (vm_compute; reflexivity).
  assert (Hfit : fits 12 1000 = true) by (vm_compute; reflexivity).
  assert (Hroom : u_hasInfiniteBalance (Sample.account "alice" 250000) = false ->
                  fits 12 (u_balance (Sample.account "alice" 250000) + 1000) = true)
    by (intros _; vm_compute; reflexivity).
  destruct (gift_credits_recipient Sample.office "root" Sample.root "alice"
              (Sample.account "alice" 250000) 1000 (Some "bonus")
              ltac:(discriminate) eq_refl eq_refl ltac:(discriminate) eq_refl
              eq_refl Hfit Hok Hroom)
    as (w' & gift & Hrun & Hlog & _ & _ & _ & _ & _ & Hbal & Hadm).
  exists w', gift. repeat split; try assumption.
  apply Hadm. discriminate.
Defined.

(** ** Verification: not enough funds *)

(** An account that is not verified, has no unlimited funds and holds less
    than the fee of 5000.00 is answered 400 and nothing changes. *)
Theorem verification_insufficient_funds w userId user :
  userId <> "" ->
  find_user userId (db w) = Some user ->
  u_isVerified user = false ->
  u_hasInfiniteBalance user = false ->
  u_balance user < verificationCost ->
  verification_route (Some userId) w =
    (w, failure 400 "Insufficient balance. Verification costs $5,000/month.").
Proof.
  intros Hid Hu Hv Hinf Hlt.
  exact (proj2 (verification_route_guards w userId user Hid Hu) Hv Hinf Hlt).
Qed.

Lemma verification_insufficient_funds_witness :
  ("alice" <> "" /\
   find_user "alice" (db Sample.market) = Some (Sample.account "alice" 250000) /\
   250000 < verificationCost) /\
  verification_route (Some "alice") Sample.market =
    (Sample.market, failure 400 "Insufficient balance. Verification costs $5,000/month.").
Proof.
  split; [repeat split; try discriminate; reflexivity|].
  apply (verification_insufficient_funds Sample.market "alice"
           (Sample.account "alice" 250000)); try discriminate; reflexivity.
Defined.

(** ** Purchases: what is not found *)

Lemma purchase_succeeds_witness :
  ("alice" <> "" /\
   find_listing "L1" (db Sample.market) = Some (Sample.tool 50000) /\
   find_user "alice" (db Sample.market) = Some (Sample.account "alice" 250000) /\
   find_user "bob" (db Sample.market) = Some (Sample.account "bob" 5000) /\
   "bob" <> "alice" /\ purchased "alice" "L1" (db Sample.market) = false /\
   0 < 50000 <= 250000 /\ schema_ok (db Sample.market) = true /\
   fits 12 (5000 + 50000) = true /\ fits 12 (0 + 50000) = true /\
   int4 (l_downloads (Sample.tool 50000) + 1) = true) /\
  status (snd (purchase_route (Some "alice") "L1" Sample.market)) = 200.
Proof.
  split; [repeat split; try discriminate; vm_compute; reflexivity|].
  assert (Hint : forall l, In l (marketplaceListings (db Sample.market)) ->
            l_id l = "L1" -> int4 (l_downloads l + 1) = true)
    by (intros l [<- | []] _; reflexivity).
  assert (Hok : schema_ok (db Sample.market) = true) by (vm_compute; reflexivity).
  assert (Hroom : u_hasInfiniteBalance (Sample.account "bob" 5000) = false ->
            fits 12 (u_balance (Sample.account "bob" 5000) + l_price (Sample.tool 50000)) = true /\
            fits 12 (u_totalEarnings (Sample.account "bob" 5000) + l_price (Sample.tool 50000)) = true)
    by (intros _; split; vm_compute; reflexivity).
  apply (purchase_succeeds Sample.market "alice" "L1" (Sample.tool 50000)
           (Sample.account "alice" 250000) (Sample.account "bob" 5000));
    try discriminate; try reflexivity; try assumption.
  right. discriminate.
Defined.

(** ** Balances stay at or above zero *)

Lemma find_nonneg id us u :
  Forall (fun u => 0 <= u_balance u) us -> find (has_id id) us = Some u ->
  0 <= u_balance u.
Proof.
  intros H Hu. apply find_some in Hu as [Hin _].
  rewrite Forall_forall in H. exact (H u Hin).
Qed.

Lemma balance_update_nonneg id b us :
  Forall (fun u => 0 <= u_balance u) us -> 0 <= b ->
  Forall (fun u => 0 <= u_balance u) (update_where (has_id id) (with_balance b) us).
Proof.
  intros H Hb. apply update_where_Forall; [exact H|]. intros r _ _. exact Hb.
Qed.

Lemma other_update_nonneg id f us :
  (forall u, u_balance (f u) = u_balance u) ->
  Forall (fun u => 0 <= u_balance u) us ->
  Forall (fun u => 0 <= u_balance u) (update_where (has_id id) f us).
Proof.
  intros Hf H. apply update_where_Forall; [exact H|]. intros r _ Hr.
  now rewrite Hf.
Qed.

Ltac nonneg_leaf :=
  repeat first
    [ assumption
    | apply other_update_nonneg; [intros ?; reflexivity|]
    | apply balance_update_nonneg ].

(** Whatever the purchase route answers, and also when a statement of it
    throws half-way, it leaves every balance at or above zero if they were
    so before and the price of the listing is not negative. *)
Theorem purchase_keeps_balances_nonneg session id w :
  (forall listing, find_listing id (db w) = Some listing -> 0 <= l_price listing) ->
  balances_nonneg (db w) ->
  balances_nonneg (db (fst (purchase_route session id w))).
Proof.
  unfold balances_nonneg. intros Hprice Hnn.
  destruct (purchase_route session id w) as [w' r] eqn:Hrun. cbn [fst].
  open_world w. destruct session as [userId|]; run_in Hrun;
    [| injection Hrun as <- <-; exact Hnn].
  repeat next_case Hrun.
  all: injection Hrun as <- <-; run; try exact Hnn.
  all: specialize (Hprice _ eq_refl).
  all: repeat match goal with
       | H : negb ?b = true |- _ => apply negb_true_iff in H
       | H : negb ?b = false |- _ => apply negb_false_iff in H
       end.
  all: repeat match goal with
       | H : u_hasInfiniteBalance ?u = _, H' : context [negb (u_hasInfiniteBalance ?u)] |- _ =>
           rewrite H in H'; cbn [negb andb] in H'
       end.
  all: repeat match goal with
       | H : (_ <? _) = false |- _ => apply Z.ltb_ge in H
       end.
  all: try match goal with
       | H : find (has_id _) (update_where _ (with_balance ?b) ?us) = Some ?s |- _ =>
           assert (0 <= u_balance s)
             by (apply (find_nonneg _ _ _ (balance_update_nonneg _ b us Hnn ltac:(lia)) H))
       | H : find (has_id _) _ = Some ?s |- context [u_balance ?s + _] =>
           pose proof (find_nonneg _ _ _ Hnn H)
       end.
  all: nonneg_leaf; lia.
Qed.

Lemma purchase_keeps_balances_nonneg_witness :
  (0 <= 50000 /\ balances_nonneg (db Sample.market)) /\
  balances_nonneg (db (fst (purchase_route (Some "alice") "L1" Sample.market))).
Proof.
  assert (Hnn : balances_nonneg (db Sample.market)).
  { repeat constructor; discriminate. }
  split; [split; [discriminate | exact Hnn]|].
  apply purchase_keeps_balances_nonneg; [|exact Hnn].
  intros listing H. vm_compute in H. injection H as <-. discriminate.
Defined.

Ltac flags :=
  repeat match goal with
  | H : negb ?b = true |- _ => apply negb_true_iff in H
  | H : negb ?b = false |- _ => apply negb_false_iff in H
  end;
  repeat match goal with
  | H : u_hasInfiniteBalance ?u = _, H' : context [negb (u_hasInfiniteBalance ?u)] |- _ =>
      rewrite H in H'; cbn [negb andb] in H'
  end;
  repeat match goal with
  | H : (_ <? _) = false |- _ => apply Z.ltb_ge in H
  | H : (_ <=? _) = false |- _ => apply Z.leb_gt in H
  | H : (_ || _) = false |- _ => apply orb_false_iff in H as [? ?]
  end.

(** The verification route and the gift route, whatever they answer, leave
    every balance at or above zero if they were so before. *)
Theorem verification_and_gift_keep_balances_nonneg w :
  balances_nonneg (db w) ->
  (forall session, balances_nonneg (db (fst (verification_route session w)))) /\
  (forall session userId amount note,
     balances_nonneg (db (fst (giftMoney_route session userId amount note w)))).
Proof.
  unfold balances_nonneg. intros Hnn. split.
  - intros session.
    destruct (verification_route session w) as [w' r] eqn:Hrun. cbn [fst].
    open_world w. destruct session as [userId|]; run_in Hrun;
      [| injection Hrun as <- <-; exact Hnn].
    repeat next_case Hrun.
    all: injection Hrun as <- <-; run; try exact Hnn.
    all: flags; unfold verificationCost in *; nonneg_leaf; lia.
  - intros session userId amount note.
    destruct (giftMoney_route session userId amount note w) as [w' r] eqn:Hrun.
    cbn [fst]. open_world w.
    destruct session as [adminId|]; run_in Hrun;
      [| injection Hrun as <- <-; exact Hnn].
    destruct userId as [userId|], amount as [amount|]; run_in Hrun.
    all: repeat next_case Hrun.
    all: injection Hrun as <- <-; run; try exact Hnn.
    all: flags.
    all: match goal with
         | H : find (has_id _) _ = Some ?s |- context [u_balance ?s + _] =>
             pose proof (find_nonneg _ _ _ Hnn H)
         end.
    all: nonneg_leaf; lia.
Qed.

Lemma verification_and_gift_keep_balances_nonneg_witness :
  balances_nonneg (db (Sample.carol_at Sample.jan_15)) /\
  balances_nonneg
    (db (fst (verification_route (Some "carol") (Sample.carol_at Sample.jan_15)))).
Proof.
  assert (Hnn : balances_nonneg (db (Sample.carol_at Sample.jan_15))).
  { repeat constructor; discriminate. }
  split; [exact Hnn|].
  apply (proj1 (verification_and_gift_keep_balances_nonneg _ Hnn)).
Defined.

(** ** Accounts with unlimited funds *)

Lemma unlimited_is_not_updated id id0 f us u x :
  keeps_id f ->
  find (has_id id) us = Some u -> u_hasInfiniteBalance u = true ->
  find (has_id id0) us = Some x -> u_hasInfiniteBalance x = false ->
  find (has_id id) (update_where (has_id id0) f us) = Some u.
Proof.
  intros Hf Hu Hinf Hx Hfin.
  rewrite find_update_where_other; [exact Hu | exact Hf |].
  intros ->. congruence.
Qed.

Lemma balance_after_other_update uid i f us :
  keeps_id f -> (forall x, u_balance (f x) = u_balance x) ->
  option_map u_balance (find (has_id uid) (update_where (has_id i) f us)) =
  option_map u_balance (find (has_id uid) us).
Proof.
  intros Hk Hb. destruct (String.eqb_spec uid i) as [-> | Hne].
  - rewrite find_update_where_same by exact Hk.
    destruct (find (has_id i) us); cbn [option_map]; [now rewrite Hb | reflexivity].
  - now rewrite find_update_where_other.
Qed.

(** In a leaf of a route, the account [uid] with unlimited funds differs
    from every account the route has found without unlimited funds. *)
Ltac apart uid :=
  repeat match goal with
  | H : find (has_id ?i) ?l = Some ?x, H' : u_hasInfiniteBalance ?x = false |- _ =>
      lazymatch goal with
      | K : uid <> u_id x |- _ => fail
      | _ =>
          assert (uid <> u_id x)
            by (let E := fresh in
                intros E;
                pose proof H as E';
                rewrite ?find_update_where_other in E' by side;
                apply find_some in E' as [_ E']; apply has_id_true in E';
                rewrite E' in E; subst uid;
                repeat match goal with
                       | G : context [find _ (update_where _ _ _)] |- _ =>
                           rewrite find_update_where_other in G by side
                       end; congruence)
      end
  end.

(** None of the three routes that move money changes the balance of an
    account with unlimited funds: whatever the request and the answer, such
    an account has the same balance afterwards. *)
Theorem unlimited_balance_never_changes w uid u :
  find_user uid (db w) = Some u ->
  u_hasInfiniteBalance u = true ->
  (forall session listingId,
     balance_of uid (db (fst (purchase_route session listingId w))) = Some (u_balance u)) /\
  (forall session,
     balance_of uid (db (fst (verification_route session w))) = Some (u_balance u)) /\
  (forall session userId amount note,
     balance_of uid (db (fst (giftMoney_route session userId amount note w))) =
       Some (u_balance u)).
Proof.
  intros Hu Hinf. unfold balance_of. repeat split.
  - intros session listingId.
    destruct (purchase_route session listingId w) as [w' r] eqn:Hrun. cbn [fst].
    open_world w. destruct session as [userId|]; run_in Hrun;
      [| injection Hrun as <- <-; run; now rewrite Hu].
    repeat next_case Hrun;
      (injection Hrun as <- <-; run; try (now rewrite Hu));
      flags; apart uid;
      rewrite ?balance_after_other_update by (auto with ledger);
      lookups; rewrite Hu; reflexivity.
  - intros session.
    destruct (verification_route session w) as [w' r] eqn:Hrun. cbn [fst].
    open_world w. destruct session as [userId|]; run_in Hrun;
      [| injection Hrun as <- <-; run; now rewrite Hu].
    repeat next_case Hrun;
      (injection Hrun as <- <-; run; try (now rewrite Hu));
      flags; apart uid;
      rewrite ?balance_after_other_update by (auto with ledger);
      lookups; rewrite Hu; reflexivity.
  - intros session userId amount note.
    destruct (giftMoney_route session userId amount note w) as [w' r] eqn:Hrun.
    cbn [fst]. open_world w.
    destruct session as [adminId|]; run_in Hrun;
      [| injection Hrun as <- <-; run; now rewrite Hu].
    destruct userId as [userId|], amount as [amount|]; run_in Hrun;
      repeat next_case Hrun;
      (injection Hrun as <- <-; run; try (now rewrite Hu));
      flags; apart uid;
      repeat match goal with
      | H : find (has_id ?i) _ = Some ?x, K : uid <> u_id ?x |- _ =>
          apply find_some in H as [_ H]; apply has_id_true in H; rewrite H in K
      end;
      lookups; rewrite Hu; reflexivity.
Qed.

Lemma unlimited_balance_never_changes_witness :
  (find_user "root" (db Sample.office) = Some Sample.root /\
   u_hasInfiniteBalance Sample.root = true) /\
  balance_of "root" (db (fst (purchase_route (Some "root") "L9" Sample.office))) =
    Some 99999999999 /\
  balance_of "root"
    (db (fst (giftMoney_route (Some "root") (Some "root") (Some 1000) None
                Sample.office))) = Some 99999999999.
Proof.
  split; [split; reflexivity|].
  destruct (unlimited_balance_never_changes Sample.office "root" Sample.root
              eq_refl eq_refl) as (Hbuy & _ & Hgift).
  split; [apply Hbuy | apply Hgift].
Defined.

(** ** Money is neither made nor lost by a purchase *)

Lemma ids_after_update (cond : User -> bool) f us :
  keeps_id f -> map u_id (update_where cond f us) = map u_id us.
Proof.
  intros Hf. unfold update_where. rewrite map_map. apply map_ext.
  intros u. destruct (cond u); [apply Hf | reflexivity].
Qed.

Lemma update_where_absent i f us :
  ~ In i (map u_id us) -> update_where (has_id i) f us = us.
Proof.
  induction us as [|u us IH]; intros Hnot; [reflexivity|].
  cbn [update_where map] in *. fold (update_where (has_id i) f us).
  destruct (has_id i u) eqn:E.
  - apply has_id_true in E. exfalso. apply Hnot. left. exact E.
  - rewrite IH by (intros H; apply Hnot; right; exact H). reflexivity.
Qed.

Lemma sum_after_balance_update i b us x :
  NoDup (map u_id us) -> find (has_id i) us = Some x ->
  fold_right (fun u acc => u_balance u + acc) 0
    (update_where (has_id i) (with_balance b) us) =
  fold_right (fun u acc => u_balance u + acc) 0 us - u_balance x + b.
Proof.
  induction us as [|u us IH]; intros Hnd Hx; [discriminate|].
  cbn [map] in Hnd. apply NoDup_cons_iff in Hnd as [Hnot Hnd].
  cbn [find] in Hx. cbn [update_where map fold_right].
  fold (update_where (has_id i) (with_balance b) us).
  destruct (has_id i u) eqn:E.
  - injection Hx as <-. apply has_id_true in E. rewrite <- E.
    rewrite update_where_absent by exact Hnot.
    cbn [u_balance with_balance]. lia.
  - rewrite (IH Hnd Hx). lia.
Qed.

Lemma sum_after_other_update (cond : User -> bool) f us :
  (forall x, u_balance (f x) = u_balance x) ->
  fold_right (fun u acc => u_balance u + acc) 0 (update_where cond f us) =
  fold_right (fun u acc => u_balance u + acc) 0 us.
Proof.
  intros Hf. induction us as [|u us IH]; [reflexivity|].
  cbn [update_where map fold_right]. fold (update_where cond f us).
  rewrite IH. destruct (cond u); [now rewrite Hf | reflexivity].
Qed.

(** When user identifiers are unique, a purchase answered 200 changes the
    sum of all balances by exactly what the unlimited accounts do not pay
    or do not receive: it takes the price from the buyer unless the buyer
    has unlimited funds and gives it to the seller unless the seller has
    unlimited funds.  Between two accounts with limited funds the sum of
    all balances is unchanged. *)
Theorem purchase_conserves_money w userId id listing buyer seller w' r :
  NoDup (map u_id (users (db w))) ->
  find_listing id (db w) = Some listing ->
  find_user userId (db w) = Some buyer ->
  find_user (l_sellerId listing) (db w) = Some seller ->
  purchase_route (Some userId) id w = (w', r) ->
  status r = 200 ->
  total_balance (db w') =
    total_balance (db w)
    - (if u_hasInfiniteBalance buyer then 0 else l_price listing)
    + (if u_hasInfiniteBalance seller then 0 else l_price listing).
Proof.
  intros Hnd Hl Hb Hs Hrun Hok. unfold total_balance.
  pose proof (find_user_id _ _ _ Hb) as Hbid.
  pose proof (find_user_id _ _ _ Hs) as Hsid.
  open_world w. run_in Hrun.
  destruct (String.eqb userId "") eqn:Eid; run_in Hrun;
    [injection Hrun as <- <-; discriminate Hok|].
  rewrite Hl, Hb in Hrun. run_in Hrun. rewrite Hbid in Hrun.
  repeat next_case Hrun;
    (injection Hrun as <- <-; try discriminate Hok); run; flags;
    repeat match goal with
    | H : String.eqb _ _ = false |- _ => apply String.eqb_neq in H
    end;
    repeat match goal with
    | H : context [find _ (update_where _ _ _)] |- _ =>
        rewrite find_update_where_other in H by side
    end;
    try congruence;
    match goal with
    | H : find (has_id (l_sellerId _)) _ = Some ?s |- _ =>
        assert (s = seller) by congruence; subst s
    end;
    rewrite ?Hsid;
    repeat match goal with
    | H : u_hasInfiniteBalance _ = _ |- _ => rewrite H
    end;
    rewrite ?sum_after_other_update by (intros ?; reflexivity);
    repeat (erewrite sum_after_balance_update;
            [ | rewrite ?ids_after_update by auto with ledger; exact Hnd
              | lookups; eassumption ]);
    lia.
Qed.

Lemma purchase_conserves_money_witness :
  (NoDup (map u_id (users (db Sample.market))) /\
   find_listing "L1" (db Sample.market) = Some (Sample.tool 50000) /\
   find_user "alice" (db Sample.market) = Some (Sample.account "alice" 250000) /\
   find_user "bob" (db Sample.market) = Some (Sample.account "bob" 5000) /\
   status (snd (purchase_route (Some "alice") "L1" Sample.market)) = 200) /\
  total_balance (db (fst (purchase_route (Some "alice") "L1" Sample.market))) =
    total_balance (db Sample.market).
Proof.
  assert (Hnd : NoDup (map u_id (users (db Sample.market)))).
  { repeat constructor; cbn; intuition discriminate. }
  assert (Hok : status (snd (purchase_route (Some "alice") "L1" Sample.market)) = 200)
    by (vm_compute; reflexivity).
  split; [repeat split; try reflexivity; assumption|].
  rewrite (purchase_conserves_money Sample.market "alice" "L1" (Sample.tool 50000)
             (Sample.account "alice" 250000) (Sample.account "bob" 5000) _ _
             Hnd eq_refl eq_refl eq_refl (surjective_pairing _) Hok).
  cbn [u_hasInfiniteBalance Sample.account]. lia.
Defined.

(** ** What else a purchase writes *)

Lemma find_listing_after_update (id : string) f ls :
  (forall l, l_id (f l) = l_id l) ->
  find (fun l => String.eqb (l_id l) id)
    (update_where (fun l => String.eqb (l_id l) id) f ls) =
  option_map f (find (fun l => String.eqb (l_id l) id) ls).
Proof.
  intros Hf. induction ls as [|l ls IH]; [reflexivity|].
  cbn [update_where map find]. destruct (String.eqb (l_id l) id) eqn:E.
  - rewrite Hf, E. reflexivity.
  - rewrite E. exact IH.
Qed.

Lemma purchase_sale_facts w userId id w' r :
  purchase_route (Some userId) id w = (w', r) ->
  status r = 200 ->
  exists listing,
    find_listing id (db w) = Some listing /\
    find_listing id (db w') = Some (with_downloads (l_downloads listing + 1) listing) /\
    notices (db w') =
      (notices (db w) ++ [(userId, "purchase", "Purchase Complete");
                          (l_sellerId listing, "sale", "New Sale")])%list /\
    achieved userId "first_purchase" (db w') = true.
Proof.
  intros Hrun Hok. unfold notices. open_world w. run_in Hrun.
  repeat next_case Hrun;
    (injection Hrun as <- <-; try discriminate Hok); run;
    match goal with
    | H : find _ _ = Some ?x |- exists _ : Listing, _ => exists x
    end;
    (split; [reflexivity|]);
    repeat match goal with
    | H : find (has_id _) _ = Some _ |- _ =>
        apply find_some in H as [_ H]; apply has_id_true in H
    end;
    match goal with
    | H : find (fun k => String.eqb (l_id k) _) _ = Some _ |- _ =>
        pose proof H as Hl; apply find_some in H as [_ H];
        apply String.eqb_eq in H
    end;
    repeat match goal with H : _ = _ :> string |- _ => rewrite H in * end;
    (split; [rewrite find_listing_after_update by reflexivity; rewrite Hl; reflexivity|]);
    (split; [rewrite !map_app; cbn [map n_userId n_type n_title];
             rewrite <- app_assoc; reflexivity|]);
    rewrite ?existsb_app; cbn [existsb a_userId a_type];
    rewrite ?String.eqb_refl; cbn [andb orb]; rewrite ?orb_true_r;
    try reflexivity;
    match goal with
    | H : negb ?b = false |- ?b = true => now apply negb_false_iff in H
    end.
Qed.

(** A purchase answered 200 has counted one more download of the listing
    and left the rest of the listing as it was, has appended exactly two
    notifications, "Purchase Complete" to the buyer and then "New Sale" to
    the seller, and leaves the buyer holding the achievement
    "first_purchase". *)
Theorem purchase_records_sale w userId id w' r :
  purchase_route (Some userId) id w = (w', r) ->
  status r = 200 ->
  exists listing,
    find_listing id (db w) = Some listing /\
    find_listing id (db w') = Some (with_downloads (l_downloads listing + 1) listing) /\
    notices (db w') =
      (notices (db w) ++ [(userId, "purchase", "Purchase Complete");
                          (l_sellerId listing, "sale", "New Sale")])%list /\
    achieved userId "first_purchase" (db w') = true.
Proof.
  exact (purchase_sale_facts w userId id w' r).
Qed.

Lemma purchase_records_sale_witness :
  status (snd (purchase_route (Some "alice") "L1" Sample.market)) = 200 /\
  exists listing,
    find_listing "L1" (db Sample.market) = Some listing /\
    find_listing "L1" (db (fst (purchase_route (Some "alice") "L1" Sample.market))) =
      Some (with_downloads (l_downloads listing + 1) listing) /\
    notices (db (fst (purchase_route (Some "alice") "L1" Sample.market))) =
      (notices (db Sample.market) ++ [("alice", "purchase", "Purchase Complete");
                                      (l_sellerId listing, "sale", "New Sale")])%list /\
    achieved "alice" "first_purchase"
      (db (fst (purchase_route (Some "alice") "L1" Sample.market))) = true.
Proof.
  assert (Hok : status (snd (purchase_route (Some "alice") "L1" Sample.market)) = 200)
    by (vm_compute; reflexivity).
  split; [exact Hok|].
  exact (purchase_records_sale Sample.market "alice" "L1" _ _ (surjective_pairing _) Hok).
Defined.

(** ** Achievements are granted once *)

Lemma achievement_count_app userId type d d' a :
  achievements d' = (achievements d ++ [a])%list ->
  achievement_count userId type d' =
  (achievement_count userId type d
   + if String.eqb (a_userId a) userId && String.eqb (a_type a) type then 1 else 0)%nat.
Proof.
  unfold achievement_count. intros ->. rewrite filter_app, length_app.
  cbn [filter]. now destruct (String.eqb (a_userId a) userId && String.eqb (a_type a) type).
Qed.

Lemma achievement_count_none userId type d :
  achieved userId type d = false -> achievement_count userId type d = 0%nat.
Proof.
  unfold achieved, achievement_count. induction (achievements d) as [|a acs IH];
    [reflexivity|].
  cbn [existsb filter]. intros H. apply orb_false_iff in H as [-> H].
  exact (IH H).
Qed.

Lemma grants_once_keeps_count w w' :
  grants_once w w' ->
  (forall u t, (achievement_count u t (db w) <= 1)%nat) ->
  forall u t, (achievement_count u t (db w') <= 1)%nat.
Proof.
  intros [Hsame | (a & Hadd & Hnew)] Hone u t.
  - unfold achievement_count in *. rewrite Hsame. apply Hone.
  - rewrite (achievement_count_app _ _ _ _ _ Hadd). specialize (Hone u t).
    destruct (String.eqb (a_userId a) u && String.eqb (a_type a) t) eqn:E; [|lia].
    apply andb_true_iff in E as [Eu Et].
    apply String.eqb_eq in Eu, Et. subst u t.
    rewrite (achievement_count_none _ _ _ Hnew). lia.
Qed.

(** The listing route and the purchase route never give a user a second
    achievement of a type: if every user holds each type at most once
    before a request, the same is true after it. *)
Theorem achievements_granted_once w :
  (forall u t, (achievement_count u t (db w) <= 1)%nat) ->
  (forall session id u t,
     (achievement_count u t (db (fst (purchase_route session id w))) <= 1)%nat) /\
  (forall session title price fileName fileData u t,
     (achievement_count u t
        (db (fst (createListing_route session title price fileName fileData w))) <= 1)%nat).
Proof.
  intros Hone. split.
  - intros session id. apply (grants_once_keeps_count w); [|exact Hone].
    destruct (purchase_route session id w) as [w' r] eqn:Hrun. cbn [fst].
    unfold grants_once. open_world w.
    destruct session as [userId|]; run_in Hrun;
      [| injection Hrun as <- <-; now left].
    repeat next_case Hrun;
      injection Hrun as <- <-; run; try (now left);
      right; eexists; (split; [reflexivity|]);
      cbn [a_userId a_type];
      match goal with
      | H : negb ?b = true |- ?b = false => now apply negb_true_iff in H
      end.
  - intros session title price fileName fileData.
    apply (grants_once_keeps_count w); [|exact Hone].
    destruct (createListing_route session title price fileName fileData w)
      as [w' r] eqn:Hrun. cbn [fst].
    unfold grants_once. open_world w.
    destruct session as [userId|]; run_in Hrun;
      [| injection Hrun as <- <-; now left].
    repeat next_case Hrun;
      injection Hrun as <- <-; run; try (now left);
      right; eexists; (split; [reflexivity|]);
      cbn [a_userId a_type];
      match goal with
      | H : negb ?b = true |- ?b = false => now apply negb_true_iff in H
      end.
Qed.

Lemma achievements_granted_once_witness :
  (forall u t, (achievement_count u t (db Sample.market) <= 1)%nat) /\
  forall u t,
    (achievement_count u t
       (db (fst (purchase_route (Some "alice") "L1" Sample.market))) <= 1)%nat.
Proof.
  assert (Hone : forall u t, (achievement_count u t (db Sample.market) <= 1)%nat).
  { intros u t. cbn. lia. }
  split; [exact Hone|].
  apply (proj1 (achievements_granted_once Sample.market Hone)).
Defined.

(** ** Listing a file *)




(** ** Asking twice *)

Lemma found_after_update i j f us :
  keeps_id f -> find (has_id i) us <> None ->
  find (has_id i) (update_where (has_id j) f us) <> None.
Proof.
  intros Hf H. destruct (String.eqb_spec i j) as [-> | Hne].
  - rewrite find_update_where_same by exact Hf.
    destruct (find (has_id j) us); [discriminate | congruence].
  - now rewrite find_update_where_other.
Qed.

(** A buyer is charged once: after a purchase answered 200, the same request
    again is answered 400, "You already own this file", and changes
    nothing. *)
Theorem second_purchase_is_refused w userId id w' r :
  purchase_route (Some userId) id w = (w', r) ->
  status r = 200 ->
  purchase_route (Some userId) id w' = (w', failure 400 "You already own this file").
Proof.
  intros Hrun Hok.
  assert (Hid : userId <> "").
  { intros ->. unfold purchase_route, requireAuth in Hrun. cbn in Hrun.
    injection Hrun as <- <-. discriminate Hok. }
  destruct (purchase_sale_facts w userId id w' r Hrun Hok)
    as (listing & Hl & Hl' & _).
  destruct (purchase_route_log _ _ _ _ _ Hrun) as [Hsame | (u & p & Hu & _ & Hadd & Hp)].
  - exfalso. clear Hl Hl'. open_world w. run_in Hrun.
    repeat next_case Hrun;
      (injection Hrun as <- <-; try discriminate Hok);
      cbn [db purchases] in Hsame;
      apply (f_equal (@List.length Purchase)) in Hsame;
      rewrite length_app in Hsame; cbn [List.length] in Hsame; lia.
  - injection Hu as <-.
    assert (Hown : purchased userId id (db w') = true).
    { unfold purchased. rewrite Hadd, existsb_app. cbn [existsb]. rewrite Hp.
      apply orb_true_r. }
    destruct (find_user userId (db w')) as [buyer'|] eqn:Hb'.
    + exact (proj1 (purchase_route_guards w' userId id _ buyer' Hid Hl' Hb') Hown).
    + exfalso. clear Hl Hl' Hown Hadd. unfold find_user in Hb'.
      open_world w. run_in Hrun.
      repeat next_case Hrun;
        (injection Hrun as <- <-; try discriminate Hok);
        cbn [db users] in Hb'; revert Hb';
        repeat (apply found_after_update; [auto with ledger|]);
        congruence.
Qed.

Lemma second_purchase_is_refused_witness :
  status (snd (purchase_route (Some "alice") "L1" Sample.market)) = 200 /\
  purchase_route (Some "alice") "L1"
    (fst (purchase_route (Some "alice") "L1" Sample.market)) =
    (fst (purchase_route (Some "alice") "L1" Sample.market),
     failure 400 "You already own this file").
Proof.
  assert (Hok : status (snd (purchase_route (Some "alice") "L1" Sample.market)) = 200)
    by (vm_compute; reflexivity).
  split; [exact Hok|].
  exact (second_purchase_is_refused Sample.market "alice" "L1" _ _
           (surjective_pairing _) Hok).
Defined.

(** Verification is paid once: after a verification purchase answered 200,
    the same request again is answered 400, "You are already verified", and
    changes nothing. *)
Theorem second_verification_is_refused w userId w' r :
  verification_route (Some userId) w = (w', r) ->
  status r = 200 ->
  verification_route (Some userId) w' = (w', failure 400 "You are already verified").
Proof.
  intros Hrun Hok.
  assert (Hid : userId <> "").
  { intros ->. cbn in Hrun. injection Hrun as <- <-. discriminate Hok. }
  assert (Hv : exists user', find_user userId (db w') = Some user' /\
                             u_isVerified user' = true).
  { unfold find_user. open_world w. run_in Hrun.
    repeat next_case Hrun;
      (injection Hrun as <- <-; try discriminate Hok); run;
      match goal with
      | H : find (has_id ?i) _ = Some ?x |- _ =>
          pose proof (find_user_id i (mkDB _ [] [] [] [] [] []) x H) as K;
          rewrite K in *
      end;
      lookups;
      match goal with H : find _ _ = Some _ |- _ => rewrite H end;
      eexists; split; reflexivity. }
  destruct Hv as (user' & Hu' & Hver).
  exact (proj1 (verification_route_guards w' userId user' Hid Hu') Hver).
Qed.

Lemma second_verification_is_refused_witness :
  status (snd (verification_route (Some "carol") (Sample.carol_at Sample.jan_15))) = 200 /\
  verification_route (Some "carol")
    (fst (verification_route (Some "carol") (Sample.carol_at Sample.jan_15))) =
    (fst (verification_route (Some "carol") (Sample.carol_at Sample.jan_15)),
     failure 400 "You are already verified").
Proof.
  assert (Hok : status (snd (verification_route (Some "carol")
                               (Sample.carol_at Sample.jan_15))) = 200)
    by (vm_compute; reflexivity).
  split; [exact Hok|].
  exact (second_verification_is_refused (Sample.carol_at Sample.jan_15) "carol" _ _
           (surjective_pairing _) Hok).
Defined.

(** ** What the sweep does *)

(** The sweep writes nothing but the status of verification payments: it
    turns to expired exactly the active payments whose period ended before
    the instant of the sweep, keeps every other payment and every other
    field as they are, and changes no user, listing, purchase, notification,
    achievement or gift.  Afterwards no active payment is past its end. *)
Theorem sweep_only_expires_payments w :
  verificationPayments (db (sweep w)) =
    map (fun v => if VerificationStatus_eqb (vp_status v) active
                     && (vp_periodEnd v <? clock w)
                  then with_status expired v else v)
      (verificationPayments (db w)) /\
  Forall (fun v => vp_status v = active -> clock w <= vp_periodEnd v)
    (verificationPayments (db (sweep w))) /\
  users (db (sweep w)) = users (db w) /\
  marketplaceListings (db (sweep w)) = marketplaceListings (db w) /\
  purchases (db (sweep w)) = purchases (db w) /\
  notifications (db (sweep w)) = notifications (db w) /\
  achievements (db (sweep w)) = achievements (db w) /\
  moneyGifts (db (sweep w)) = moneyGifts (db w) /\
  clock (sweep w) = clock w.
Proof.
  split; [exact (sweep_payments w)|]. split.
  - rewrite sweep_payments. unfold update_where.
    apply Forall_forall. intros v Hin. apply in_map_iff in Hin as (v0 & <- & _).
    destruct (VerificationStatus_eqb (vp_status v0) active) eqn:Es;
      destruct (vp_periodEnd v0 <? clock w) eqn:Et; cbn [andb];
      cbn [with_status vp_status vp_periodEnd]; intros Ha;
      try discriminate Ha.
    + apply Z.ltb_ge in Et. exact Et.
    + rewrite Ha in Es. discriminate Es.
    + rewrite Ha in Es. discriminate Es.
  - split; [exact (sweep_users w)|]. open_world w. repeat split.
Qed.

(** ** The length of a verification period *)

(** A verification purchase answered 200 opens a period that starts at the
    instant of the request and ends where [setMonth(getMonth() + 1)] sets a
    second reading of the clock: in local time the length of a month, from
    28 to 31 days, after that reading, and so, as an instant, that many
    days after it plus the offset of the zone at the reading minus its
    offset at the end.  The period is therefore from 28 to 31 days, plus
    the time between the two readings, where the offset is the same at
    both ends; a change of the clocks in between shifts it by the change;
    it is always at least 26 days.  The account's verification expiry is
    set to that end. *)
Theorem verification_period_length w userId w' r :
  verification_route (Some userId) w = (w', r) ->
  status r = 200 ->
  let zone := timeZone w in
  let second := clock w + elapsed (lag w) 1 in
  exists payment user' days,
    r = json (VerificationBody "Verification successful" payment) /\
    vp_periodStart payment = clock w /\
    vp_periodStart payment <= second /\
    28 <= days <= 31 /\
    vp_periodEnd payment =
      second + days * JSDate.msPerDay + JSDate.LocalTZA zone second true
      - JSDate.LocalTZA zone (JSDate.LocalTime zone second + days * JSDate.msPerDay)
          false /\
    (JSDate.LocalTZA zone (JSDate.LocalTime zone second + days * JSDate.msPerDay) false =
       JSDate.LocalTZA zone second true ->
     vp_periodEnd payment = second + days * JSDate.msPerDay) /\
    vp_periodStart payment + 26 * JSDate.msPerDay <= vp_periodEnd payment /\
    find_user userId (db w') = Some user' /\
    u_verificationExpiry user' = Some (vp_periodEnd payment).
Proof.
  intros Hrun Hok zone second. unfold find_user. subst zone second.
  open_world w. run_in Hrun.
  destruct (setMonth_next zone (c + elapsed lg 1)) as (days & Hdays & _ & Hend & Hlate).
  assert (Hlag : 0 <= elapsed lg 1) by (cbn [elapsed]; lia).
  cbn [elapsed] in Hend, Hlate, Hlag.
  repeat next_case Hrun;
    (injection Hrun as <- <-; try discriminate Hok); run;
    rewrite ?Z.add_0_l in *;
    match goal with
    | H : find (has_id ?i) _ = Some ?x |- _ =>
        pose proof (find_user_id i (mkDB _ [] [] [] [] [] []) x H) as K;
        rewrite K in *
    end;
    exists_payment days;
    cbn [vp_periodStart vp_periodEnd];
    (split; [reflexivity|]); (split; [lia|]); (split; [exact Hdays|]);
    (split; [exact Hend|]); (split; [intros Hsame; rewrite Hend, Hsame; lia|]);
    (split; [unfold JSDate.msPerDay in *; lia|]);
    lookups;
    match goal with H : find _ _ = Some _ |- _ => rewrite H end;
    split; reflexivity.
Qed.

(** A server in New York: from 15 February 2025, noon UTC, the period runs
    to 15 March, 11:00 UTC, 28 days less the hour the clocks go forward on
    9 March. *)
Lemma verification_period_length_witness :
  status (snd (verification_route (Some "carol") Sample.new_york_office)) = 200 /\
  exists payment user',
    snd (verification_route (Some "carol") Sample.new_york_office) =
      json (VerificationBody "Verification successful" payment) /\
    vp_periodStart payment = JSDate.UTC 2025 1 15 12 0 /\
    vp_periodEnd payment = JSDate.UTC 2025 2 15 11 0 /\
    vp_periodEnd payment - vp_periodStart payment = 671 * 3600000 /\
    find_user "carol" (db (fst (verification_route (Some "carol") Sample.new_york_office))) =
      Some user' /\
    u_verificationExpiry user' = Some (vp_periodEnd payment).
Proof.
  assert (Hok : status (snd (verification_route (Some "carol")
                               Sample.new_york_office)) = 200)
    by (vm_compute; reflexivity).
  split; [exact Hok|].
  destruct (verification_period_length Sample.new_york_office "carol" _ _
              (surjective_pairing _) Hok)
    as (payment & user' & days & Hr & Hstart & _ & _ & _ & _ & _ & Hfind & Hexp).
  exists payment, user'.
  assert (Hpay : payment =
            mkVerificationPayment "uuid-0" "carol" 500000 (JSDate.UTC 2025 1 15 12 0)
              (JSDate.UTC 2025 2 15 11 0) active (JSDate.UTC 2025 1 15 12 0)).
  { assert (Hval : snd (verification_route (Some "carol") Sample.new_york_office) =
              json (VerificationBody "Verification successful"
                (mkVerificationPayment "uuid-0" "carol" 500000
                   (JSDate.UTC 2025 1 15 12 0) (JSDate.UTC 2025 2 15 11 0) active
                   (JSDate.UTC 2025 1 15 12 0)))) by (vm_compute; reflexivity).
    rewrite Hr in Hval. injection Hval as Hval. exact Hval. }
  split; [exact Hr|]. rewrite Hpay in *.
  cbn [vp_periodStart vp_periodEnd].
  split; [reflexivity|]. split; [reflexivity|].
  split; [vm_compute; reflexivity|].
  split; [exact Hfind | exact Hexp].
Defined.


(** * Notifications, downloads and administration *)

(** ** Notifications *)

Lemma unread_of_spec userId n :
  unread_of userId n = String.eqb (n_userId n) userId && negb (n_isRead n).
Proof.
  unfold unread_of, sql_eq, sql_of_bool.
  destruct (String.eqb (n_userId n) userId), (n_isRead n); reflexivity.
Qed.

Lemma count_after_mark userId other ns :
  List.length (filter (unread_of other)
     (update_where (fun n => String.eqb (n_userId n) userId) (with_isRead true) ns)) =
  if String.eqb other userId then 0%nat
  else List.length (filter (unread_of other) ns).
Proof.
  induction ns as [|n ns IH].
  - now destruct (String.eqb other userId).
  - cbn [update_where map filter].
    fold (update_where (fun n => String.eqb (n_userId n) userId) (with_isRead true) ns).
    rewrite !unread_of_spec.
    destruct (String.eqb (n_userId n) userId) eqn:E.
    + cbn [with_isRead n_userId n_isRead negb]. rewrite andb_false_r.
      apply String.eqb_eq in E. rewrite E.
      destruct (String.eqb_spec other userId) as [-> | Hne].
      * exact IH.
      * rewrite (eqb_neq_false userId other) by congruence. exact IH.
    + destruct (String.eqb_spec other userId) as [-> | Hne].
      * rewrite E. exact IH.
      * destruct (String.eqb (n_userId n) other && negb (n_isRead n));
          cbn [List.length]; now rewrite IH.
Qed.

(** Marking all as read leaves the caller with no unread notification, as
    the unread-count route then reports, changes no other user's unread
    count, and deletes nothing. *)
Theorem markAllRead_clears_unread w userId :
  userId <> "" ->
  let w' := fst (markAllRead_route (Some userId) w) in
  snd (markAllRead_route (Some userId) w) =
    json (Message "All notifications marked as read") /\
  unreadCount_route (Some userId) w' = (w', Sent 0%nat) /\
  (forall other, other <> userId ->
     unread_count other (db w') = unread_count other (db w)) /\
  List.length (notifications (db w')) = List.length (notifications (db w)).
Proof.
  intros Hid w'. subst w'. open_world w. run.
  rewrite (eqb_neq_false _ _ Hid). run. unfold unread_count. cbn [notifications].
  repeat split.
  - f_equal. f_equal. rewrite count_after_mark, String.eqb_refl. reflexivity.
  - intros other Hne. rewrite count_after_mark.
    now rewrite (eqb_neq_false _ _ Hne).
  - unfold update_where. apply length_map.
Qed.

Lemma markAllRead_clears_unread_witness :
  "alice" <> "" /\
  unread_count "alice" (db (fst (purchase_route (Some "alice") "L1" Sample.market))) = 1%nat /\
  unreadCount_route (Some "alice")
    (fst (markAllRead_route (Some "alice")
            (fst (purchase_route (Some "alice") "L1" Sample.market)))) =
    (fst (markAllRead_route (Some "alice")
            (fst (purchase_route (Some "alice") "L1" Sample.market))), Sent 0%nat).
Proof.
  split; [discriminate|]. split; [vm_compute; reflexivity|].
  apply (markAllRead_clears_unread
           (fst (purchase_route (Some "alice") "L1" Sample.market)) "alice").
  discriminate.
Defined.

(** Deleting all notifications removes every notification of the caller
    and keeps, in their order, the notifications of everyone else. *)
Theorem deleteAllNotifications_removes_own w userId :
  userId <> "" ->
  let w' := fst (deleteAllNotifications_route (Some userId) w) in
  snd (deleteAllNotifications_route (Some userId) w) =
    json (Message "All notifications deleted") /\
  Forall (fun n => n_userId n <> userId) (notifications (db w')) /\
  unread_count userId (db w') = 0%nat /\
  (forall other, other <> userId ->
     filter (fun n => String.eqb (n_userId n) other) (notifications (db w')) =
     filter (fun n => String.eqb (n_userId n) other) (notifications (db w))).
Proof.
  intros Hid w'. subst w'. open_world w. run.
  rewrite (eqb_neq_false _ _ Hid). run. unfold unread_count. cbn [notifications].
  repeat split.
  - apply Forall_forall. intros x Hin. apply filter_In in Hin as [_ Hn].
    apply negb_true_iff, String.eqb_neq in Hn. exact Hn.
  - induction ns as [|x rest IH]; [reflexivity|].
    cbn [filter]. destruct (String.eqb (n_userId x) userId) eqn:E; cbn [negb].
    + exact IH.
    + cbn [filter]. rewrite unread_of_spec, E. exact IH.
  - intros other Hne. induction ns as [|x rest IH]; [reflexivity|].
    cbn [filter]. destruct (String.eqb (n_userId x) userId) eqn:E; cbn [negb].
    + apply String.eqb_eq in E. rewrite E.
      rewrite (eqb_neq_false userId other) by congruence. exact IH.
    + cbn [filter]. destruct (String.eqb (n_userId x) other); now rewrite IH.
Qed.

Lemma deleteAllNotifications_removes_own_witness :
  "alice" <> "" /\
  unread_count "alice" (db (fst (purchase_route (Some "alice") "L1" Sample.market))) = 1%nat /\
  unread_count "alice"
    (db (fst (deleteAllNotifications_route (Some "alice")
                (fst (purchase_route (Some "alice") "L1" Sample.market))))) = 0%nat /\
  filter (fun n => String.eqb (n_userId n) "bob")
    (notifications
       (db (fst (deleteAllNotifications_route (Some "alice")
                   (fst (purchase_route (Some "alice") "L1" Sample.market)))))) =
  filter (fun n => String.eqb (n_userId n) "bob")
    (notifications (db (fst (purchase_route (Some "alice") "L1" Sample.market)))).
Proof.
  pose proof (deleteAllNotifications_removes_own
                (fst (purchase_route (Some "alice") "L1" Sample.market)) "alice"
                ltac:(discriminate)) as H.
  cbv zeta in H. destruct H as (_ & _ & Hcount & Hothers).
  split; [discriminate|]. split; [vm_compute; reflexivity|].
  split; [exact Hcount|]. apply Hothers. discriminate.
Defined.

(** The routes that mark one notification as read or delete one never look
    at who asks: any two authenticated callers get the same answer and the
    same resulting world, so a notification can be marked or deleted by a
    user who does not own it.  Deleting removes every row with that
    identifier and keeps all the others. *)
Theorem notification_routes_ignore_caller w caller other id :
  caller <> "" -> other <> "" ->
  markRead_route (Some caller) id w = markRead_route (Some other) id w /\
  deleteNotification_route (Some caller) id w =
    deleteNotification_route (Some other) id w /\
  notifications (db (fst (deleteNotification_route (Some caller) id w))) =
    filter (fun n => negb (String.eqb (n_id n) id)) (notifications (db w)) /\
  Forall (fun n => n_id n <> id)
    (notifications (db (fst (deleteNotification_route (Some caller) id w)))).
Proof.
  intros Hc Ho. open_world w. run.
  rewrite (eqb_neq_false _ _ Hc), (eqb_neq_false _ _ Ho). run.
  repeat split. apply Forall_forall. intros x Hin.
  apply filter_In in Hin as [_ Hn]. now apply negb_true_iff, String.eqb_neq in Hn.
Qed.

Lemma notification_routes_ignore_caller_witness :
  ("bob" <> "" /\ "alice" <> "") /\
  notices (db (fst (deleteNotification_route (Some "bob") "uuid-2"
                      (fst (purchase_route (Some "alice") "L1" Sample.market))))) =
    [("bob", "sale", "New Sale")].
Proof.
  split; [split; discriminate|].
  destruct (notification_routes_ignore_caller
              (fst (purchase_route (Some "alice") "L1" Sample.market))
              "bob" "alice" "uuid-2" ltac:(discriminate) ltac:(discriminate))
    as (_ & _ & Hdel & _).
  unfold notices. rewrite Hdel. vm_compute. reflexivity.
Defined.

(** A purchase answered 200 leaves the buyer and the seller with one more
    unread notification each, and every other user with as many as
    before. *)
Theorem purchase_notifies_both w userId id w' r :
  purchase_route (Some userId) id w = (w', r) ->
  status r = 200 ->
  exists listing,
    find_listing id (db w) = Some listing /\
    l_sellerId listing <> userId /\
    unread_count userId (db w') = S (unread_count userId (db w)) /\
    unread_count (l_sellerId listing) (db w') =
      S (unread_count (l_sellerId listing) (db w)) /\
    (forall other, other <> userId -> other <> l_sellerId listing ->
       unread_count other (db w') = unread_count other (db w)).
Proof.
  intros Hrun Hok. unfold unread_count. open_world w. run_in Hrun.
  repeat next_case Hrun;
    (injection Hrun as <- <-; try discriminate Hok); run;
    match goal with
    | H : find _ _ = Some ?x |- exists _ : Listing, _ => exists x
    end;
    (split; [reflexivity|]);
    repeat match goal with
    | H : find (has_id _) _ = Some _ |- _ =>
        apply find_some in H as [_ H]; apply has_id_true in H
    end;
    repeat match goal with H : _ = _ :> string |- _ => rewrite H in * end;
    match goal with
    | H : String.eqb _ userId = false |- _ => apply String.eqb_neq in H
    end;
    (split; [assumption|]);
    repeat split;
    try (intros other Ho1 Ho2);
    rewrite !filter_app, !length_app; cbn [filter];
    rewrite !unread_of_spec; cbn [n_userId n_isRead negb];
    rewrite ?String.eqb_refl, ?andb_true_r;
    repeat match goal with
    | |- context [String.eqb ?a ?b] =>
        rewrite (eqb_neq_false a b) by congruence
    end;
    cbn [List.length]; lia.
Qed.

Lemma purchase_notifies_both_witness :
  status (snd (purchase_route (Some "alice") "L1" Sample.market)) = 200 /\
  unread_count "alice" (db (fst (purchase_route (Some "alice") "L1" Sample.market))) = 1%nat /\
  unread_count "bob" (db (fst (purchase_route (Some "alice") "L1" Sample.market))) = 1%nat.
Proof.
  assert (Hok : status (snd (purchase_route (Some "alice") "L1" Sample.market)) = 200)
    by (vm_compute; reflexivity).
  destruct (purchase_notifies_both Sample.market "alice" "L1" _ _
              (surjective_pairing _) Hok) as (listing & Hl & _ & Ha & Hb & _).
  vm_compute in Hl. injection Hl as <-.
  split; [exact Hok|]. split; [exact Ha | exact Hb].
Defined.

(** ** Downloads *)

Lemma download_route_facts w userId id :
  userId <> "" ->
  fst (download_route (Some userId) id w) = w /\
  (find_listing id (db w) = None ->
     snd (download_route (Some userId) id w) = Refused 404 "Listing not found") /\
  (forall listing, find_listing id (db w) = Some listing ->
     snd (download_route (Some userId) id w) =
       if purchased userId id (db w)
          || String.eqb (l_sellerId listing) userId
          || match find_user userId (db w) with
             | Some user => u_isAdmin user
             | None => false
             end
       then Sent (l_fileData listing, l_fileName listing)
       else Refused 403 "You must purchase this file first").
Proof.
  intros Hid. open_world w. run. rewrite (eqb_neq_false _ _ Hid). run.
  repeat split.
  - destruct (find _ ls); [|reflexivity]. run.
    destruct (negb _ && negb _ && negb _); reflexivity.
  - intros ->. reflexivity.
  - intros listing ->. run.
    destruct (existsb _ ps), (String.eqb (l_sellerId listing) userId),
      (find (has_id userId) us) as [u|]; try destruct (u_isAdmin u); reflexivity.
Qed.

(** The download route never writes.  For an existing listing it sends the
    file to a caller who has purchased it, sells it, or is an
    administrator, and answers 403 to anyone else; for an unknown listing
    it answers 404. *)
Theorem download_is_for_owners w userId id :
  userId <> "" ->
  fst (download_route (Some userId) id w) = w /\
  (find_listing id (db w) = None ->
     snd (download_route (Some userId) id w) = Refused 404 "Listing not found") /\
  (forall listing, find_listing id (db w) = Some listing ->
     snd (download_route (Some userId) id w) =
       if purchased userId id (db w)
          || String.eqb (l_sellerId listing) userId
          || match find_user userId (db w) with
             | Some user => u_isAdmin user
             | None => false
             end
       then Sent (l_fileData listing, l_fileName listing)
       else Refused 403 "You must purchase this file first").
Proof.
  exact (download_route_facts w userId id).
Qed.

Lemma download_is_for_owners_witness :
  ("alice" <> "" /\ "bob" <> "" /\ "root" <> "") /\
  snd (download_route (Some "alice") "L1" Sample.market) =
    Refused 403 "You must purchase this file first" /\
  snd (download_route (Some "alice") "L1" Sample.market_sold) =
    Sent ("UEsDBA==", "tool.zip") /\
  snd (download_route (Some "bob") "L1" Sample.market) = Sent ("UEsDBA==", "tool.zip").
Proof.
  split; [repeat split; discriminate|].
  destruct (download_is_for_owners Sample.market "alice" "L1" ltac:(discriminate))
    as (_ & _ & H1).
  destruct (download_is_for_owners Sample.market_sold "alice" "L1" ltac:(discriminate))
    as (_ & _ & H2).
  destruct (download_is_for_owners Sample.market "bob" "L1" ltac:(discriminate))
    as (_ & _ & H3).
  rewrite (H1 _ eq_refl), (H2 _ eq_refl), (H3 _ eq_refl).
  repeat split; reflexivity.
Defined.

(** After a purchase answered 200 the buyer can download the file, and
    gets the data and the name that the purchase itself returned. *)
Theorem purchase_then_download w userId id w' r :
  purchase_route (Some userId) id w = (w', r) ->
  status r = 200 ->
  exists purchase fileData fileName,
    r = json (PurchaseBody purchase fileData fileName) /\
    download_route (Some userId) id w' = (w', Sent (fileData, fileName)).
Proof.
  intros Hrun Hok.
  assert (Hid : userId <> "").
  { intros ->. cbn in Hrun. injection Hrun as <- <-. discriminate Hok. }
  destruct (purchase_sale_facts w userId id w' r Hrun Hok) as (listing & Hl & Hl' & _).
  destruct (purchase_route_log _ _ _ _ _ Hrun) as [Hsame | (u & p & Hu & _ & Hadd & Hp)].
  - exfalso. clear Hl Hl'. open_world w. run_in Hrun.
    repeat next_case Hrun;
      (injection Hrun as <- <-; try discriminate Hok);
      cbn [db purchases] in Hsame;
      apply (f_equal (@List.length Purchase)) in Hsame;
      rewrite length_app in Hsame; cbn [List.length] in Hsame; lia.
  - assert (Hown : purchased userId id (db w') = true).
    { unfold purchased. rewrite Hadd, existsb_app. cbn [existsb].
      injection Hu as <-. rewrite Hp. apply orb_true_r. }
    assert (Hbody : exists purchase,
               r = json (PurchaseBody purchase (l_fileData listing) (l_fileName listing))).
    { clear Hl' Hown Hadd. open_world w. run_in Hrun.
      repeat next_case Hrun;
        (injection Hrun as <- <-; try discriminate Hok);
        injection Hl as <-; eexists; reflexivity. }
    destruct Hbody as (purchase & ->).
    exists purchase, (l_fileData listing), (l_fileName listing).
    split; [reflexivity|].
    destruct (download_route (Some userId) id w') as [w'' a] eqn:Hd.
    pose proof (f_equal fst Hd) as Hw. pose proof (f_equal snd Hd) as Ha.
    cbn [fst snd] in Hw, Ha.
    pose proof (download_route_facts w' userId id Hid) as (Hfst & _ & Hsent).
    rewrite Hfst in Hw. subst w''.
    rewrite (Hsent _ Hl'), Hown in Ha. cbn [orb with_downloads l_fileData l_fileName] in Ha.
    now subst a.
Qed.

Lemma purchase_then_download_witness :
  status (snd (purchase_route (Some "alice") "L1" Sample.market)) = 200 /\
  download_route (Some "alice") "L1"
    (fst (purchase_route (Some "alice") "L1" Sample.market)) =
    (fst (purchase_route (Some "alice") "L1" Sample.market),
     Sent ("UEsDBA==", "tool.zip")).
Proof.
  assert (Hok : status (snd (purchase_route (Some "alice") "L1" Sample.market)) = 200)
    by (vm_compute; reflexivity).
  split; [exact Hok|].
  destruct (purchase_then_download Sample.market "alice" "L1" _ _
              (surjective_pairing _) Hok) as (p & fd & fn & Hbody & Hdl).
  rewrite Hdl. vm_compute in Hbody. injection Hbody as _ <- <-. reflexivity.
Defined.

(** ** Deleting a listing *)

Lemma find_listing_after_other_update (id id' : string) f ls :
  (forall l, l_id (f l) = l_id l) ->
  find (fun l => String.eqb (l_id l) id')
    (update_where (fun l => String.eqb (l_id l) id) f ls) =
  option_map (fun l => if String.eqb (l_id l) id then f l else l)
    (find (fun l => String.eqb (l_id l) id') ls).
Proof.
  intros Hf. induction ls as [|l ls IH]; [reflexivity|].
  cbn [update_where map find]. destruct (String.eqb (l_id l) id) eqn:E.
  - rewrite Hf. destruct (String.eqb (l_id l) id'); [|exact IH].
    cbn [option_map]. now rewrite E.
  - destruct (String.eqb (l_id l) id'); [|exact IH].
    cbn [option_map]. now rewrite E.
Qed.

(** What the route that deletes a listing does, for an existing listing. *)
Lemma deleteListing_route_facts w userId id listing :
  userId <> "" ->
  find_listing id (db w) = Some listing ->
  let allowed :=
    String.eqb (l_sellerId listing) userId
    || match find_user userId (db w) with
       | Some user => u_isAdmin user
       | None => false
       end in
  (allowed = false ->
     deleteListing_route (Some userId) id w = (w, failure 403 "Not authorized")) /\
  (allowed = true ->
     let w' := fst (deleteListing_route (Some userId) id w) in
     snd (deleteListing_route (Some userId) id w) = json (Message "Listing deleted") /\
     find_listing id (db w') = Some (with_inactive listing) /\
     users (db w') = users (db w) /\ purchases (db w') = purchases (db w) /\
     List.length (marketplaceListings (db w')) =
       List.length (marketplaceListings (db w)) /\
     (forall buyer, buyer <> "" -> purchased buyer id (db w) = true ->
        download_route (Some buyer) id w' =
          (w', Sent (l_fileData listing, l_fileName listing)))).
Proof.
  intros Hid Hl allowed. subst allowed. open_world w. split.
  - intros Hno. run. rewrite (eqb_neq_false _ _ Hid), Hl. run.
    apply orb_false_iff in Hno as [-> Hadm].
    destruct (find (has_id userId) us) as [u|]; [rewrite Hadm|]; reflexivity.
  - intros Hyes. cbv zeta. run. rewrite (eqb_neq_false _ _ Hid), Hl. run.
    assert (Hgo : negb (String.eqb (l_sellerId listing) userId)
                  && negb match find (has_id userId) us with
                          | Some user => u_isAdmin user
                          | None => false
                          end = false).
    { rewrite <- negb_orb, Hyes. reflexivity. }
    rewrite Hgo. run.
    split; [reflexivity|].
    split; [rewrite find_listing_after_update by reflexivity; now rewrite Hl|].
    split; [reflexivity|]. split; [reflexivity|].
    split; [unfold update_where; apply length_map|].
    intros buyer Hb Hown.
    rewrite (eqb_neq_false _ _ Hb).
    rewrite find_listing_after_update by reflexivity. rewrite Hl.
    cbn [option_map]. run. rewrite Hown. reflexivity.
Qed.

(** Only the seller of a listing or an administrator can delete it; anyone
    else is answered 403 and nothing changes.  Deleting keeps the listing,
    marked inactive, with its price, file and seller, removes no listing,
    and touches no user and no purchase record: whoever purchased the file
    can still download it afterwards. *)
Theorem deleteListing_route_hides_listing w userId id listing :
  userId <> "" ->
  find_listing id (db w) = Some listing ->
  let allowed :=
    String.eqb (l_sellerId listing) userId
    || match find_user userId (db w) with
       | Some user => u_isAdmin user
       | None => false
       end in
  (allowed = false ->
     deleteListing_route (Some userId) id w = (w, failure 403 "Not authorized")) /\
  (allowed = true ->
     let w' := fst (deleteListing_route (Some userId) id w) in
     snd (deleteListing_route (Some userId) id w) = json (Message "Listing deleted") /\
     find_listing id (db w') = Some (with_inactive listing) /\
     users (db w') = users (db w) /\ purchases (db w') = purchases (db w) /\
     List.length (marketplaceListings (db w')) =
       List.length (marketplaceListings (db w)) /\
     (forall buyer, buyer <> "" -> purchased buyer id (db w) = true ->
        download_route (Some buyer) id w' =
          (w', Sent (l_fileData listing, l_fileName listing)))).
Proof.
  exact (deleteListing_route_facts w userId id listing).
Qed.

Lemma deleteListing_route_hides_listing_witness :
  ("bob" <> "" /\ "alice" <> "" /\
   find_listing "L1" (db Sample.market_sold) = Some (Sample.tool 50000) /\
   purchased "alice" "L1" (db Sample.market_sold) = true) /\
  deleteListing_route (Some "alice") "L1" Sample.market_sold =
    (Sample.market_sold, failure 403 "Not authorized") /\
  find_listing "L1" (db (fst (deleteListing_route (Some "bob") "L1" Sample.market_sold))) =
    Some (with_inactive (Sample.tool 50000)) /\
  snd (download_route (Some "alice") "L1"
         (fst (deleteListing_route (Some "bob") "L1" Sample.market_sold))) =
    Sent ("UEsDBA==", "tool.zip").
Proof.
  split; [repeat split; try discriminate; reflexivity|].
  pose proof (deleteListing_route_hides_listing Sample.market_sold "alice" "L1"
                (Sample.tool 50000) ltac:(discriminate) eq_refl) as Ha.
  pose proof (deleteListing_route_hides_listing Sample.market_sold "bob" "L1"
                (Sample.tool 50000) ltac:(discriminate) eq_refl) as Hb.
  cbv zeta in Ha, Hb. destruct Ha as [Hno _]. destruct Hb as [_ Hyes].
  split; [apply Hno; reflexivity|].
  destruct (Hyes eq_refl) as (_ & Hfind & _ & _ & _ & Hdl).
  split; [exact Hfind|].
  rewrite (Hdl "alice" ltac:(discriminate) eq_refl). reflexivity.
Defined.

(** A deleted listing can still be bought: the purchase route does not look
    at the active flag, and answers a request on the hidden listing as it
    would have answered it before the deletion. *)
Theorem deleted_listing_can_still_be_bought w sellerId id listing buyerId :
  sellerId <> "" ->
  find_listing id (db w) = Some listing ->
  l_sellerId listing = sellerId ->
  snd (purchase_route (Some buyerId) id
         (fst (deleteListing_route (Some sellerId) id w))) =
  snd (purchase_route (Some buyerId) id w).
Proof.
  intros Hid Hl Hs.
  destruct (deleteListing_route_facts w sellerId id listing Hid Hl) as [_ Hyes].
  cbv zeta in Hyes.
  assert (Hallowed : String.eqb (l_sellerId listing) sellerId
                     || match find_user sellerId (db w) with
                        | Some user => u_isAdmin user
                        | None => false
                        end = true).
  { rewrite Hs, String.eqb_refl. reflexivity. }
  clear Hyes. open_world w. run.
  rewrite (eqb_neq_false _ _ Hid), Hl. run.
  rewrite Hs, String.eqb_refl. cbn [negb andb]. run.
  destruct (String.eqb buyerId ""); run; [reflexivity|].
  rewrite find_listing_after_update by reflexivity. rewrite Hl. cbn [option_map].
  run. cbn [with_inactive l_sellerId l_price l_id l_fileData l_fileName].
  repeat (rewrite ?forallb_update_where by reflexivity; goal_case; try reflexivity).
Qed.

Lemma deleted_listing_can_still_be_bought_witness :
  ("bob" <> "" /\ find_listing "L1" (db Sample.market) = Some (Sample.tool 50000) /\
   l_sellerId (Sample.tool 50000) = "bob") /\
  find_listing "L1" (db (fst (deleteListing_route (Some "bob") "L1" Sample.market))) =
    Some (with_inactive (Sample.tool 50000)) /\
  status (snd (purchase_route (Some "alice") "L1"
                 (fst (deleteListing_route (Some "bob") "L1" Sample.market)))) = 200.
Proof.
  split; [repeat split; try discriminate; reflexivity|].
  split; [vm_compute; reflexivity|].
  rewrite (deleted_listing_can_still_be_bought Sample.market "bob" "L1"
             (Sample.tool 50000) "alice" ltac:(discriminate) eq_refl eq_refl).
  vm_compute. reflexivity.
Defined.

(** ** Administrators *)

Lemma keeps_id_with_granted v a b : keeps_id (with_granted v a b).
Proof. now intros u. Qed.

Lemma keeps_id_with_isSuspended s : keeps_id (with_isSuspended s).
Proof. now intros u. Qed.

#[local] Hint Resolve keeps_id_with_granted keeps_id_with_isSuspended : ledger.

Lemma columns_check_other id f us :
  forallb user_columns_ok us = true ->
  (forall u, u_balance (f u) = u_balance u /\ u_totalEarnings (f u) = u_totalEarnings u) ->
  forallb (fun u => implb (has_id id u) (user_columns_ok (f u))) us = true.
Proof.
  intros Hus Hf. apply forallb_forall. intros u Hu.
  rewrite forallb_forall in Hus. specialize (Hus u Hu).
  unfold user_columns_ok in *. destruct (Hf u) as [-> ->]. rewrite Hus.
  now destruct (has_id id u).
Qed.

(** What the route that grants or removes verification does. *)
Lemma toggleVerification_route_facts w adminId admin userId user isVerified :
  adminId <> "" ->
  find_user adminId (db w) = Some admin ->
  u_isAdmin admin = true ->
  find_user userId (db w) = Some user ->
  schema_ok (db w) = true ->
  let w' := fst (toggleVerification_route (Some adminId) userId isVerified w) in
  snd (toggleVerification_route (Some adminId) userId isVerified w) =
    json (Message (if isVerified then "Verification granted" else "Verification removed")) /\
  find_user userId (db w') =
    Some (with_granted isVerified (if isVerified then Some (clock w) else None)
            (if isVerified then Some adminId else None) user) /\
  purchases (db w') = purchases (db w) /\
  verificationPayments (db w') = verificationPayments (db w).
Proof.
  intros Hid Hadmin Hflag Hu Hok. apply schema_ok_users in Hok.
  open_world w. run. rewrite (eqb_neq_false _ _ Hid), Hadmin, Hflag. run.
  rewrite Hu. run.
  rewrite (columns_check_other userId _ us Hok) by (intros ?; split; reflexivity).
  run. lookups. rewrite Hu. repeat split.
Qed.

(** An administrator's grant makes the account verified, granted by that
    administrator at the instant of the request, with no expiry, and a
    removal clears the flag, the date and the grantor; neither changes the
    balance or earnings of the account, a purchase record or a verification
    payment.  After a grant the account cannot buy verification: its
    request is answered 400, "You are already verified". *)
Theorem admin_grant_of_verification w adminId admin userId user isVerified :
  adminId <> "" ->
  find_user adminId (db w) = Some admin ->
  u_isAdmin admin = true ->
  userId <> "" ->
  find_user userId (db w) = Some user ->
  schema_ok (db w) = true ->
  let w' := fst (toggleVerification_route (Some adminId) userId isVerified w) in
  exists user',
    find_user userId (db w') = Some user' /\
    u_isVerified user' = isVerified /\
    u_verifiedAt user' = (if isVerified then Some (clock w) else None) /\
    u_verificationGrantedBy user' = (if isVerified then Some adminId else None) /\
    u_verificationExpiry user' = None /\
    u_balance user' = u_balance user /\ u_totalEarnings user' = u_totalEarnings user /\
    purchases (db w') = purchases (db w) /\
    verificationPayments (db w') = verificationPayments (db w) /\
    (isVerified = true ->
       verification_route (Some userId) w' = (w', failure 400 "You are already verified")).
Proof.
  intros Hid Hadmin Hflag Huid Hu Hok w'.
  destruct (toggleVerification_route_facts w adminId admin userId user isVerified
              Hid Hadmin Hflag Hu Hok) as (_ & Hfind & Hp & Hv).
  fold w' in Hfind, Hp, Hv.
  eexists. split; [exact Hfind|]. cbn [with_granted u_isVerified u_verifiedAt
    u_verificationGrantedBy u_verificationExpiry u_balance u_totalEarnings].
  do 6 (split; [reflexivity|]). split; [exact Hp|]. split; [exact Hv|].
  intros ->.
  exact (proj1 (verification_route_guards w' userId _ Huid Hfind) eq_refl).
Qed.

Lemma admin_grant_of_verification_witness :
  ("root" <> "" /\ find_user "root" (db Sample.office) = Some Sample.root /\
   u_isAdmin Sample.root = true /\ "alice" <> "" /\
   find_user "alice" (db Sample.office) = Some (Sample.account "alice" 250000) /\
   schema_ok (db Sample.office) = true) /\
  find_user "alice"
    (db (fst (toggleVerification_route (Some "root") "alice" true Sample.office))) =
    Some (mkUser "alice" "alice" 250000 false false true (Some Sample.jan_15) None
            (Some "root") false 0) /\
  verification_route (Some "alice")
    (fst (toggleVerification_route (Some "root") "alice" true Sample.office)) =
    (fst (toggleVerification_route (Some "root") "alice" true Sample.office),
     failure 400 "You are already verified").
Proof.
  split; [repeat split; try discriminate; vm_compute; reflexivity|].
  assert (Hok : schema_ok (db Sample.office) = true) by (vm_compute; reflexivity).
  pose proof (admin_grant_of_verification Sample.office "root" Sample.root "alice"
                (Sample.account "alice" 250000) true ltac:(discriminate) eq_refl
                eq_refl ltac:(discriminate) eq_refl Hok) as H.
  cbv zeta in H. destruct H as (user' & Hfind & _ & _ & _ & _ & _ & _ & _ & _ & Hbuy).
  split; [vm_compute; reflexivity|]. apply Hbuy. reflexivity.
Defined.

(** An administrator cannot be suspended: the request is answered 400 and
    nothing changes.  For any other account the route sets the suspended
    flag as asked and changes nothing else of it; in particular its balance
    stays as it was. *)
Theorem suspension_spares_admins w adminId admin userId user isSuspended :
  adminId <> "" ->
  find_user adminId (db w) = Some admin ->
  u_isAdmin admin = true ->
  find_user userId (db w) = Some user ->
  schema_ok (db w) = true ->
  (u_isAdmin user = true ->
     toggleSuspend_route (Some adminId) userId isSuspended w =
       (w, failure 400 "Cannot suspend an admin")) /\
  (u_isAdmin user = false ->
     let w' := fst (toggleSuspend_route (Some adminId) userId isSuspended w) in
     snd (toggleSuspend_route (Some adminId) userId isSuspended w) =
       json (Message (if isSuspended then "User suspended" else "User unsuspended")) /\
     find_user userId (db w') = Some (with_isSuspended isSuspended user) /\
     balance_of userId (db w') = Some (u_balance user)).
Proof.
  intros Hid Hadmin Hflag Hu Hok. apply schema_ok_users in Hok.
  unfold balance_of. open_world w. split; intros Hadm; cbv zeta; run;
    rewrite (eqb_neq_false _ _ Hid), Hadmin, Hflag; run;
    rewrite Hu; run; rewrite Hadm; run; [reflexivity|].
  rewrite (columns_check_other userId _ us Hok) by (intros ?; split; reflexivity).
  run. lookups. rewrite Hu. repeat split.
Qed.

Lemma suspension_spares_admins_witness :
  ("root" <> "" /\ find_user "root" (db Sample.office) = Some Sample.root /\
   u_isAdmin Sample.root = true /\
   find_user "alice" (db Sample.office) = Some (Sample.account "alice" 250000) /\
   schema_ok (db Sample.office) = true) /\
  toggleSuspend_route (Some "root") "root" true Sample.office =
    (Sample.office, failure 400 "Cannot suspend an admin") /\
  find_user "alice" (db (fst (toggleSuspend_route (Some "root") "alice" true Sample.office))) =
    Some (with_isSuspended true (Sample.account "alice" 250000)).
Proof.
  split; [repeat split; try discriminate; vm_compute; reflexivity|].
  assert (Hok : schema_ok (db Sample.office) = true) by (vm_compute; reflexivity).
  destruct (suspension_spares_admins Sample.office "root" Sample.root "root" Sample.root
              true ltac:(discriminate) eq_refl eq_refl eq_refl Hok) as [Hadm _].
  destruct (suspension_spares_admins Sample.office "root" Sample.root "alice"
              (Sample.account "alice" 250000) true ltac:(discriminate) eq_refl eq_refl
              eq_refl Hok) as [_ Hset].
  split; [apply Hadm; reflexivity|].
  cbv zeta in Hset. destruct (Hset eq_refl) as (_ & Hfind & _). exact Hfind.
Defined.

(** ** The verification in force *)

Lemma latest_end_spec vs :
  match latest_end vs with
  | Some p => In p vs /\ forall q, In q vs -> vp_periodEnd q <= vp_periodEnd p
  | None => vs = []
  end.
Proof.
  induction vs as [|v rest IH]; [reflexivity|].
  cbn [latest_end]. destruct (latest_end rest) as [p|].
  - destruct IH as [Hin Hmax].
    destruct (Z.ltb_spec (vp_periodEnd v) (vp_periodEnd p)).
    + split; [now right|]. intros q [<- | Hq]; [lia | now apply Hmax].
    + split; [now left|]. intros q [<- | Hq]; [lia|].
      specialize (Hmax q Hq). lia.
  - subst rest. split; [now left|]. intros q [<- | []]. lia.
Qed.

Lemma in_force_spec userId t v :
  in_force userId t v = true <->
  vp_userId v = userId /\ vp_status v = active /\ t < vp_periodEnd v.
Proof.
  unfold in_force, sql_eq, sql_of_bool.
  destruct (String.eqb_spec (vp_userId v) userId) as [Hu | Hu];
    destruct (vp_status v) eqn:Es; destruct (Z.ltb_spec t (vp_periodEnd v));
    cbn; split; try discriminate; try (intros (? & ? & ?)); try congruence;
    try lia; intros _; repeat split; assumption.
Qed.

Lemma getActiveVerification_facts w userId :
  exists result,
    getActiveVerification userId w = (w, Returned result) /\
    match result with
    | Some p =>
        In p (verificationPayments (db w)) /\
        vp_userId p = userId /\ vp_status p = active /\ clock w < vp_periodEnd p /\
        forall q, In q (verificationPayments (db w)) ->
          vp_userId q = userId -> vp_status q = active -> clock w < vp_periodEnd q ->
          vp_periodEnd q <= vp_periodEnd p
    | None =>
        forall q, In q (verificationPayments (db w)) ->
          vp_userId q = userId -> vp_status q = active -> vp_periodEnd q <= clock w
    end.
Proof.
  open_world w. run. eexists. split; [reflexivity|].
  pose proof (latest_end_spec (filter (in_force userId c) vs)) as H.
  destruct (latest_end (filter (in_force userId c) vs)) as [p|].
  - destruct H as [Hin Hmax]. apply filter_In in Hin as [Hin Hf].
    apply in_force_spec in Hf as (Hu & Hs & Ht).
    repeat split; try assumption.
    intros q Hq Hqu Hqs Hqt. apply Hmax. apply filter_In. split; [exact Hq|].
    apply in_force_spec. now repeat split.
  - intros q Hq Hqu Hqs.
    destruct (Z.lt_ge_cases c (vp_periodEnd q)) as [Hlt | Hge]; [|lia].
    exfalso.
    assert (Hin : In q (filter (in_force userId c) vs)).
    { apply filter_In. split; [exact Hq|]. apply in_force_spec. now repeat split. }
    rewrite H in Hin. exact Hin.
Qed.

(** [getActiveVerification] reads and never writes.  It returns a payment
    of the user that is active and ends after the instant of the call,
    none ending later than it among such payments; and it returns nothing
    exactly when the user has no such payment, whether or not the sweep has
    run: a payment past its end is not in force even while its status is
    still active. *)
Theorem getActiveVerification_is_latest_in_force w userId :
  exists result,
    getActiveVerification userId w = (w, Returned result) /\
    match result with
    | Some p =>
        In p (verificationPayments (db w)) /\
        vp_userId p = userId /\ vp_status p = active /\ clock w < vp_periodEnd p /\
        forall q, In q (verificationPayments (db w)) ->
          vp_userId q = userId -> vp_status q = active -> clock w < vp_periodEnd q ->
          vp_periodEnd q <= vp_periodEnd p
    | None =>
        forall q, In q (verificationPayments (db w)) ->
          vp_userId q = userId -> vp_status q = active -> vp_periodEnd q <= clock w
    end.
Proof.
  exact (getActiveVerification_facts w userId).
Qed.

(** After a verification purchase answered 200 a verification of the
    account is in force: [getActiveVerification] returns an active payment
    of the account that ends no earlier than the period just bought. *)
Theorem verification_purchase_is_in_force w userId w' r :
  verification_route (Some userId) w = (w', r) ->
  status r = 200 ->
  exists payment p,
    r = json (VerificationBody "Verification successful" payment) /\
    getActiveVerification userId w' = (w', Returned (Some p)) /\
    vp_userId p = userId /\ vp_status p = active /\
    vp_periodEnd payment <= vp_periodEnd p.
Proof.
  intros Hrun Hok.
  assert (Hnew : exists payment,
             r = json (VerificationBody "Verification successful" payment) /\
             In payment (verificationPayments (db w')) /\
             vp_userId payment = userId /\ vp_status payment = active /\
             clock w' < vp_periodEnd payment).
  { open_world w. run_in Hrun.
    destruct (setMonth_next zone (c + elapsed lg 1)) as (days & _ & _ & _ & Hlen).
    assert (Hlag : 0 <= elapsed lg 1) by (cbn [elapsed]; lia).
    cbn [elapsed] in Hlen, Hlag. rewrite ?Z.add_0_l in *.
    unfold JSDate.msPerDay in Hlen.
    repeat next_case Hrun;
      (injection Hrun as <- <-; try discriminate Hok); run;
      rewrite ?Z.add_0_l in *;
      match goal with
      | H : find (has_id ?i) _ = Some ?x |- _ =>
          pose proof (find_user_id i (mkDB _ [] [] [] [] [] []) x H) as K;
          rewrite K in *
      end;
      eexists; (split; [reflexivity|]);
      (split; [apply in_or_app; right; now left|]);
      cbn [vp_userId vp_status vp_periodEnd]; repeat split; lia. }
  destruct Hnew as (payment & Hr & Hin & Hu & Hs & Ht).
  destruct (getActiveVerification_facts w' userId) as (result & Hget & Hres).
  destruct result as [p|].
  - exists payment, p. destruct Hres as (_ & Hpu & Hps & _ & Hmax).
    repeat split; try assumption. now apply Hmax.
  - exfalso. specialize (Hres payment Hin Hu Hs). lia.
Qed.

Lemma verification_purchase_is_in_force_witness :
  status (snd (verification_route (Some "carol") (Sample.carol_at Sample.jan_15))) = 200 /\
  exists p,
    getActiveVerification "carol"
      (fst (verification_route (Some "carol") (Sample.carol_at Sample.jan_15))) =
      (fst (verification_route (Some "carol") (Sample.carol_at Sample.jan_15)),
       Returned (Some p)) /\
    vp_userId p = "carol" /\ vp_status p = active.
Proof.
  assert (Hok : status (snd (verification_route (Some "carol")
                               (Sample.carol_at Sample.jan_15))) = 200)
    by (vm_compute; reflexivity).
  split; [exact Hok|].
  destruct (verification_purchase_is_in_force (Sample.carol_at Sample.jan_15) "carol" _ _
              (surjective_pairing _) Hok) as (payment & p & _ & Hget & Hu & Hs & _).
  exists p. repeat split; assumption.
Defined.
